(** * Diagnosis and adaptive-sampling engine of huawei-net-forensics

    A shallow embedding of [forensics.py], of the shape classifier and the
    aggregation of the throughput probe in [measurements.py], and of the
    history analysis, the test budget and the cell-session bookkeeping of
    [main.py], with the properties the specification states about them.

    Numbers.  Python floats are modelled by exact numbers: rationals ([Q])
    in [forensics.py] and in the orchestrator, where the code only compares,
    adds, multiplies and rounds, so that every definition runs; reals ([R])
    where the code calls [statistics.stdev] or [statistics.pstdev], which
    take a square root.  Binary rounding error of the float operations is
    not modelled.

    Failure.  A Python exception is a value [Raise e] of type [result]. *)

From Stdlib Require Import QArith Qround Qabs Reals Lra Lqa Lia ZArith Ascii String List Bool.
From stdpp Require Import gmap strings.
Import ListNotations.

(** ** Python exceptions and dictionaries *)

Inductive exn : Set :=
| AttributeError
| NameError
| TypeError
| KeyError
| ValueError
| ZeroDivisionError.

Inductive result (A : Type) : Type :=
| Ok (a : A)
| Raise (e : exn).
Arguments Ok {A} a.
Arguments Raise {A} e.

Definition bind {A B : Type} (r : result A) (k : A -> result B) : result B :=
  match r with
  | Ok a => k a
  | Raise e => Raise e
  end.

Notation "'do' x <- r ; k" := (bind r (fun x => k))
  (at level 10, x name, r at level 100, k at level 200).

(** [d.get(key, default)]: a key of a dictionary is an [option] field of a
    record, [None] when the key is missing. *)
Definition dict_get {A : Type} (field : option A) (default : A) : A :=
  match field with
  | Some v => v
  | None => default
  end.

(** ** forensics.py *)

Module Forensics.
Open Scope Q_scope.

Definition Qltb (x y : Q) : bool :=
  match x ?= y with Lt => true | _ => false end.
Definition Qgtb (x y : Q) : bool := Qltb y x.
Definition Qgeb (x y : Q) : bool := negb (Qltb x y).

(** Python's [min(a, b)] and [max(a, b)] return the first argument unless
    the second is strictly smaller (larger). *)
Definition py_min (a b : Q) : Q := if Qltb b a then b else a.
Definition py_max (a b : Q) : Q := if Qgtb b a then b else a.
Definition py_max3 (a b c : Q) : Q := py_max (py_max a b) c.

(** [round(x, 2)]: to the nearest multiple of 1/100, a tie to the even one. *)
Definition round_half_even (x : Q) : Z :=
  let f := Qfloor x in
  match ((x - inject_Z f) ?= (1 # 2))%Q with
  | Lt => f
  | Gt => (f + 1)%Z
  | Eq => if Z.even f then f else (f + 1)%Z
  end.

Definition round2 (x : Q) : Q := inject_Z (round_half_even (x * 100)) / 100.

Definition RADIO_THRESHOLD_TERRIBLE : Q := 30.
Definition RADIO_THRESHOLD_BAD : Q := 50.
Definition RADIO_THRESHOLD_MED : Q := 70.
Definition RADIO_THRESHOLD_GOOD : Q := 85.
Definition JITTER_THRESHOLD_HIGH : Q := 30.
Definition PACKET_LOSS_THRESHOLD : Q := 2.
Definition SPEED_THRESHOLD_FAST : Q := 50.
Definition SPEED_THRESHOLD_SLOW : Q := 10.
Definition RAMP_UP_THRESHOLD : Q := 1.2.

(** The dictionaries [analyze] receives.  [signal_data] and [history] may
    be [None] or empty, which the code tests by truth value; an empty
    dictionary is the record whose fields are all [None]. *)
Record SignalData : Type := { sd_score : option Q }.

Record NetworkData : Type := {
  nd_down_mbps : option Q;
  nd_latency : option Q;
  nd_jitter : option Q;
  nd_packet_loss : option Q;
  nd_ramp_up_ratio : option Q;
  nd_consistency_score : option Q;
  nd_latency_under_load_diff : option Q;
  nd_shapes : option (list string)
}.

Record History : Type := {
  h_is_stable_hour : option bool;
  h_policy_count : option Z
}.

Record Metrics : Type := {
  rf_score : option Q;
  down_mbps : Q;
  latency : Q;
  jitter : Q;
  packet_loss : Q;
  ramp_up : Q;
  consistency : Q;
  latency_diff : Q;
  shapes : list string
}.

Record DiagnosisResult : Type := {
  radio_likelihood : Q;
  congestion_likelihood : Q;
  policy_likelihood : Q;
  verdict : string;
  consistency_score : Q
}.

(** [network_data.get] on [None] is an [AttributeError]; [signal_data] is
    guarded by its truth value. *)
Definition _extract_metrics (signal_data : option SignalData)
    (network_data : option NetworkData) : result Metrics :=
  let rf := match signal_data with
            | Some sd => sd_score sd
            | None => None
            end in
  match network_data with
  | None => Raise AttributeError
  | Some nd =>
      Ok {| rf_score := rf;
            down_mbps := dict_get (nd_down_mbps nd) 0;
            latency := dict_get (nd_latency nd) 0;
            jitter := dict_get (nd_jitter nd) 0;
            packet_loss := dict_get (nd_packet_loss nd) 0;
            ramp_up := dict_get (nd_ramp_up_ratio nd) 1.0;
            consistency := dict_get (nd_consistency_score nd) 0.5;
            latency_diff := dict_get (nd_latency_under_load_diff nd) 0;
            shapes := dict_get (nd_shapes nd) [] |}
  end.

Definition _calculate_radio (rf_score : option Q) : Q :=
  match rf_score with
  | None => 0.1
  | Some s =>
      if Qltb s RADIO_THRESHOLD_TERRIBLE then 0.95
      else if Qltb s RADIO_THRESHOLD_BAD then 0.8
      else if Qltb s RADIO_THRESHOLD_MED then 0.4
      else if Qgtb s RADIO_THRESHOLD_GOOD then 0.05
      else 0.0
  end.

(** [x in l] and [l.count(x)] on a list of strings. *)
Definition str_in (x : string) (l : list string) : bool :=
  existsb (String.eqb x) l.
Definition str_count (x : string) (l : list string) : nat :=
  length (filter (String.eqb x) l).

Definition _calculate_congestion (m : Metrics) : Q :=
  let score := 0.0 in
  let score := if Qgtb (latency_diff m) 50 then score + 0.4
               else if Qgtb (latency_diff m) 20 then score + 0.2
               else score in
  let score := if Qgtb (jitter m) JITTER_THRESHOLD_HIGH then score + 0.3 else score in
  let score := if Qgtb (packet_loss m) PACKET_LOSS_THRESHOLD then score + 0.2 else score in
  let score := if str_in "linear_climb" (shapes m) then score + 0.2 else score in
  let score := if Qgtb (down_mbps m) SPEED_THRESHOLD_FAST then score * 0.1 else score in
  py_min 1.0 score.

(** [history and history.get('is_stable_hour', False)] *)
Definition stable_hour (history : option History) : bool :=
  match history with
  | Some h => dict_get (h_is_stable_hour h) false
  | None => false
  end.

Definition _calculate_policy (m : Metrics) (history : option History) : Q :=
  let is_slow := Qltb (down_mbps m) SPEED_THRESHOLD_SLOW in
  let score := 0.0 in
  let score := if Qgtb (consistency m) 0.8 then score + 0.5
               else if Qgtb (consistency m) 0.6 then score + 0.3
               else score in
  let plateau_count := str_count "plateau" (shapes m) in
  let score := if (2 <=? plateau_count)%nat then score + 0.4
               else if (plateau_count =? 1)%nat then score + 0.2
               else score in
  let score := if stable_hour history then score + 0.3 else score in
  let score := if Qgtb (ramp_up m) RAMP_UP_THRESHOLD then score + 0.1 else score in
  let score := if negb is_slow then score * 0.5 else score in
  py_min 1.0 score.

Definition _apply_counter_evidence (policy_score : Q) (m : Metrics) : Q :=
  let policy_score := if Qgtb (jitter m) 100 then policy_score * 0.5 else policy_score in
  let policy_score := if Qgtb (latency_diff m) 200 then policy_score * 0.6 else policy_score in
  match rf_score m with
  | Some s => if Qltb s 40 then policy_score * 0.4 else policy_score
  | None => policy_score
  end.

Definition _is_confident (history : option History) : bool :=
  match history with
  | None => false
  | Some h => (3 <=? dict_get (h_policy_count h) 0)%Z
  end.

Definition _normalize (r c p total : Q) : Q * Q * Q :=
  let factor := 0.95 / total in
  (r * factor, c * factor, p * factor).

Definition _get_verdict (r c p : Q) : string :=
  let mx := py_max3 r c p in
  if Qltb mx 0.4 then "Inconclusive / Gathering Data"
  else if Qeq_bool r mx then "Radio Impairment Likely"
  else if Qeq_bool c mx then "Congestion Indicators Present"
  else if Qeq_bool p mx then "Policy-Like Pattern Detected"
  else "Mixed Signals".

(** The three likelihoods before normalisation: lines 22 to 26. *)
Definition raw_likelihoods (metrics : Metrics) (history : option History)
    : Q * Q * Q :=
  let radio := _calculate_radio (rf_score metrics) in
  let congestion := _calculate_congestion metrics in
  let policy := _calculate_policy metrics history in
  let policy := _apply_counter_evidence policy metrics in
  (radio, congestion, policy).

(** Lines 28 to 30: the likelihoods the verdict is taken from. *)
Definition normalized_likelihoods (metrics : Metrics) (history : option History)
    : Q * Q * Q :=
  let '(radio, congestion, policy) := raw_likelihoods metrics history in
  let total := radio + congestion + policy in
  if Qgtb total 0.95 then _normalize radio congestion policy total
  else (radio, congestion, policy).

Definition analyze (signal_data : option SignalData)
    (network_data : option NetworkData) (history : option History)
    : result DiagnosisResult :=
  do metrics <- _extract_metrics signal_data network_data;
  let '(radio, congestion, policy) := normalized_likelihoods metrics history in
  let verdict := _get_verdict radio congestion policy in
  let verdict :=
    if String.prefix "Policy" verdict && negb (_is_confident history)
    then "Observed, low confidence"%string
    else verdict in
  Ok {| radio_likelihood := round2 radio;
        congestion_likelihood := round2 congestion;
        policy_likelihood := round2 policy;
        verdict := verdict;
        consistency_score := consistency metrics |}.

(** The metrics with another consistency score. *)
Definition with_consistency (m : Metrics) (c : Q) : Metrics :=
  {| rf_score := rf_score m; down_mbps := down_mbps m; latency := latency m;
     jitter := jitter m; packet_loss := packet_loss m; ramp_up := ramp_up m;
     consistency := c; latency_diff := latency_diff m; shapes := shapes m |}.


(** A slow link (5 Mbps) whose two probe targets both plateau, with 60 ms
    more latency under load, on a cell of score 60. *)
Definition capped_network : NetworkData :=
  {| nd_down_mbps := Some 5; nd_latency := None; nd_jitter := None;
     nd_packet_loss := None; nd_ramp_up_ratio := None;
     nd_consistency_score := Some 0.5;
     nd_latency_under_load_diff := Some 60;
     nd_shapes := Some ["plateau"; "plateau"]%string |}.

(** A fast link (60 Mbps) with 250 ms more latency under load and
    consistency 0.7, on a cell of score 35. *)
Definition weak_cell_network : NetworkData :=
  {| nd_down_mbps := Some 60; nd_latency := None; nd_jitter := None;
     nd_packet_loss := None; nd_ramp_up_ratio := None;
     nd_consistency_score := Some 0.7;
     nd_latency_under_load_diff := Some 250;
     nd_shapes := None |}.
Definition weak_cell_signal : SignalData := {| sd_score := Some 35 |}.

End Forensics.

(** ** measurements.py *)

Module Measurements.
Open Scope R_scope.

(** [statistics.mean] and [statistics.stdev] (the sample standard
    deviation).  On too short a list Python raises [StatisticsError]; every
    call below is guarded by a test of the length, as in the source. *)
Definition total (l : list R) : R := fold_right Rplus 0 l.
Definition mean (l : list R) : R := total l / INR (length l).
Definition variance (l : list R) : R :=
  total (map (fun x => (x - mean l) * (x - mean l)) l) / (INR (length l) - 1).
Definition stdev (l : list R) : R := sqrt (variance l).

Definition Rltb (x y : R) : bool := if Rlt_dec x y then true else false.
Definition Rgtb (x y : R) : bool := Rltb y x.

(** [max(a, b)] returns [a] unless [b] is strictly larger. *)
Definition py_max (a b : R) : R := if Rgtb b a then b else a.

(** [round(x, 2)]: to the nearest multiple of 1/100, a tie to the even one. *)
Definition round_half_even (x : R) : Z :=
  let f := Int_part x in
  if Rltb (x - IZR f) (1 / 2) then f
  else if Rgtb (x - IZR f) (1 / 2) then (f + 1)%Z
  else if Z.even f then f else (f + 1)%Z.
Definition round2 (x : R) : R := IZR (round_half_even (x * 100)) / 100.

Section Interpreter.

(** Whether the interpreter's [statistics] module has [linear_regression]
    (Python 3.10 and later). *)
Variable has_linear_regression : bool.

(** Lines 111 to 117.  [statistics.linear_regression] is looked up first; a
    missing attribute is the [AttributeError] the handler catches, and the
    function falls through to ["logarithmic"].  Otherwise the arguments are
    evaluated, and [times] is bound neither in [analyze_shape] nor in the
    module: a [NameError], which the handler does not catch. *)
Definition regression_branch : result string :=
  if has_linear_regression then Raise NameError
  else Ok "logarithmic"%string.

(** [samples] is a list of [(time_offset, mbps_at_interval)]. *)
Definition analyze_shape (samples : list (R * R)) : result string :=
  if (length samples <? 4)%nat then Ok "uncertain"%string
  else
    let mbps_values := map snd samples in
    let steady_state := skipn (length mbps_values / 4) mbps_values in
    match steady_state with
    | [] => Ok "uncertain"%string
    | _ =>
        let avg := mean steady_state in
        if Rltb avg 0.1 then Ok "uncertain"%string
        else
          let var := if (1 <? length steady_state)%nat
                     then stdev steady_state else 0 in
          let cv := var / avg in
          if Rltb cv 0.15 then Ok "plateau"%string
          else regression_branch
    end.

(** The classifier as the specification words it: as [analyze_shape], with
    the regression of the throughput against the elapsed time of the
    samples, the times being passed explicitly. *)
Definition deviation_products (xs ys : list R) : R :=
  total (map (fun p : R * R => (fst p - mean xs) * (snd p - mean ys))
           (combine xs ys)).
Definition slope (xs ys : list R) : R :=
  deviation_products xs ys / deviation_products xs xs.
Definition correlation (xs ys : list R) : R :=
  deviation_products xs ys
  / sqrt (deviation_products xs xs * deviation_products ys ys).

Definition specified_shape (samples : list (R * R)) : string :=
  if (length samples <? 4)%nat then "uncertain"%string
  else
    let times := map fst samples in
    let mbps_values := map snd samples in
    let steady_state := skipn (length mbps_values / 4) mbps_values in
    let avg := mean steady_state in
    if Rltb avg 0.1 then "uncertain"%string
    else if Rltb (stdev steady_state / avg) 0.15 then "plateau"%string
    else if Rgtb (correlation times mbps_values) 0.8
            && Rgtb (slope times mbps_values) 0
    then "linear_climb"%string
    else "logarithmic"%string.

(** What one target of the probe delivered: the average rate, the
    half-second samples and the byte count that [run_single_download]
    computes from the stream, or [None] when the download raised. *)
Record Download : Type := {
  dl_mbps : R;
  dl_samples : list (R * R);
  dl_total_bytes : Z
}.

Record DownloadResult : Type := {
  mbps : R;
  samples : list (R * R);
  shape : string;
  total_bytes : Z;
  ping_during : list R
}.

(** The end of [run_single_download]: the dictionary is built outside the
    [try], so that an exception of [analyze_shape] leaves the function. *)
Definition run_single_download (stream : option Download)
    : result (option DownloadResult) :=
  match stream with
  | None => Ok None
  | Some d =>
      do sh <- analyze_shape (dl_samples d);
      Ok (Some {| mbps := dl_mbps d; samples := dl_samples d; shape := sh;
                  total_bytes := dl_total_bytes d; ping_during := [] |})
  end.

Record PingStats : Type := { avg_rtt : R }.

Record Aggregated : Type := {
  download_mbps : R;
  upload_mbps : R;
  ramp_up_ratio : R;
  consistency_score : R;
  shapes : list string;
  latency_under_load_diff : R;
  timestamp : string;
  agg_total_bytes : Z
}.

(** One target as the probe sees it: the download, and the round trip
    times the ping thread collected meanwhile ([None] for a lost ping). *)
Definition Target : Type := (option Download * list (option R))%type.

Definition not_none (rtts : list (option R)) : list R :=
  flat_map (fun r => match r with Some v => [v] | None => [] end) rtts.

(** The loop over the targets, lines 199 to 212, on the triple
    [(results, mbps_vals, total_dl_bytes)]. *)
Definition probe_target (acc : list DownloadResult * list R * Z) (t : Target)
    : result (list DownloadResult * list R * Z) :=
  let '(results, mbps_vals, total_dl_bytes) := acc in
  let '(stream, ping_rtts) := t in
  do dl_res <- run_single_download stream;
  match dl_res with
  | Some r =>
      let r := {| mbps := mbps r; samples := samples r; shape := shape r;
                  total_bytes := total_bytes r;
                  ping_during := not_none ping_rtts |} in
      Ok (results ++ [r], mbps_vals ++ [mbps r],
          (total_dl_bytes + total_bytes r)%Z)
  | None => Ok acc
  end.

Fixpoint probe_targets (acc : list DownloadResult * list R * Z)
    (targets : list Target) : result (list DownloadResult * list R * Z) :=
  match targets with
  | [] => Ok acc
  | t :: rest => do acc' <- probe_target acc t; probe_targets acc' rest
  end.

Definition base_latency (ping_before : option PingStats) : R :=
  match ping_before with
  | Some p => avg_rtt p
  | None => 0
  end.

(** Lines 214 to 248. *)
Definition aggregate (now : string) (ping_before : option PingStats)
    (acc : list DownloadResult * list R * Z) : option Aggregated :=
  let '(results, mbps_vals, total_dl_bytes) := acc in
  match results with
  | [] => None
  | first_success :: _ =>
      let avg_mbps := mean mbps_vals in
      let consistency :=
        if (1 <? length mbps_vals)%nat then
          let cv := if Rgtb avg_mbps 0 then stdev mbps_vals / avg_mbps else 0 in
          py_max 0.0 (1.0 - cv * 2)
        else 1.0 in
      let all_during_pings := flat_map ping_during results in
      let diff := match all_during_pings with
                  | [] => 0
                  | _ => mean all_during_pings - base_latency ping_before
                  end in
      let ramp := if String.eqb (shape first_success) "plateau" then 1.0
                  else if String.eqb (shape first_success) "linear_climb" then 0.5
                  else 1.5 in
      Some {| download_mbps := round2 avg_mbps;
              upload_mbps := 0;
              ramp_up_ratio := ramp;
              consistency_score := consistency;
              shapes := map shape results;
              latency_under_load_diff := diff;
              timestamp := now;
              agg_total_bytes := total_dl_bytes |}
  end.

(** [run_forensic_download]: [ping_before] is the ping measured before the
    probe starts, [targets] what each target delivers, in the order of the
    list of URLs.  Any exception is caught by the outer handler, which
    returns [None]. *)
Definition run_forensic_download (now : string)
    (ping_before : option PingStats) (targets : list Target)
    : option Aggregated :=
  match probe_targets ([], [], 0%Z) targets with
  | Ok acc => aggregate now ping_before acc
  | Raise _ => None
  end.

(** The downloads that yield a result, the pings collected while they ran,
    and the targets whose samples the shape classifier accepts. *)
Definition successes (targets : list Target) : list Download :=
  flat_map (fun t : Target => match fst t with
                              | Some d => [d]
                              | None => []
                              end) targets.

Definition in_flight_pings (targets : list Target) : list R :=
  flat_map (fun t : Target => match fst t with
                              | Some _ => not_none (snd t)
                              | None => []
                              end) targets.

Definition classifiable (t : Target) : Prop :=
  match fst t with
  | Some d => exists sh : string, analyze_shape (dl_samples d) = Ok sh
  | None => True
  end.

End Interpreter.

(** The time each target is given: [max(3, duration // len(targets))]. *)
Definition per_target_duration (duration : Z) (targets : nat) : Z :=
  Z.max 3 (duration / Z.of_nat targets).

(** Inputs of the examples. *)
Definition at_half_seconds (values : list R) : list (R * R) :=
  combine (map (fun i => INR i / 2) (seq 1 (length values))) values.

Definition rising_samples : list (R * R) :=
  at_half_seconds [1; 3; 5; 7; 9; 11].
Definition steady_samples : list (R * R) :=
  at_half_seconds [10; 10.1; 9.9; 10.05].

(** A download too short to be sampled. *)
Definition short_download : Download :=
  {| dl_mbps := 8; dl_samples := []; dl_total_bytes := 1000000 |}.

(** Three targets of which only the second answers, with in-flight pings of
    80 and 90 ms and one lost ping. *)
Definition one_target_answers : list Target :=
  [ (None, [Some 70]);
    (Some short_download, [Some 80; None; Some 90]);
    (None, []) ].

(** A download whose samples rise, and a probe on which it follows one that
    was too short to be sampled. *)
Definition rising_download : Download :=
  {| dl_mbps := 6; dl_samples := rising_samples; dl_total_bytes := 2250000 |}.
Definition second_target_rises : list Target :=
  [ (Some short_download, [Some 80]);
    (Some rising_download, [Some 85]);
    (None, []) ].

(** A target on whose download the shape classifier raises. *)
Definition raising (has_linear_regression : bool) (t : Target) : Prop :=
  exists (d : Download) (e : exn),
    fst t = Some d /\
    analyze_shape has_linear_regression (dl_samples d) = Raise e.

(** *** The sampling loop of [run_single_download] *)

(** The variables of the loop. *)
Record Sampling : Type := {
  sm_total_bytes : Z;
  sm_bytes_in_interval : Z;
  sm_last_sample_time : R;
  sm_samples : list (R * R)
}.

(** What [u.read(chunk_size)] gives: a chunk of so many bytes, none at the
    end of the body, or an exception. *)
Inductive Read : Type :=
| Chunk (size : Z)
| ReadError.

Definition sampling_start : Sampling :=
  {| sm_total_bytes := 0; sm_bytes_in_interval := 0;
     sm_last_sample_time := 0; sm_samples := [] |}.

(** The loop of lines 133 to 152, on the clock read at the head of each
    turn and the outcome of the read that follows it; a list that ends is a
    body that ends.  [None] is the exception that leaves the function. *)
Fixpoint read_loop (start_time duration : R) (reads : list (R * Read))
    (st : Sampling) : option Sampling :=
  match reads with
  | [] => Some st
  | (now, r) :: rest =>
      let elapsed := now - start_time in
      if Rgtb elapsed duration then Some st
      else
        match r with
        | ReadError => None
        | Chunk size =>
            if (size <=? 0)%Z then Some st
            else
              let total_bytes := (sm_total_bytes st + size)%Z in
              let bytes_in_interval := (sm_bytes_in_interval st + size)%Z in
              if Rltb (now - sm_last_sample_time st) 0.5 then
                read_loop start_time duration rest
                  {| sm_total_bytes := total_bytes;
                     sm_bytes_in_interval := bytes_in_interval;
                     sm_last_sample_time := sm_last_sample_time st;
                     sm_samples := sm_samples st |}
              else
                let inst_mbps :=
                  IZR (bytes_in_interval * 8) / (0.5 * 1000000) in
                read_loop start_time duration rest
                  {| sm_total_bytes := total_bytes;
                     sm_bytes_in_interval := 0;
                     sm_last_sample_time := now;
                     sm_samples := sm_samples st ++ [(elapsed, inst_mbps)] |}
        end
  end.

(** [run_single_download] up to the dictionary it returns: [connection] is
    [None] when [urlopen] raises, [end_time] the clock after the loop. *)
Definition download (connection : option (list (R * Read)))
    (start_time duration end_time : R) : option Download :=
  match connection with
  | None => None
  | Some reads =>
      match read_loop start_time duration reads sampling_start with
      | None => None
      | Some st =>
          let total_time := end_time - start_time in
          let total_time := if Rltb total_time 0.1 then 0.1 else total_time in
          Some {| dl_mbps := IZR (sm_total_bytes st * 8) / (total_time * 1000000);
                  dl_samples := sm_samples st;
                  dl_total_bytes := sm_total_bytes st |}
      end
  end.

(** Times of which each is at least half a second after the one before. *)
Fixpoint spaced (times : list R) : Prop :=
  match times with
  | [] => True
  | t :: rest =>
      match rest with
      | [] => True
      | t' :: _ => t + 0.5 <= t'
      end /\ spaced rest
  end.

(** What the loop keeps: the bytes seen are those of the samples taken and
    of the interval that is running; the samples are spaced, the last one
    taken at [sm_last_sample_time], and none is later than the duration. *)
Definition sampling_invariant (start_time duration : R) (st : Sampling) : Prop :=
  (0 <= sm_bytes_in_interval st)%Z /\
  IZR (sm_total_bytes st) =
    62500 * total (map snd (sm_samples st)) + IZR (sm_bytes_in_interval st) /\
  Forall (fun s : R * R => fst s <= duration /\ 0 <= snd s) (sm_samples st) /\
  spaced (map fst (sm_samples st)) /\
  match rev (sm_samples st) with
  | last :: _ => fst last = sm_last_sample_time st - start_time
  | [] => True
  end.

(** A body of three chunks read at 1000.1, 1000.3 and 1000.9 seconds of a
    download started at 1000 seconds. *)
Definition three_chunks : list (R * Read) :=
  [ (10001 / 10, Chunk 81920); (10003 / 10, Chunk 81920);
    (10009 / 10, Chunk 40000) ].

End Measurements.

(** ** main.py: the history analysis *)

Module HistoryAnalyzer.
Open Scope R_scope.

(** [statistics.pstdev], the population standard deviation. *)
Definition pvariance (l : list R) : R :=
  Measurements.total
    (map (fun x => (x - Measurements.mean l) * (x - Measurements.mean l)) l)
  / INR (length l).
Definition pstdev (l : list R) : R := sqrt (pvariance l).

(** A cell of a row of [csv.DictReader]: the column may be missing from the
    header, the row may be too short (the reader fills in [None]), or the
    cell holds a string. *)
Inductive cell : Type :=
| NoKey
| NoneValue
| Str (s : string).

(** The truth value Python gives a cell: only a non-empty string is true. *)
Definition truthy (c : cell) : option string :=
  match c with
  | Str s => if String.eqb s "" then None else Some s
  | _ => None
  end.

Record Row : Type := {
  r_timestamp : cell;
  r_data_bytes : cell;
  r_avg_score : cell;
  r_verdict : cell
}.

(** A naive [datetime], in microseconds: its wall-clock reading, which the
    subtraction of two datetimes uses, its [timestamp()], and its hour. *)
Record DateTime : Type := {
  wall : Z;
  posix : Z;
  hour : Z
}.

Record RowResult : Type := {
  bytes : R;
  score : option R;
  policy : bool
}.

Record HistoryContext : Type := {
  is_stable_hour : bool;
  policy_count : Z;
  monthly_bytes : R
}.

Definition neutral : HistoryContext :=
  {| is_stable_hour := false; policy_count := 0; monthly_bytes := 0 |}.

(** The observation store: the file may not exist, reading it may raise,
    or it yields its rows. *)
Inductive Store : Type :=
| NoFile
| Unreadable
| Rows (rows : list Row).

Definition microseconds_per_day : Z := 86400000000.
Definition seven_days : Z := 7 * 24 * 3600 * 1000000.

Section Parsers.

(** [datetime.fromisoformat] and [float] on a string; [None] is the
    [ValueError] of a string that does not parse.  A timestamp with a UTC
    offset parses, but its subtraction from the naive [now_dt] raises the
    [TypeError] the same handler catches before any field is set, so it
    counts as one that does not parse. *)
Variable fromisoformat : string -> option DateTime.
Variable float : string -> option R.

(** [(now_dt - dt).days] *)
Definition days (now_dt dt : DateTime) : Z :=
  ((wall now_dt - wall dt) / microseconds_per_day)%Z.

(** [float(row.get("data_bytes", 0) or 0)] *)
Definition data_bytes_value (row : Row) : option R :=
  match truthy (r_data_bytes row) with
  | None => Some 0
  | Some s => float s
  end.

(** A [ValueError] or [TypeError] leaves [res] as it is at that point;
    [None.startswith] is an [AttributeError], which is not caught here. *)
Definition _process_row (row : Row) (now_dt : DateTime) (current_hour : Z)
    (recent_cutoff : Z) : result RowResult :=
  let res := {| bytes := 0; score := None; policy := false |} in
  match truthy (r_timestamp row) with
  | None => Ok res
  | Some ts_str =>
      match fromisoformat ts_str with
      | None => Ok res
      | Some dt =>
          let ts := posix dt in
          match (if (days now_dt dt <=? 30)%Z then data_bytes_value row
                 else Some 0) with
          | None => Ok res
          | Some b =>
              let res := {| bytes := b; score := None; policy := false |} in
              if (recent_cutoff <? ts)%Z then
                match (if (hour dt =? current_hour)%Z then
                         match truthy (r_avg_score row) with
                         | Some s => option_map Some (float s)
                         | None => Some None
                         end
                       else Some None) with
                | None => Ok res
                | Some sc =>
                    let res := {| bytes := b; score := sc; policy := false |} in
                    match r_verdict row with
                    | NoneValue => Raise AttributeError
                    | NoKey => Ok res
                    | Str v =>
                        Ok {| bytes := b; score := sc;
                              policy := String.prefix "Policy" v |}
                    end
                end
              else Ok res
          end
      end
  end.

(** The body of the loop of lines 120 to 124, on the triple
    [(hour_scores, policy_count, monthly_bytes)]. *)
Definition scan_row (now_dt : DateTime) (acc : list R * Z * R) (r : Row)
    : result (list R * Z * R) :=
  let '(hour_scores, policy_count, monthly_bytes) := acc in
  do p <- _process_row r now_dt (hour now_dt) (posix now_dt - seven_days)%Z;
  Ok (match score p with
      | Some s => hour_scores ++ [s]
      | None => hour_scores
      end,
      if policy p then (policy_count + 1)%Z else policy_count,
      monthly_bytes + bytes p).

Fixpoint scan_rows (now_dt : DateTime) (acc : list R * Z * R)
    (rows : list Row) : result (list R * Z * R) :=
  match rows with
  | [] => Ok acc
  | r :: rest => do acc' <- scan_row now_dt acc r; scan_rows now_dt acc' rest
  end.

Definition get_history_analysis (store : Store) (now_dt : DateTime)
    : HistoryContext :=
  match store with
  | NoFile => neutral
  | Unreadable => neutral
  | Rows rows =>
      match scan_rows now_dt ([], 0%Z, 0) rows with
      | Raise _ => neutral
      | Ok (hour_scores, policy_count, monthly_bytes) =>
          {| is_stable_hour := (5 <? length hour_scores)%nat
                               && Measurements.Rltb (pstdev hour_scores) 10;
             policy_count := policy_count;
             monthly_bytes := monthly_bytes |}
      end
  end.

(** The specification's words: a row is a same-hour score sample of the
    last 7 days when its timestamp parses, is later than seven days before
    now and has the hour of now, and its score is a number; the code also
    asks that a byte count of the last 30 days be a number.  A row the loop
    gets through is one on which [_process_row] does not raise. *)
Definition hour_sample (now_dt : DateTime) (row : Row) : option R :=
  match truthy (r_timestamp row) with
  | None => None
  | Some ts_str =>
      match fromisoformat ts_str with
      | None => None
      | Some dt =>
          if (days now_dt dt <=? 30)%Z
             && negb (match data_bytes_value row with
                      | Some _ => true
                      | None => false
                      end)
          then None
          else if (posix now_dt - seven_days <? posix dt)%Z
                  && (hour dt =? hour now_dt)%Z
          then match truthy (r_avg_score row) with
               | Some s => float s
               | None => None
               end
          else None
      end
  end.

Definition same_hour_scores (now_dt : DateTime) (rows : list Row) : list R :=
  flat_map (fun r => match hour_sample now_dt r with
                     | Some s => [s]
                     | None => []
                     end) rows.

Definition processable (now_dt : DateTime) (row : Row) : Prop :=
  exists p : RowResult,
    _process_row row now_dt (hour now_dt) (posix now_dt - seven_days)%Z = Ok p.

End Parsers.

(** Inputs of the examples: a store whose rows were all logged an hour
    ago with score 50, read at 14:30 of day 20. *)
Definition example_now : DateTime :=
  {| wall := 20 * 86400000000 + 52200000000;
     posix := 20 * 86400000000 + 52200000000;
     hour := 14 |}.
Definition an_hour_ago : DateTime :=
  {| wall := 20 * 86400000000 + 50400000000;
     posix := 20 * 86400000000 + 50400000000;
     hour := 14 |}.
Definition example_fromisoformat (s : string) : option DateTime :=
  if String.eqb s "an hour ago" then Some an_hour_ago else None.
Definition example_float (s : string) : option R :=
  if String.eqb s "50" then Some 50 else None.
Definition example_row : Row :=
  {| r_timestamp := Str "an hour ago"; r_data_bytes := Str "";
     r_avg_score := Str "50"; r_verdict := Str "Radio Impairment Likely" |}.
Definition five_rows : list Row := repeat example_row 5.
Definition six_rows : list Row := repeat example_row 6.

(** A row without a timestamp, and a row cut short after its score, which
    the reader fills up with [None]. *)
Definition undated_row : Row :=
  {| r_timestamp := Str ""; r_data_bytes := Str "12"; r_avg_score := Str "50";
     r_verdict := Str "Policy-Like Pattern Detected" |}.
Definition short_row : Row :=
  {| r_timestamp := Str "an hour ago"; r_data_bytes := Str "";
     r_avg_score := Str "50"; r_verdict := NoneValue |}.

End HistoryAnalyzer.

(** ** main.py: the orchestrator *)

Module Monitor.
Open Scope Q_scope.

Definition WINDOW_SECONDS : Q := 90.
Definition MIN_SAMPLES : nat := 5.
Definition MAX_DAILY_tests : Z := 12.
Definition PSI_TRIGGER_THRESHOLD : Q := 50.
Definition BASELINE_INTERVAL_SECONDS : Q := 4 * 3600.

(** [a / b], which raises on a zero divisor. *)
Definition py_div (a b : Q) : result Q :=
  if Qeq_bool b 0 then Raise ZeroDivisionError else Ok (a / b).

Definition mean (l : list Q) : Q :=
  fold_right Qplus 0 l / inject_Z (Z.of_nat (length l)).

Definition round1 (x : Q) : Q :=
  inject_Z (Forensics.round_half_even (x * 10)) / 10.

Definition calculate_simple_psi (rf_score : option Q) (down_mbps latency_avg : Q)
    : Q :=
  let rf := dict_get rf_score 50 in
  let speed_score :=
    Forensics.py_max 0 (Forensics.py_min 100 ((down_mbps / 30.0) * 100)) in
  let lat_pen :=
    if negb (Qeq_bool latency_avg 0) && Forensics.Qgtb latency_avg 100
    then (latency_avg - 100) / 5.0 else 0 in
  Forensics.py_max 0 (Forensics.py_min 100 (rf - speed_score + lat_pen)).

(** The dictionary of [get_signal_metrics]. *)
Record SignalMetrics : Type := {
  band : option string;
  pci : option string;
  enodeb : option string;
  sinr : option Q;
  rsrq : option Q;
  rsrp : option Q;
  bw : option Q;
  score : option Q
}.

Record PingStats : Type := {
  avg_rtt : Q;
  jitter : Q;
  packet_loss : Q
}.

(** What [run_forensic_download] or [run_speedtest] returns; the second
    has no consistency, latency difference, shapes or byte count. *)
Record SpeedResult : Type := {
  download_mbps : Q;
  upload_mbps : Q;
  ramp_up_ratio : Q;
  consistency_score : option Q;
  latency_under_load_diff : option Q;
  shapes : option (list string);
  total_bytes : option Z
}.

Record Session : Type := {
  start_time : Q;
  s_band : option string;
  s_pci : option string;
  s_enodeb : option string;
  total_score : Q;
  total_sinr : Q;
  total_rsrq : Q;
  total_rsrp : Q;
  sample_count : Z
}.

(** A row of the cell history. *)
Record SessionRow : Type := {
  row_start_time : Q;
  row_end_time : Q;
  row_duration_sec : Q;
  row_band : option string;
  row_pci : option string;
  row_enodeb : option string;
  row_avg_score : Q;
  row_avg_sinr : Q;
  row_avg_rsrq : Q;
  row_avg_rsrp : Q;
  row_sample_count : Z
}.

(** The arguments of a call of [log_observation]; how it formats them into
    a row of the observation store is not modelled. *)
Record Observation : Type := {
  obs_data : SignalMetrics;
  obs_values : list Q;
  obs_speed_res : option SpeedResult;
  obs_ping_res : option PingStats;
  obs_forensics : Forensics.DiagnosisResult
}.

(** The fields of a [Monitor]. *)
Record State : Type := {
  windows : gmap string (list Q);
  current_key : option string;
  last_change : Q;
  last_speedtest_time : Q;
  daily_tests_count : Z;
  current_day : Z;
  current_session : option Session
}.

(** What lies outside the [Monitor]: the global [last_speed_result]
    ([None] is the empty dictionary), the two stores, and the number of
    throughput probes the orchestrator has started so far.  The live state served to the status
    surface is not modelled. *)
Record World : Type := {
  last_speed_result : option SpeedResult;
  cell_history : list SessionRow;
  observations : list Observation;
  probes_started : nat
}.

(** What a tick reads from outside: the signal, the day of the month, the
    clock at each place the code reads it, the ping, the two throughput
    tests, and the history context. *)
Record Env : Type := {
  signal : option SignalMetrics;
  today : Z;
  clock_change : Q;
  clock_window : Q;
  ping : option PingStats;
  clock_speedtest : Q;
  forensic_download : option SpeedResult;
  speedtest : option SpeedResult;
  clock_done : Q;
  history : Forensics.History
}.

(** [Monitor.__init__] *)
Definition init (now : Q) (day : Z) : State :=
  {| windows := ∅; current_key := None; last_change := now;
     last_speedtest_time := 0; daily_tests_count := 0; current_day := day;
     current_session := None |}.

Definition check_day_rollover (self : State) (nd : Z) : State :=
  if (nd =? current_day self)%Z then self
  else {| windows := windows self; current_key := current_key self;
          last_change := last_change self;
          last_speedtest_time := last_speedtest_time self;
          daily_tests_count := 0; current_day := nd;
          current_session := current_session self |}.

(** How an f-string prints a field that may be [None]. *)
Definition fmt (v : option string) : string := dict_get v "None"%string.

Definition get_key_and_score (d : SignalMetrics) : string * Q :=
  let k := (fmt (band d) ++ ":" ++ fmt (pci d) ++ ":" ++ fmt (enodeb d))%string in
  match score d with
  | None => ("NETWORK_ONLY"%string, 0)
  | Some s => (k, s)
  end.

(** The session is finalized when there is one: a dictionary with keys is
    true whatever its [sample_count].  The clock is read once per call. *)
Definition handle_context_change (self : State) (w : World) (key : string)
    (d : SignalMetrics) (now : Q) : result (State * World) :=
  do w' <-
    match current_session self with
    | Some s =>
        let n := inject_Z (sample_count s) in
        do avg_score <- py_div (total_score s) n;
        do avg_sinr <- py_div (total_sinr s) n;
        do avg_rsrq <- py_div (total_rsrq s) n;
        do avg_rsrp <- py_div (total_rsrp s) n;
        Ok {| last_speed_result := last_speed_result w;
              cell_history := cell_history w ++
                [{| row_start_time := start_time s;
                    row_end_time := now;
                    row_duration_sec := round1 (now - start_time s);
                    row_band := s_band s; row_pci := s_pci s;
                    row_enodeb := s_enodeb s;
                    row_avg_score := Forensics.round2 avg_score;
                    row_avg_sinr := Forensics.round2 avg_sinr;
                    row_avg_rsrq := Forensics.round2 avg_rsrq;
                    row_avg_rsrp := Forensics.round2 avg_rsrp;
                    row_sample_count := sample_count s |}];
              observations := observations w;
              probes_started := probes_started w |}
    | None => Ok w
    end;
  Ok ({| windows := match windows self !! key with
                    | Some _ => windows self
                    | None => <[key := []]> (windows self)
                    end;
         current_key := Some key;
         last_change := now;
         last_speedtest_time := last_speedtest_time self;
         daily_tests_count := daily_tests_count self;
         current_day := current_day self;
         current_session :=
           Some {| start_time := now; s_band := band d; s_pci := pci d;
                   s_enodeb := enodeb d; total_score := 0; total_sinr := 0;
                   total_rsrq := 0; total_rsrp := 0; sample_count := 0 |} |},
      w').

Definition update_session (self : State) (s : Q) (d : SignalMetrics) : State :=
  match current_session self with
  | None => self
  | Some cs =>
      {| windows := windows self; current_key := current_key self;
         last_change := last_change self;
         last_speedtest_time := last_speedtest_time self;
         daily_tests_count := daily_tests_count self;
         current_day := current_day self;
         current_session :=
           Some {| start_time := start_time cs; s_band := s_band cs;
                   s_pci := s_pci cs; s_enodeb := s_enodeb cs;
                   total_score := total_score cs + s;
                   total_sinr := total_sinr cs + dict_get (sinr d) 0;
                   total_rsrq := total_rsrq cs + dict_get (rsrq d) 0;
                   total_rsrp := total_rsrp cs + dict_get (rsrp d) 0;
                   sample_count := (sample_count cs + 1)%Z |} |}
  end.

(** [a or b] on two results of which a present one is a dictionary with
    keys, hence true. *)
Definition py_or {A : Type} (a b : option A) : option A :=
  match a with
  | Some _ => a
  | None => b
  end.

(** The condition of line 264: whether a test is due once the daily cap
    allows one, [ts] being the time since the last test. *)
Definition due (ts psi : Q) : bool :=
  Forensics.Qgtb ts BASELINE_INTERVAL_SECONDS
  || (Forensics.Qgtb psi PSI_TRIGGER_THRESHOLD && Forensics.Qgtb ts 900).

Definition execute_speedtest_if_needed (self : State) (w : World) (psi : Q)
    (env : Env) : State * World * option SpeedResult :=
  if (MAX_DAILY_tests <=? daily_tests_count self)%Z then (self, w, None)
  else
    let ts := clock_speedtest env - last_speedtest_time self in
    if due ts psi then
      let w := {| last_speed_result := last_speed_result w;
                  cell_history := cell_history w;
                  observations := observations w;
                  probes_started := S (probes_started w) |} in
      match py_or (forensic_download env) (speedtest env) with
      | Some res =>
          ({| windows := windows self; current_key := current_key self;
              last_change := last_change self;
              last_speedtest_time := clock_done env;
              daily_tests_count := (daily_tests_count self + 1)%Z;
              current_day := current_day self;
              current_session := current_session self |}, w, Some res)
      | None => (self, w, None)
      end
    else (self, w, None).

(** [self.windows[key]], a [KeyError] on a missing key. *)
Definition window (self : State) (key : string) : result (list Q) :=
  match windows self !! key with
  | Some vals => Ok vals
  | None => Raise KeyError
  end.

Definition set_window (self : State) (key : string) (vals : list Q) : State :=
  {| windows := <[key := vals]> (windows self);
     current_key := current_key self; last_change := last_change self;
     last_speedtest_time := last_speedtest_time self;
     daily_tests_count := daily_tests_count self;
     current_day := current_day self;
     current_session := current_session self |}.

Definition process_window (self : State) (w : World) (key : string)
    (data : SignalMetrics) (env : Env) : result (State * World) :=
  do vals <- window self key;
  if (length vals <? MIN_SAMPLES)%nat then Ok (self, w)
  else
    let ping_res := ping env in
    let avg := mean vals in
    let ld := match last_speed_result w with
              | Some r => download_mbps r
              | None => 0
              end in
    let ll := match ping_res with Some p => avg_rtt p | None => 0 end in
    let '(self, w, sr) :=
      execute_speedtest_if_needed self w
        (calculate_simple_psi (Some avg) ld ll) env in
    let nd :=
      {| Forensics.nd_down_mbps :=
           Some (match sr with Some r => download_mbps r | None => ld end);
         Forensics.nd_latency :=
           Some (match ping_res with Some p => avg_rtt p | None => ll end);
         Forensics.nd_jitter :=
           Some (match ping_res with Some p => jitter p | None => 0 end);
         Forensics.nd_packet_loss :=
           Some (match ping_res with Some p => packet_loss p | None => 0 end);
         Forensics.nd_ramp_up_ratio :=
           Some (match sr with Some r => ramp_up_ratio r | None => 1.0 end);
         Forensics.nd_consistency_score :=
           Some (match sr with
                 | Some r => dict_get (consistency_score r) 0.5
                 | None => 0.5
                 end);
         Forensics.nd_latency_under_load_diff :=
           Some (match sr with
                 | Some r => dict_get (latency_under_load_diff r) 0
                 | None => 0
                 end);
         Forensics.nd_shapes :=
           Some (match sr with
                 | Some r => dict_get (shapes r) []
                 | None => []
                 end) |} in
    do analysis <-
      Forensics.analyze (Some {| Forensics.sd_score := score data |})
        (Some nd) (Some (history env));
    let w := {| last_speed_result := py_or sr (last_speed_result w);
                cell_history := cell_history w;
                observations := observations w ++
                  [{| obs_data := data; obs_values := vals;
                      obs_speed_res := sr; obs_ping_res := ping_res;
                      obs_forensics := analysis |}];
                probes_started := probes_started w |} in
    Ok (set_window self key [], w).

Definition tick (self : State) (w : World) (env : Env) : result (State * World) :=
  match signal env with
  | None => Ok (self, w)
  | Some data =>
      let self := check_day_rollover self (today env) in
      let '(key, score) := get_key_and_score data in
      do sw <- (if bool_decide (Some key = current_key self) then Ok (self, w)
                else handle_context_change self w key data (clock_change env));
      let '(self, w) := sw in
      do vals <- window self key;
      let self := set_window self key (vals ++ [score]) in
      let self := update_session self score data in
      if Forensics.Qgeb (clock_window env - last_change self) WINDOW_SECONDS
      then process_window self w key data env
      else Ok (self, w)
  end.

(** The states the orchestrator reaches: from [init], through ticks that
    return, and through the startup test, which runs in a thread of its
    own and sets [last_speed_result] at any moment. *)
Inductive reachable : State -> World -> Prop :=
| reach_init (now : Q) (day : Z) (w : World) : reachable (init now day) w
| reach_tick (self : State) (w : World) (env : Env) (self' : State) (w' : World) :
    reachable self w -> tick self w env = Ok (self', w') -> reachable self' w'
| reach_initial_speedtest (self : State) (w : World) (res : SpeedResult) :
    reachable self w ->
    reachable self {| last_speed_result := Some res;
                      cell_history := cell_history w;
                      observations := observations w;
                      probes_started := probes_started w |}.

(** The samples the active session has accumulated; none without a session. *)
Definition accumulated_samples (self : State) : Z :=
  match current_session self with
  | Some s => sample_count s
  | None => 0
  end.

(** Between ticks a session, when there is one, holds at least one sample,
    and the active key has a window. *)
Definition session_has_samples (self : State) : Prop :=
  match current_session self with
  | Some s => (1 <= sample_count s)%Z
  | None => True
  end.

Definition active_window (self : State) : Prop :=
  match current_key self with
  | Some k => is_Some (windows self !! k)
  | None => True
  end.

(** Inputs of the examples. *)
Definition fresh_world : World :=
  {| last_speed_result := None; cell_history := []; observations := [];
     probes_started := 0 |}.
Definition cell_a : SignalMetrics :=
  {| band := Some "B3"%string; pci := Some "101"%string;
     enodeb := Some "5001"%string; sinr := Some 12; rsrq := Some (-11);
     rsrp := Some (-95); bw := Some 20; score := Some 62 |}.

Definition cell_a_key : string := "B3:101:5001".
Definition first_tick : Env :=
  {| signal := Some cell_a; today := 1; clock_change := 10;
     clock_window := 10; ping := None; clock_speedtest := 10;
     forensic_download := None; speedtest := None; clock_done := 10;
     history := {| Forensics.h_is_stable_hour := Some false;
                   Forensics.h_policy_count := Some 0%Z |} |}.

(** A state on [cell_a] whose window holds four scores and whose session
    holds as many samples, and a tick that comes 100 seconds after the last
    change of cell. *)
Definition four_samples : State :=
  {| windows := {[ cell_a_key := [60; 61; 62; 63] ]};
     current_key := Some cell_a_key;
     last_change := 0;
     last_speedtest_time := 0;
     daily_tests_count := 0;
     current_day := 1;
     current_session :=
       Some {| start_time := 0; s_band := Some "B3"%string;
               s_pci := Some "101"%string; s_enodeb := Some "5001"%string;
               total_score := 246; total_sinr := 48; total_rsrq := -44;
               total_rsrp := -380; sample_count := 4 |} |}.
Definition late_tick : Env :=
  {| signal := Some cell_a; today := 1; clock_change := 100;
     clock_window := 100; ping := None; clock_speedtest := 100;
     forensic_download := None; speedtest := None; clock_done := 100;
     history := {| Forensics.h_is_stable_hour := Some false;
                   Forensics.h_policy_count := Some 0%Z |} |}.

(** The same state with an older window of [cell_b] left behind, and a
    tick that finds the modem back on [cell_b]. *)
Definition cell_b : SignalMetrics :=
  {| band := Some "B7"%string; pci := Some "202"%string;
     enodeb := Some "5002"%string; sinr := Some 5; rsrq := Some (-14);
     rsrp := Some (-105); bw := Some 10; score := Some 35 |}.
Definition cell_b_key : string := "B7:202:5002".
Definition two_cells : State :=
  {| windows := <[ cell_b_key := [30; 31] ]> (windows four_samples);
     current_key := current_key four_samples;
     last_change := last_change four_samples;
     last_speedtest_time := last_speedtest_time four_samples;
     daily_tests_count := daily_tests_count four_samples;
     current_day := current_day four_samples;
     current_session := current_session four_samples |}.
Definition back_on_b : Env :=
  {| signal := Some cell_b; today := 1; clock_change := 200;
     clock_window := 200; ping := None; clock_speedtest := 200;
     forensic_download := None; speedtest := None; clock_done := 200;
     history := {| Forensics.h_is_stable_hour := Some false;
                   Forensics.h_policy_count := Some 0%Z |} |}.

End Monitor.

(** ** providers.py *)

Module Providers.
Open Scope Q_scope.

(** [normalize_metric]: the division raises when the two bounds are equal. *)
Definition normalize_metric (val : option Q) (min_v max_v : Q) : result Q :=
  match val with
  | None => Ok 0
  | Some v =>
      do ratio <- Monitor.py_div (v - min_v) (max_v - min_v);
      Ok (Forensics.py_max 0 (Forensics.py_min 100 (ratio * 100)))
  end.

(** [calculate_rf_score]; the bandwidth is not used. *)
Definition calculate_rf_score (sinr rsrq rsrp _bw : option Q)
    : result (option Q) :=
  match sinr, rsrq, rsrp with
  | Some _, Some _, Some _ =>
      do s_score <- normalize_metric sinr (-5) 25;
      do q_score <- normalize_metric rsrq (-20) (-10);
      do p_score <- normalize_metric rsrp (-120) (-80);
      Ok (Some (s_score * 0.45 + q_score * 0.35 + p_score * 0.20))
  | _, _, _ => Ok None
  end.


(** What the modem answers, after [parse_num] and [bw_to_mhz], which give
    [None] for what they cannot read. *)
Record Signal : Type := {
  sig_band : option string;
  sig_pci : option string;
  sig_enodeb : option string;
  sig_sinr : option Q;
  sig_rsrq : option Q;
  sig_rsrp : option Q;
  sig_dlbandwidth : option Q
}.


(** Inputs of the examples. *)
Definition fair_signal : Signal :=
  {| sig_band := Some "B3"%string; sig_pci := Some "101"%string;
     sig_enodeb := Some "5001"%string; sig_sinr := Some 10;
     sig_rsrq := Some (-15); sig_rsrp := Some (-100);
     sig_dlbandwidth := Some 20 |}.

End Providers.

(** ** main.py: the status surface *)

Module Api.
Open Scope Q_scope.

Definition MAX_PAGE_LIMIT : Z := 1000.

(** The slice [l[start:stop]] of a list: a negative index counts from the
    end, and both indices are cut to the bounds of the list. *)
Definition py_slice {A : Type} (l : list A) (start stop : Z) : list A :=
  let n := Z.of_nat (length l) in
  let bound (i : Z) := if (i <? 0)%Z then Z.max 0 (i + n) else Z.min i n in
  let a := bound start in
  let b := bound stop in
  firstn (Z.to_nat (b - a)) (skipn (Z.to_nat a) l).

Record Page (A : Type) : Type := {
  page : Z;
  limit : Z;
  total : nat;
  data : list A
}.
Arguments page {A} _.
Arguments limit {A} _.
Arguments total {A} _.
Arguments data {A} _.

(** The rows of the page [pg] of [lim] rows, newest first:
    [rs.reverse(); st = pg * lim; rs[st:st+lim]]. *)
Definition history_data {A : Type} (rows : list A) (pg lim : Z) : list A :=
  let rs := rev rows in
  let st := (pg * lim)%Z in
  py_slice rs st (st + lim).

Section History.

(** [int] on a string; [None] is its [ValueError]. *)
Variable int : string -> option Z.

(** [int(qs.get(name, [default])[0])]: the value of a query parameter. *)
Definition query_int (value : option string) (default : Z) : result Z :=
  match value with
  | None => Ok default
  | Some s => match int s with
              | Some z => Ok z
              | None => Raise ValueError
              end
  end.

(** The branch [/history] of [do_GET], on the rows of the observation
    store, none when the file does not exist. *)
Definition history_page {A : Type} (rows : list A)
    (page_value limit_value : option string) : result (Page A) :=
  do pg <- query_int page_value 0;
  do l <- query_int limit_value 50;
  let lim := Z.min l MAX_PAGE_LIMIT in
  Ok {| page := pg; limit := lim; total := length (rev rows);
        data := history_data rows pg lim |}.

End History.

(** A row of the observation store as [handle_stats] reads it. *)
Record StatRow : Type := {
  st_timestamp : HistoryAnalyzer.cell;
  st_avg_score : HistoryAnalyzer.cell;
  st_score : HistoryAnalyzer.cell
}.

Inductive Log : Type :=
| LogMissing
| LogUnreadable
| LogRows (rows : list StatRow).

(** The answer of [/stats]: for each hour the lowest score, or [None]. *)
Record Stats : Type := {
  weekly : gmap Z (option Q);
  monthly : gmap Z (option Q)
}.

(** [dict.fromkeys(range(24), 100.0)] *)
Definition fresh_buckets : gmap Z Q :=
  list_to_map (map (fun h : nat => (Z.of_nat h, 100)) (seq 0 24)).

(** [{h: (v if v < 99.9 else None) for h, v in b.items()}] *)
Definition reported (b : gmap Z Q) : gmap Z (option Q) :=
  (fun v : Q => if Forensics.Qltb v 99.9 then Some v else None) <$> b.

Section Parsers.

Variable fromisoformat : string -> option HistoryAnalyzer.DateTime.
Variable float : string -> option Q.

(** [if days <= limit and score < b[h]: b[h] = score] *)
Definition lower_bucket (b : gmap Z Q) (days limit h : Z) (score : Q)
    : result (gmap Z Q) :=
  if (days <=? limit)%Z then
    match b !! h with
    | None => Raise KeyError
    | Some cur => Ok (if Forensics.Qltb score cur then <[h := score]> b else b)
    end
  else Ok b.

(** [_process_stat_row]: a [ValueError] or [TypeError] skips the row. *)
Definition _process_stat_row (row : StatRow) (now_dt : HistoryAnalyzer.DateTime)
    (wb mb : gmap Z Q) : result (gmap Z Q * gmap Z Q) :=
  let ts := HistoryAnalyzer.truthy (st_timestamp row) in
  let sc := match HistoryAnalyzer.truthy (st_avg_score row) with
            | Some s => Some s
            | None => HistoryAnalyzer.truthy (st_score row)
            end in
  match ts, sc with
  | Some ts, Some sc =>
      match fromisoformat ts with
      | None => Ok (wb, mb)
      | Some dt =>
          match float sc with
          | None => Ok (wb, mb)
          | Some score =>
              let days := HistoryAnalyzer.days now_dt dt in
              let h := HistoryAnalyzer.hour dt in
              do wb' <- lower_bucket wb days 7 h score;
              do mb' <- lower_bucket mb days 30 h score;
              Ok (wb', mb')
          end
      end
  | _, _ => Ok (wb, mb)
  end.

Fixpoint stat_rows (now_dt : HistoryAnalyzer.DateTime) (wb mb : gmap Z Q)
    (rows : list StatRow) : result (gmap Z Q * gmap Z Q) :=
  match rows with
  | [] => Ok (wb, mb)
  | r :: rest =>
      do b <- _process_stat_row r now_dt wb mb;
      stat_rows now_dt (fst b) (snd b) rest
  end.

Definition handle_stats (log : Log) (now_dt : HistoryAnalyzer.DateTime) : Stats :=
  match log with
  | LogMissing => {| weekly := ∅; monthly := ∅ |}
  | LogUnreadable => {| weekly := ∅; monthly := ∅ |}
  | LogRows rows =>
      match stat_rows now_dt fresh_buckets fresh_buckets rows with
      | Ok (wb, mb) => {| weekly := reported wb; monthly := reported mb |}
      | Raise _ => {| weekly := ∅; monthly := ∅ |}
      end
  end.

End Parsers.

(** The two tables hold a value for each hour, the monthly one at most the
    weekly one, which is at most 100. *)
Definition ordered_buckets (wb mb : gmap Z Q) : Prop :=
  forall h : Z, (0 <= h < 24)%Z ->
  exists w m : Q, wb !! h = Some w /\ mb !! h = Some m /\ m <= w /\ w <= 100.

(** Inputs of the examples. *)
Definition no_int (s : string) : option Z := None.
Definition minus_one_int (s : string) : option Z :=
  if String.eqb s "-1" then Some (-1)%Z else None.
Definition letters : list string := ["a"; "b"; "c"; "d"; "e"]%string.
Definition example_score (s : string) : option Q :=
  if String.eqb s "50" then Some 50 else None.
Definition stat_row : StatRow :=
  {| st_timestamp := HistoryAnalyzer.Str "an hour ago";
     st_avg_score := HistoryAnalyzer.Str "50";
     st_score := HistoryAnalyzer.NoKey |}.

End Api.

(** * Properties *)

(** ** forensics.py *)

Module ForensicsProofs.
Import Forensics.
Open Scope Q_scope.

Ltac qlra := Lqa.lra.

Lemma Qltb_spec (x y : Q) : reflect (x < y) (Qltb x y).
Proof.
  unfold Qltb. destruct (x ?= y) eqn:E; constructor.
  - apply Qeq_alt in E. qlra.
  - now apply Qlt_alt.
  - apply Qgt_alt in E. qlra.
Qed.

Lemma Qgtb_spec (x y : Q) : reflect (y < x) (Qgtb x y).
Proof. unfold Qgtb. apply Qltb_spec. Qed.

Ltac case_cmp :=
  repeat match goal with
  | |- context [Qltb ?a ?b] => destruct (Qltb_spec a b)
  | |- context [Qgtb ?a ?b] => destruct (Qgtb_spec a b)
  end.

Lemma radio_table (s : Q) :
  (s < 30 /\ _calculate_radio (Some s) = 0.95) \/
  (30 <= s /\ s < 50 /\ _calculate_radio (Some s) = 0.8) \/
  (50 <= s /\ s < 70 /\ _calculate_radio (Some s) = 0.4) \/
  (70 <= s /\ s <= 85 /\ _calculate_radio (Some s) = 0.0) \/
  (85 < s /\ _calculate_radio (Some s) = 0.05).
Proof.
  unfold _calculate_radio, RADIO_THRESHOLD_TERRIBLE, RADIO_THRESHOLD_BAD,
    RADIO_THRESHOLD_MED, RADIO_THRESHOLD_GOOD.
  case_cmp.
  - left. split; [qlra | reflexivity].
  - right; left. repeat split; [qlra | qlra].
  - right; right; left. repeat split; qlra.
  - right; right; right; right. split; [qlra | reflexivity].
  - right; right; right; left. repeat split; qlra.
Qed.

(** C2 (as amended): the radio likelihood follows the table of section 4.1
    and an unknown score gives exactly 0.10; for scores [x <= y] the
    likelihood at [x] is at least the likelihood at [y], except when [x] is
    in the band from 70 to 85 and [y] is above 85, where the table rises
    from 0.00 to 0.05. *)
Theorem C2_radio_step_function (s x y : Q) (Hxy : x <= y)
    (Hband : y <= 85 \/ x < 70) :
  ((s < 30 /\ _calculate_radio (Some s) = 0.95) \/
   (30 <= s /\ s < 50 /\ _calculate_radio (Some s) = 0.8) \/
   (50 <= s /\ s < 70 /\ _calculate_radio (Some s) = 0.4) \/
   (70 <= s /\ s <= 85 /\ _calculate_radio (Some s) = 0.0) \/
   (85 < s /\ _calculate_radio (Some s) = 0.05)) /\
  _calculate_radio None = 0.1 /\
  _calculate_radio (Some y) <= _calculate_radio (Some x).
Proof.
  split; [apply radio_table | split; [reflexivity|]].
  destruct (radio_table x) as [H|[H|[H|[H|H]]]];
  destruct (radio_table y) as [G|[G|[G|[G|G]]]];
  destruct Hband as [Hb|Hb];
    repeat match goal with
    | H : _ /\ _ |- _ => destruct H
    end;
    try (exfalso; qlra);
    repeat match goal with
    | H : _calculate_radio _ = _ |- _ => rewrite H; clear H
    end; vm_compute; discriminate.
Qed.

(** The step function at the scores 40 and 90, and at 80. *)
Lemma C2_radio_step_function_witness :
  40 <= 90 /\ (90 <= 85 \/ 40 < 70) /\
  _calculate_radio (Some 80) = 0.0 /\
  _calculate_radio (Some 90) <= _calculate_radio (Some 40).
Proof.
  assert (Hxy : 40 <= 90) by (vm_compute; discriminate).
  assert (Hband : 90 <= 85 \/ 40 < 70) by (right; reflexivity).
  split; [exact Hxy|]. split; [exact Hband|].
  pose proof (C2_radio_step_function 80 40 90 Hxy Hband) as [_ [_ H]].
  split; [reflexivity | exact H].
Defined.

(** C2 (as stated) fails: the score rises from 80 to 90 and the radio
    likelihood rises with it, from 0.00 to 0.05. *)
Lemma C2_radio_not_monotone :
  ~ (forall x y : Q, 0 <= x -> x <= y -> y <= 100 ->
       _calculate_radio (Some y) <= _calculate_radio (Some x)).
Proof.
  intros H.
  assert (H0 : 0 <= 80) by (vm_compute; discriminate).
  assert (H1 : 80 <= 90) by (vm_compute; discriminate).
  assert (H2 : 90 <= 100) by (vm_compute; discriminate).
  specialize (H 80 90 H0 H1 H2). vm_compute in H. apply H. reflexivity.
Qed.


Lemma py_max_ub (a b : Q) :
  a <= py_max a b /\ b <= py_max a b /\ (py_max a b = a \/ py_max a b = b).
Proof.
  unfold py_max. destruct (Qgtb_spec b a); repeat split; auto; qlra.
Qed.

(** C5: the verdict is taken from the largest likelihood [m]; below 0.4 it
    is inconclusive whichever likelihood is largest, otherwise radio,
    congestion and policy are tried in this order and the first equal to
    [m] gives the label, so that radio = congestion = 0.6, policy = 0.2
    gives the radio label. *)
Theorem C5_verdict_selection (r c p : Q) :
  let m := py_max3 r c p in
  (r <= m /\ c <= m /\ p <= m) /\
  ((m < 0.4 /\ _get_verdict r c p = "Inconclusive / Gathering Data"%string) \/
   (0.4 <= m /\ r == m /\
    _get_verdict r c p = "Radio Impairment Likely"%string) \/
   (0.4 <= m /\ r < m /\ c == m /\
    _get_verdict r c p = "Congestion Indicators Present"%string) \/
   (0.4 <= m /\ r < m /\ c < m /\ p == m /\
    _get_verdict r c p = "Policy-Like Pattern Detected"%string)) /\
  _get_verdict 0.6 0.6 0.2 = "Radio Impairment Likely"%string.
Proof.
  intros m.
  assert (Hub : r <= m /\ c <= m /\ p <= m /\ (m = r \/ m = c \/ m = p)).
  { unfold m, py_max3.
    destruct (py_max_ub r c) as (H1 & H2 & H3).
    destruct (py_max_ub (py_max r c) p) as (H4 & H5 & H6).
    repeat split; try qlra.
    destruct H6 as [-> | ->]; [destruct H3 as [-> | ->]|]; auto. }
  destruct Hub as (Hr & Hc & Hp & Hm).
  split; [auto|]. split; [|reflexivity].
  unfold _get_verdict. fold m.
  destruct (Qltb_spec m 0.4) as [Hlt|Hge]; [left; split; [assumption|reflexivity]|].
  right.
  destruct (Qeq_bool r m) eqn:Er.
  { apply Qeq_bool_iff in Er. left. repeat split; [qlra|assumption]. }
  apply Qeq_bool_neq in Er. right.
  destruct (Qeq_bool c m) eqn:Ec.
  { apply Qeq_bool_iff in Ec. left. repeat split; [qlra|qlra|assumption]. }
  apply Qeq_bool_neq in Ec. right.
  assert (Ep : p == m).
  { destruct Hm as [E | [E | E]]; rewrite E in *;
      [exfalso; apply Er | exfalso; apply Ec | ]; reflexivity. }
  apply Qeq_bool_iff in Ep. rewrite Ep. apply Qeq_bool_iff in Ep.
  repeat split; [qlra|qlra|qlra|assumption].
Qed.







(** Rounding also changes values that normalisation leaves alone: the raw
    sum is 0.876 and the policy likelihood 0.036 is returned as 0.04. *)
Lemma returned_differs_from_raw :
  exists (m : Metrics) (d : DiagnosisResult) (r0 c0 p0 : Q),
    _extract_metrics (Some weak_cell_signal) (Some weak_cell_network) = Ok m /\
    analyze (Some weak_cell_signal) (Some weak_cell_network) None = Ok d /\
    raw_likelihoods m None = (r0, c0, p0) /\
    r0 + c0 + p0 <= 0.95 /\
    p0 == 0.036 /\ policy_likelihood d == 0.04.
Proof.
  do 5 eexists.
  split; [reflexivity|]. split; [vm_compute; reflexivity|].
  split; [vm_compute; reflexivity|].
  split; [vm_compute; discriminate|]. split; reflexivity.
Qed.

Lemma analyze_returns (signal_data : option SignalData)
    (network_data : NetworkData) (history : option History) :
  exists d : DiagnosisResult,
    analyze signal_data (Some network_data) history = Ok d.
Proof.
  unfold analyze. simpl _extract_metrics. cbn [bind].
  destruct (normalized_likelihoods _ history) as [[r c] p].
  eexists. reflexivity.
Qed.

(** A consistency score of 1 is the strongest evidence the policy score
    can take from the consistency: no other value gives a larger score. *)
Lemma full_consistency_is_strongest (m : Metrics) (history : option History)
    (c : Q) :
  _calculate_policy (with_consistency m c) history
    <= _calculate_policy (with_consistency m 1) history.
Proof.
  unfold _calculate_policy, with_consistency, py_min.
  cbn [consistency down_mbps shapes ramp_up].
  change (Qgtb 1 0.8) with true. cbv iota.
  destruct (Qgtb c 0.8); [|destruct (Qgtb c 0.6)];
    destruct (2 <=? str_count "plateau" (shapes m))%nat;
    destruct (str_count "plateau" (shapes m) =? 1)%nat;
    destruct (stable_hour history);
    destruct (Qgtb (ramp_up m) RAMP_UP_THRESHOLD);
    destruct (Qltb (down_mbps m) SPEED_THRESHOLD_SLOW); cbn [negb];
    case_cmp; qlra.
Qed.



End ForensicsProofs.

(** ** measurements.py *)

Module MeasurementsProofs.
Import Measurements.
Open Scope R_scope.

Ltac rlra := Lra.lra.

Lemma Rltb_spec (x y : R) : reflect (x < y) (Rltb x y).
Proof. unfold Rltb. destruct (Rlt_dec x y); constructor; assumption. Qed.

Lemma Rgtb_spec (x y : R) : reflect (y < x) (Rgtb x y).
Proof. unfold Rgtb. apply Rltb_spec. Qed.

Lemma mean_rising_tail : mean [3; 5; 7; 9; 11] = 7.
Proof. unfold mean, total. simpl. rlra. Qed.

Lemma variance_rising_tail : variance [3; 5; 7; 9; 11] = 10.
Proof. unfold variance. rewrite mean_rising_tail. unfold total. simpl. rlra. Qed.

Lemma sqrt_lower (a x : R) : 0 <= a -> a * a <= x -> a <= sqrt x.
Proof.
  intros Ha Hx. rewrite <- (sqrt_square a Ha). now apply sqrt_le_1_alt.
Qed.

Lemma sqrt_upper (a x : R) : 0 <= a -> x <= a * a -> sqrt x <= a.
Proof.
  intros Ha Hx. rewrite <- (sqrt_square a Ha). now apply sqrt_le_1_alt.
Qed.

Lemma stdev_rising_tail : 3 <= stdev [3; 5; 7; 9; 11].
Proof.
  unfold stdev. rewrite variance_rising_tail. apply sqrt_lower; rlra.
Qed.

Lemma rising_is_regression_case (py310 : bool) :
  analyze_shape py310 rising_samples = regression_branch py310.
Proof.
  unfold analyze_shape, rising_samples, at_half_seconds.
  cbn [length seq map combine snd Nat.ltb Nat.leb skipn Nat.div Nat.divmod fst].
  rewrite mean_rising_tail.
  destruct (Rltb_spec 7 0.1) as [H|_]; [exfalso; rlra|].
  destruct (Rltb_spec (stdev [3; 5; 7; 9; 11] / 7) 0.15) as [H|_]; [|reflexivity].
  exfalso. pose proof stdev_rising_tail. rlra.
Qed.

Lemma mean_steady_tail : mean [10.1; 9.9; 10.05] = 601 / 60.
Proof. unfold mean, total. simpl. rlra. Qed.

Lemma stdev_steady_tail : stdev [10.1; 9.9; 10.05] <= 1.
Proof.
  unfold stdev. apply sqrt_upper; [rlra|].
  unfold variance. rewrite mean_steady_tail. unfold total. simpl. rlra.
Qed.

Lemma steady_is_plateau (py310 : bool) :
  analyze_shape py310 steady_samples = Ok "plateau"%string.
Proof.
  unfold analyze_shape, steady_samples, at_half_seconds.
  cbn [length seq map combine snd Nat.ltb Nat.leb skipn Nat.div Nat.divmod fst].
  rewrite mean_steady_tail.
  destruct (Rltb_spec (601 / 60) 0.1) as [H|_]; [exfalso; rlra|].
  destruct (Rltb_spec (stdev [10.1; 9.9; 10.05] / (601 / 60)) 0.15) as [_|H];
    [reflexivity|].
  exfalso. apply H. pose proof stdev_steady_tail. rlra.
Qed.

Lemma regression_never_linear (py310 : bool) :
  regression_branch py310 <> Ok "linear_climb"%string.
Proof. unfold regression_branch. destruct py310; discriminate. Qed.

Lemma analyze_shape_never_linear (py310 : bool) (samples : list (R * R)) :
  analyze_shape py310 samples <> Ok "linear_climb"%string.
Proof.
  unfold analyze_shape.
  destruct (length samples <? 4)%nat; [discriminate|].
  destruct (skipn _ _); [discriminate|].
  destruct (Rltb _ 0.1); [discriminate|].
  destruct (Rltb _ 0.15); [discriminate|].
  apply regression_never_linear.
Qed.

Lemma rising_times_values :
  map fst rising_samples = [1 / 2; 1; 3 / 2; 2; 5 / 2; 3] /\
  map snd rising_samples = [1; 3; 5; 7; 9; 11].
Proof.
  unfold rising_samples, at_half_seconds. cbn. split; [|reflexivity].
  replace ((1 + 1) / 2) with 1 by rlra.
  replace ((1 + 1 + 1) / 2) with (3 / 2) by rlra.
  replace ((1 + 1 + 1 + 1) / 2) with 2 by rlra.
  replace ((1 + 1 + 1 + 1 + 1) / 2) with (5 / 2) by rlra.
  replace ((1 + 1 + 1 + 1 + 1 + 1) / 2) with 3 by rlra.
  reflexivity.
Qed.

(** On the rising samples the specified classifier reaches the regression,
    finds correlation 1 and slope 4, and answers [linear_climb]. *)
Lemma specified_shape_rising :
  specified_shape rising_samples = "linear_climb"%string.
Proof.
  unfold specified_shape.
  destruct rising_times_values as [Ht Hv]. rewrite Ht, Hv.
  assert (Hlen : length rising_samples = 6%nat) by reflexivity.
  rewrite Hlen.
  cbn [length Nat.ltb Nat.leb skipn Nat.div Nat.divmod fst].
  rewrite mean_rising_tail.
  destruct (Rltb_spec 7 0.1) as [H|_]; [exfalso; rlra|].
  destruct (Rltb_spec (stdev [3; 5; 7; 9; 11] / 7) 0.15) as [H|_];
    [exfalso; pose proof stdev_rising_tail; rlra|].
  assert (Hmt : mean [1 / 2; 1; 3 / 2; 2; 5 / 2; 3] = 7 / 4)
    by (unfold mean, total; simpl; rlra).
  assert (Hmv : mean [1; 3; 5; 7; 9; 11] = 6)
    by (unfold mean, total; simpl; rlra).
  assert (Hxy : deviation_products [1 / 2; 1; 3 / 2; 2; 5 / 2; 3]
                  [1; 3; 5; 7; 9; 11] = 35 / 2)
    by (unfold deviation_products; rewrite Hmt, Hmv; unfold total; simpl; rlra).
  assert (Hxx : deviation_products [1 / 2; 1; 3 / 2; 2; 5 / 2; 3]
                  [1 / 2; 1; 3 / 2; 2; 5 / 2; 3] = 35 / 8)
    by (unfold deviation_products; rewrite Hmt; unfold total; simpl; rlra).
  assert (Hyy : deviation_products [1; 3; 5; 7; 9; 11] [1; 3; 5; 7; 9; 11] = 70)
    by (unfold deviation_products; rewrite Hmv; unfold total; simpl; rlra).
  unfold correlation, slope. rewrite Hxy, Hxx, Hyy.
  replace (35 / 8 * 70) with ((35 / 2) * (35 / 2)) by rlra.
  rewrite sqrt_square by rlra.
  destruct (Rgtb_spec (35 / 2 / (35 / 2)) 0.8) as [_|H]; [|exfalso; apply H; rlra].
  destruct (Rgtb_spec (35 / 2 / (35 / 8)) 0) as [_|H]; [|exfalso; apply H; rlra].
  reflexivity.
Qed.

(** C1: the classifier on the rising samples [1,3,5,7,9,11], for which the
    specification promises [linear_climb].  The steady state [3,5,7,9,11]
    has a coefficient of variation above 0.15, so the regression is reached,
    and it ends in a [NameError] for the unbound [times] (or, on an
    interpreter without [linear_regression], in ["logarithmic"]): no input
    is ever classified [linear_climb].  The other branches are as
    specified: fewer than 4 samples are ["uncertain"] and the steady
    samples [10,10.1,9.9,10.05] are a ["plateau"]. *)
Theorem C1_rising_samples_not_linear_climb (py310 : bool)
    (samples : list (R * R)) :
  specified_shape rising_samples = "linear_climb"%string /\
  analyze_shape py310 rising_samples =
    (if py310 then Raise NameError else Ok "logarithmic"%string) /\
  analyze_shape py310 samples <> Ok "linear_climb"%string /\
  analyze_shape py310 steady_samples = Ok "plateau"%string /\
  analyze_shape py310 (firstn 3 samples) = Ok "uncertain"%string.
Proof.
  split; [apply specified_shape_rising|].
  split; [apply rising_is_regression_case|].
  split; [apply analyze_shape_never_linear|].
  split; [apply steady_is_plateau|].
  unfold analyze_shape.
  destruct (Nat.ltb_spec (length (firstn 3 samples)) 4) as [_|H];
    [reflexivity|].
  pose proof (firstn_le_length 3 samples). lia.
Qed.


Section Probe.
Variable py310 : bool.

(** The loop over classifiable targets ends normally, with one result per
    download that answered, in order. *)
Lemma probe_targets_ok (targets : list Target) :
  Forall (classifiable py310) targets ->
  forall (results : list DownloadResult) (mbps_vals : list R) (bytes : Z),
  exists new : list DownloadResult,
    probe_targets py310 (results, mbps_vals, bytes) targets =
      Ok (results ++ new, mbps_vals ++ map mbps new,
          (bytes + fold_right Z.add 0 (map total_bytes new))%Z) /\
    flat_map ping_during new = in_flight_pings targets /\
    map mbps new = map dl_mbps (successes targets).
Proof.
  induction 1 as [|[stream rtts] rest Hc _ IH]; intros results mbps_vals bytes.
  - exists []. cbn. rewrite !app_nil_r, Z.add_0_r. auto.
  - cbn [probe_targets probe_target]. unfold classifiable in Hc. cbn in Hc.
    destruct stream as [d|]; cbn [run_single_download bind].
    + destruct Hc as [sh ->]. cbn [bind mbps total_bytes].
      edestruct IH as (new & -> & Hp & Hm).
      exists ({| mbps := dl_mbps d; samples := dl_samples d; shape := sh;
                 total_bytes := dl_total_bytes d;
                 ping_during := not_none rtts |} :: new).
      cbn [map fold_right flat_map ping_during mbps samples shape total_bytes].
      rewrite <- !app_assoc, Z.add_assoc. cbn [app].
      split; [reflexivity|].
      unfold in_flight_pings, successes. cbn [flat_map fst snd app map].
      split; [f_equal; exact Hp | f_equal; exact Hm].
    + edestruct IH as (new & -> & Hp & Hm).
      exists new. auto.
Qed.

(** What [run_forensic_download] returns when some download answers and
    the classifier accepts every download that does. *)
Lemma forensic_download_result (now : string) (ping_before : option PingStats)
    (targets : list Target) :
  Forall (classifiable py310) targets ->
  successes targets <> [] ->
  exists m : Aggregated,
    run_forensic_download py310 now ping_before targets = Some m /\
    latency_under_load_diff m =
      match in_flight_pings targets with
      | [] => 0
      | _ => mean (in_flight_pings targets) - base_latency ping_before
      end /\
    consistency_score m =
      if (1 <? length (successes targets))%nat then
        let vals := map dl_mbps (successes targets) in
        let cv := if Rgtb (mean vals) 0 then stdev vals / mean vals else 0 in
        py_max 0.0 (1.0 - cv * 2)
      else 1.0.
Proof.
  intros Hc Hs. unfold run_forensic_download.
  destruct (probe_targets_ok targets Hc [] [] 0%Z) as (new & -> & Hp & Hm).
  cbn [app aggregate].
  destruct new as [|r new].
  { cbn in Hm. symmetry in Hm. apply map_eq_nil in Hm. contradiction. }
  eexists. split; [reflexivity|].
  cbn [latency_under_load_diff consistency_score].
  rewrite Hp, Hm, length_map. split; reflexivity.
Qed.

End Probe.

(** C7 (as amended): when the probe returns a measurement, its
    [latency_under_load_diff] is the mean of the in-flight ping samples of
    the targets that answered, minus the baseline round trip measured
    before the probe; the baseline counts as 0 when that measurement
    failed, and the difference is 0 when there is no in-flight sample. *)
Theorem C7_latency_under_load_diff (py310 : bool) (now : string)
    (ping_before : option PingStats) (targets : list Target)
    (Hshape : Forall (classifiable py310) targets)
    (Hsome : successes targets <> []) :
  exists m : Aggregated,
    run_forensic_download py310 now ping_before targets = Some m /\
    latency_under_load_diff m =
      match in_flight_pings targets with
      | [] => 0
      | _ => mean (in_flight_pings targets) -
             match ping_before with
             | Some p => avg_rtt p
             | None => 0
             end
      end.
Proof.
  destruct (forensic_download_result py310 now ping_before targets Hshape Hsome)
    as (m & Hm & Hd & _).
  exists m. split; [exact Hm|]. rewrite Hd. reflexivity.
Qed.

Lemma one_target_classifiable (py310 : bool) :
  Forall (classifiable py310) one_target_answers.
Proof.
  repeat constructor. exists "uncertain"%string. reflexivity.
Qed.

(** A probe on which only the second target answers, after a baseline of
    30 ms. *)
Lemma C7_latency_under_load_diff_witness :
  Forall (classifiable true) one_target_answers /\
  successes one_target_answers <> [] /\
  exists m : Aggregated,
    run_forensic_download true "t"%string (Some {| avg_rtt := 30 |})
      one_target_answers = Some m /\
    latency_under_load_diff m = mean [80; 90] - 30.
Proof.
  split; [apply one_target_classifiable|].
  split; [discriminate|].
  apply (C7_latency_under_load_diff true "t"%string (Some {| avg_rtt := 30 |})
           one_target_answers (one_target_classifiable true)).
  discriminate.
Defined.

(** C7 (as stated) fails: with no baseline measurement and in-flight pings
    of 80 and 90 ms, the difference is their mean, 85 ms, not 0. *)
Lemma C7_no_baseline_not_zero :
  exists m : Aggregated,
    run_forensic_download true "t"%string None one_target_answers = Some m /\
    latency_under_load_diff m = 85 /\
    latency_under_load_diff m <> 0.
Proof.
  destruct (forensic_download_result true "t"%string None one_target_answers
              (one_target_classifiable true)) as (m & Hm & Hd & _);
    [discriminate|].
  exists m. split; [exact Hm|].
  assert (H : latency_under_load_diff m = 85).
  { rewrite Hd. unfold mean, total. simpl. rlra. }
  split; [exact H | rewrite H; rlra].
Qed.

(** C10: when exactly one target yields a result, the probe returns a
    measurement whose [consistency_score] is the initial 1.0. *)
Theorem C10_single_target_consistency (py310 : bool) (now : string)
    (ping_before : option PingStats) (targets : list Target)
    (Hshape : Forall (classifiable py310) targets)
    (Hone : length (successes targets) = 1%nat) :
  exists m : Aggregated,
    run_forensic_download py310 now ping_before targets = Some m /\
    consistency_score m = 1.
Proof.
  assert (Hsome : successes targets <> []).
  { intros E. rewrite E in Hone. discriminate Hone. }
  destruct (forensic_download_result py310 now ping_before targets Hshape Hsome)
    as (m & Hm & _ & Hc).
  exists m. split; [exact Hm|]. rewrite Hc, Hone. cbn. rlra.
Qed.

(** The same probe: one answer, consistency 1. *)
Lemma C10_single_target_consistency_witness :
  Forall (classifiable true) one_target_answers /\
  length (successes one_target_answers) = 1%nat /\
  exists m : Aggregated,
    run_forensic_download true "t"%string None one_target_answers = Some m /\
    consistency_score m = 1.
Proof.
  split; [apply one_target_classifiable|].
  split; [reflexivity|].
  apply (C10_single_target_consistency true "t"%string None one_target_answers
           (one_target_classifiable true)).
  reflexivity.
Defined.

End MeasurementsProofs.

(** ** main.py: the history analysis *)

Module HistoryAnalyzerProofs.
Import HistoryAnalyzer.
Open Scope R_scope.

Ltac rlra := Lra.lra.

Section Parsers.
Variable fromisoformat : string -> option DateTime.
Variable float : string -> option R.
Variable now_dt : DateTime.

Lemma process_row_score (row : Row) (p : RowResult) :
  _process_row fromisoformat float row now_dt (hour now_dt)
    (posix now_dt - seven_days)%Z = Ok p ->
  score p = hour_sample fromisoformat float now_dt row.
Proof.
  unfold _process_row, hour_sample.
  destruct (truthy (r_timestamp row)) as [ts_str|]; [|now intros [= <-]].
  destruct (fromisoformat ts_str) as [dt|]; [|now intros [= <-]].
  destruct (days now_dt dt <=? 30)%Z; cbn [andb negb].
  - destruct (data_bytes_value float row) as [b|]; [|now intros [= <-]].
    destruct (posix now_dt - seven_days <? posix dt)%Z; [|now intros [= <-]].
    destruct (hour dt =? hour now_dt)%Z; cbn [andb].
    + destruct (truthy (r_avg_score row)) as [s|].
      * destruct (float s); cbn [option_map];
          [destruct (r_verdict row)|]; now intros [= <-].
      * destruct (r_verdict row); now intros [= <-].
    + destruct (r_verdict row); now intros [= <-].
  - destruct (posix now_dt - seven_days <? posix dt)%Z; [|now intros [= <-]].
    destruct (hour dt =? hour now_dt)%Z; cbn [andb].
    + destruct (truthy (r_avg_score row)) as [s|].
      * destruct (float s); cbn [option_map];
          [destruct (r_verdict row)|]; now intros [= <-].
      * destruct (r_verdict row); now intros [= <-].
    + destruct (r_verdict row); now intros [= <-].
Qed.

(** Over rows that do not raise, the loop collects the same-hour scores. *)
Lemma scan_rows_scores (rows : list Row) :
  Forall (processable fromisoformat float now_dt) rows ->
  forall (hs : list R) (pc : Z) (mb : R),
  exists (pc' : Z) (mb' : R),
    scan_rows fromisoformat float now_dt (hs, pc, mb) rows =
      Ok (hs ++ same_hour_scores fromisoformat float now_dt rows, pc', mb').
Proof.
  induction 1 as [|row rest [p Hp] _ IH]; intros hs pc mb.
  - exists pc, mb. cbn. now rewrite app_nil_r.
  - cbn [scan_rows scan_row]. rewrite Hp. cbn [bind].
    apply process_row_score in Hp.
    edestruct IH as (pc' & mb' & ->).
    exists pc', mb'. unfold same_hour_scores. cbn [flat_map].
    fold (same_hour_scores fromisoformat float now_dt rest).
    rewrite <- Hp. destruct (score p); [now rewrite <- app_assoc|reflexivity].
Qed.

(** A row that raises, as a short row does at [None.startswith], makes the
    whole analysis neutral. *)
Lemma raising_row_neutral (rows : list Row) (e : exn) :
  scan_rows fromisoformat float now_dt ([], 0%Z, 0) rows = Raise e ->
  get_history_analysis fromisoformat float (Rows rows) now_dt = neutral.
Proof. intros H. unfold get_history_analysis. now rewrite H. Qed.

Lemma stable_hour_iff (rows : list Row) :
  Forall (processable fromisoformat float now_dt) rows ->
  is_stable_hour
    (get_history_analysis fromisoformat float (Rows rows) now_dt) = true <->
  (6 <= length (same_hour_scores fromisoformat float now_dt rows))%nat /\
  pstdev (same_hour_scores fromisoformat float now_dt rows) < 10.
Proof.
  intros Hrows. unfold get_history_analysis.
  destruct (scan_rows_scores rows Hrows [] 0%Z 0) as (pc & mb & ->).
  cbn [app is_stable_hour].
  rewrite andb_true_iff, Nat.ltb_lt.
  destruct (MeasurementsProofs.Rltb_spec
              (pstdev (same_hour_scores fromisoformat float now_dt rows)) 10);
    split; intros [H1 H2]; (split; [lia|]); try assumption; try reflexivity;
    try discriminate.
  contradiction.
Qed.


End Parsers.

Lemma example_rows_processable (n : nat) :
  Forall (processable example_fromisoformat example_float example_now)
    (repeat example_row n).
Proof.
  induction n; cbn [repeat]; constructor; [|assumption].
  eexists. vm_compute. reflexivity.
Qed.

Lemma example_rows_scores (n : nat) :
  same_hour_scores example_fromisoformat example_float example_now
    (repeat example_row n) = repeat 50 n.
Proof.
  induction n; [reflexivity|].
  cbn [repeat]. rewrite <- IHn. reflexivity.
Qed.

Lemma pstdev_constant_50 (n : nat) : pstdev (repeat 50 (S n)) = 0.
Proof.
  assert (Ht : forall k, Measurements.total (repeat 50 k) = 50 * INR k).
  { induction k; [cbn; rlra|].
    cbn [repeat Measurements.total fold_right].
    change (fold_right Rplus 0 (repeat 50 k)) with (Measurements.total (repeat 50 k)).
    rewrite IHk, S_INR. rlra. }
  assert (Hm : Measurements.mean (repeat 50 (S n)) = 50).
  { unfold Measurements.mean. rewrite Ht, repeat_length.
    pose proof (pos_INR n). rewrite S_INR. field. rlra. }
  unfold pstdev, pvariance. rewrite Hm.
  assert (Hz : forall k, Measurements.total
                 (map (fun x => (x - 50) * (x - 50)) (repeat 50 k)) = 0).
  { induction k; [reflexivity|].
    cbn [repeat map Measurements.total fold_right].
    change (fold_right Rplus 0 (map (fun x => (x - 50) * (x - 50)) (repeat 50 k)))
      with (Measurements.total (map (fun x => (x - 50) * (x - 50)) (repeat 50 k))).
    rewrite IHk. rlra. }
  rewrite Hz. unfold Rdiv. rewrite Rmult_0_l. apply sqrt_0.
Qed.



(** Six such samples do. *)
Lemma six_samples_stable :
  is_stable_hour
    (get_history_analysis example_fromisoformat example_float
       (Rows six_rows) example_now) = true.
Proof.
  apply (stable_hour_iff _ _ _ _ (example_rows_processable 6)).
  unfold six_rows. rewrite example_rows_scores.
  split; [rewrite repeat_length; lia|].
  rewrite pstdev_constant_50. rlra.
Qed.

End HistoryAnalyzerProofs.

(** ** main.py: the orchestrator *)

Module MonitorProofs.
Import Monitor.
Open Scope Q_scope.

Ltac qlra := Lqa.lra.

(** C6: a throughput test is started only below the daily cap of 12, and
    then only when more than 4 hours have passed since the last test, or
    the strain index is above 50 and more than 900 seconds have passed; the
    counter and the time of the last test advance only when a test returns
    a result, and the budget is unchanged when both tests fail. *)
Theorem C6_test_budget (self : State) (w : World) (psi : Q) (env : Env) :
  let ts := clock_speedtest env - last_speedtest_time self in
  let '(self', w', res) := execute_speedtest_if_needed self w psi env in
  ((12 <= daily_tests_count self)%Z /\
   self' = self /\ w' = w /\ res = None) \/
  ((daily_tests_count self < 12)%Z /\
   ~ (4 * 3600 < ts \/ (50 < psi /\ 900 < ts)) /\
   self' = self /\ w' = w /\ res = None) \/
  ((daily_tests_count self < 12)%Z /\
   (4 * 3600 < ts \/ (50 < psi /\ 900 < ts)) /\
   probes_started w' = S (probes_started w) /\
   ((forensic_download env = None /\ speedtest env = None /\
     res = None /\ self' = self) \/
    (exists r : SpeedResult,
       res = Some r /\
       (forensic_download env = Some r \/
        (forensic_download env = None /\ speedtest env = Some r)) /\
       daily_tests_count self' = (daily_tests_count self + 1)%Z /\
       last_speedtest_time self' = clock_done env /\
       current_day self' = current_day self /\
       windows self' = windows self /\
       current_session self' = current_session self))).
Proof.
  intros ts.
  assert (Hdue : reflect (4 * 3600 < ts \/ (50 < psi /\ 900 < ts)) (due ts psi)).
  { unfold due, BASELINE_INTERVAL_SECONDS, PSI_TRIGGER_THRESHOLD.
    destruct (ForensicsProofs.Qgtb_spec ts (4 * 3600));
    destruct (ForensicsProofs.Qgtb_spec psi 50);
    destruct (ForensicsProofs.Qgtb_spec ts 900);
    constructor; tauto. }
  unfold execute_speedtest_if_needed, MAX_DAILY_tests. fold ts.
  destruct (Z.leb_spec 12 (daily_tests_count self)) as [Hcap|Hcap];
    [left; auto|].
  destruct Hdue as [Hd|Hd]; [|right; left; auto].
  destruct (forensic_download env) as [r|] eqn:Ef; cbn [py_or];
    [|destruct (speedtest env) as [r|] eqn:Es];
    right; right; (split; [assumption|]); (split; [assumption|]);
    (split; [reflexivity|]).
  - right. exists r. repeat split; auto.
  - right. exists r. repeat split; auto.
  - left. auto.
Qed.

(** *** The session invariant *)

Lemma execute_speedtest_keeps (self : State) (w : World) (psi : Q) (env : Env) :
  let '(self', _, _) := execute_speedtest_if_needed self w psi env in
  current_session self' = current_session self /\
  current_key self' = current_key self /\
  windows self' = windows self.
Proof.
  unfold execute_speedtest_if_needed.
  destruct (MAX_DAILY_tests <=? daily_tests_count self)%Z; [auto|].
  destruct (due _ psi); [|auto].
  destruct (py_or _ _); auto.
Qed.

Lemma process_window_keeps (self : State) (w : World) (key : string)
    (data : SignalMetrics) (env : Env) (self' : State) (w' : World) :
  process_window self w key data env = Ok (self', w') ->
  current_session self' = current_session self /\
  current_key self' = current_key self /\
  (forall k : string, is_Some (windows self !! k) -> is_Some (windows self' !! k)).
Proof.
  unfold process_window.
  destruct (window self key) as [vals|e]; cbn [bind]; [|discriminate].
  destruct (length vals <? MIN_SAMPLES)%nat; [intros [= <- <-]; auto|].
  pose proof (execute_speedtest_keeps self w
    (calculate_simple_psi (Some (mean vals))
       match last_speed_result w with Some r => download_mbps r | None => 0 end
       match ping env with Some p => avg_rtt p | None => 0 end) env) as Hk.
  destruct (execute_speedtest_if_needed _ _ _ _) as [[self1 w1] sr].
  destruct Hk as (Hs & Hc & Hw).
  destruct (Forensics.analyze _ _ _) as [analysis|e]; cbn [bind]; [|discriminate].
  intros [= <- <-]. cbn [set_window current_session current_key windows].
  repeat split; [assumption|assumption|].
  intros k Hk. rewrite Hw.
  destruct (decide (key = k)) as [->|Hne];
    [rewrite lookup_insert_eq; eauto | rewrite lookup_insert_ne; auto].
Qed.

Lemma py_div_positive (a : Q) (n : Z) :
  (1 <= n)%Z -> py_div a (inject_Z n) = Ok (a / inject_Z n).
Proof.
  intros Hn. unfold py_div.
  destruct (Qeq_bool (inject_Z n) 0) eqn:E; [|reflexivity].
  apply Qeq_bool_iff in E. unfold Qeq in E. cbn in E. lia.
Qed.

(** The outcome of a finalization in a state that satisfies the invariant. *)
Lemma handle_context_change_ok (self : State) (w : World) (key : string)
    (d : SignalMetrics) (now : Q) :
  session_has_samples self ->
  exists (self' : State) (w' : World),
    handle_context_change self w key d now = Ok (self', w') /\
    ((accumulated_samples self = 0%Z /\ cell_history w' = cell_history w) \/
     ((0 < accumulated_samples self)%Z /\
      exists row : SessionRow,
        cell_history w' = cell_history w ++ [row] /\
        row_sample_count row = accumulated_samples self)) /\
    accumulated_samples self' = 0%Z /\
    current_key self' = Some key /\
    is_Some (windows self' !! key) /\
    last_speed_result w' = last_speed_result w.
Proof.
  unfold session_has_samples, accumulated_samples, handle_context_change.
  destruct (current_session self) as [s|]; intros Hinv.
  - rewrite !py_div_positive by assumption. cbn [bind].
    do 2 eexists. split; [reflexivity|].
    cbn [current_session sample_count current_key windows cell_history
         last_speed_result].
    split; [right; split; [lia|eexists; split; reflexivity]|].
    repeat split.
    destruct (windows self !! key) eqn:E;
      [rewrite E | rewrite lookup_insert_eq]; eauto.
  - cbn [bind]. do 2 eexists. split; [reflexivity|].
    cbn [current_session sample_count current_key windows].
    split; [left; auto|]. repeat split.
    destruct (windows self !! key) eqn:E;
      [rewrite E | rewrite lookup_insert_eq]; eauto.
Qed.

Lemma tick_invariant (self : State) (w : World) (env : Env)
    (self' : State) (w' : World) :
  session_has_samples self ->
  tick self w env = Ok (self', w') ->
  session_has_samples self'.
Proof.
  intros Hinv. unfold tick.
  destruct (signal env) as [data|]; [|now intros [= <- <-]].
  destruct (get_key_and_score data) as [key sc].
  set (self0 := check_day_rollover self (today env)).
  assert (H0 : session_has_samples self0).
  { unfold self0, check_day_rollover.
    destruct (today env =? current_day self)%Z; assumption. }
  clearbody self0.
  assert (H1 : forall s1 w1,
    (if bool_decide (Some key = current_key self0) then Ok (self0, w)
     else handle_context_change self0 w key data (clock_change env)) = Ok (s1, w1) ->
    (0 <= accumulated_samples s1)%Z).
  { intros s1 w1. destruct (bool_decide _).
    - intros [= <- <-]. unfold accumulated_samples.
      unfold session_has_samples in H0.
      destruct (current_session self0); lia.
    - destruct (handle_context_change_ok self0 w key data (clock_change env) H0)
        as (s2 & w2 & -> & _ & Hz & _).
      intros [= <- <-]. lia. }
  destruct (if bool_decide _ then _ else _) as [[s1 w1]|e]; cbn [bind];
    [|discriminate].
  specialize (H1 s1 w1 eq_refl).
  destruct (window s1 key) as [vals|e]; cbn [bind]; [|discriminate].
  set (s2 := update_session (set_window s1 key (vals ++ [sc])) sc data).
  assert (H2 : session_has_samples s2).
  { subst s2. unfold session_has_samples, update_session.
    cbn [set_window current_session].
    unfold accumulated_samples in H1.
    destruct (current_session s1) as [cs|] eqn:Ecs;
      cbn [set_window current_session sample_count]; [lia|].
    rewrite Ecs. exact I. }
  clearbody s2.
  destruct (Forensics.Qgeb _ _); [|now intros [= <- <-]].
  intros Hp. apply process_window_keeps in Hp as (Hs & _).
  unfold session_has_samples. rewrite Hs. exact H2.
Qed.

Lemma process_window_returns (self : State) (w : World) (key : string)
    (data : SignalMetrics) (env : Env) :
  is_Some (windows self !! key) ->
  exists (self' : State) (w' : World),
    process_window self w key data env = Ok (self', w').
Proof.
  intros [vals Hv]. unfold process_window, window. rewrite Hv. cbn [bind].
  destruct (length vals <? MIN_SAMPLES)%nat; [eauto|].
  destruct (execute_speedtest_if_needed _ _ _ _) as [[self1 w1] sr].
  match goal with
  | |- context [Forensics.analyze ?s (Some ?n) ?h] =>
      destruct (ForensicsProofs.analyze_returns s n h) as [d ->]
  end.
  cbn [bind]. eauto.
Qed.

(** From a state that satisfies the invariant a tick returns, and its
    state satisfies the invariant again. *)
Lemma tick_returns (self : State) (w : World) (env : Env) :
  session_has_samples self -> active_window self ->
  exists (self' : State) (w' : World),
    tick self w env = Ok (self', w') /\ active_window self'.
Proof.
  intros Hs Ha. unfold tick.
  destruct (signal env) as [data|]; [|eauto].
  destruct (get_key_and_score data) as [key sc].
  set (self0 := check_day_rollover self (today env)).
  assert (Hs0 : session_has_samples self0 /\ active_window self0).
  { unfold self0, check_day_rollover.
    destruct (today env =? current_day self)%Z; auto. }
  clearbody self0. destruct Hs0 as [Hs0 Ha0].
  assert (H1 : exists s1 w1,
    (if bool_decide (Some key = current_key self0) then Ok (self0, w)
     else handle_context_change self0 w key data (clock_change env)) = Ok (s1, w1) /\
    current_key s1 = Some key /\ is_Some (windows s1 !! key)).
  { destruct (bool_decide_reflect (Some key = current_key self0)) as [E|_].
    - exists self0, w. unfold active_window in Ha0. rewrite <- E in Ha0. auto.
    - destruct (handle_context_change_ok self0 w key data (clock_change env) Hs0)
        as (s2 & w2 & -> & _ & _ & Hk & Hw & _).
      eauto. }
  destruct H1 as (s1 & w1 & -> & Hk & [vals Hv]). cbn [bind].
  unfold window. rewrite Hv. cbn [bind].
  set (s2 := update_session (set_window s1 key (vals ++ [sc])) sc data).
  assert (H2 : current_key s2 = Some key /\ is_Some (windows s2 !! key)).
  { subst s2. unfold update_session. cbn [set_window current_session].
    destruct (current_session s1); cbn [set_window current_key windows];
      rewrite lookup_insert_eq; eauto. }
  clearbody s2. destruct H2 as [Hk2 Hw2].
  destruct (Forensics.Qgeb _ _).
  - destruct (process_window_returns s2 w1 key data env Hw2) as (s3 & w3 & Hp).
    exists s3, w3. split; [exact Hp|].
    apply process_window_keeps in Hp as (_ & Hk3 & Hw3).
    unfold active_window. rewrite Hk3, Hk2. auto.
  - exists s2, w1. split; [reflexivity|].
    unfold active_window. rewrite Hk2. exact Hw2.
Qed.

Lemma reachable_session_has_samples (self : State) (w : World) :
  reachable self w -> session_has_samples self.
Proof.
  induction 1 as [now day w| self w env self' w' _ IH Ht | self w res _ IH].
  - exact I.
  - eapply tick_invariant; eassumption.
  - exact IH.
Qed.

Lemma reachable_active_window (self : State) (w : World) :
  reachable self w -> active_window self.
Proof.
  induction 1 as [now day w| self w env self' w' Hr IH Ht | self w res _ IH].
  - exact I.
  - pose proof (reachable_session_has_samples self w Hr) as Hs.
    destruct (tick_returns self w env Hs IH) as (s & w0 & E & Ha).
    rewrite E in Ht. injection Ht as <- <-. exact Ha.
  - exact IH.
Qed.

(** C9: in every state reached from the initial one through ticks, the
    finalization at a change of cell key ends without an error, so that it
    never divides by a zero [sample_count]; when no sample has been
    accumulated, which is the case exactly when there is no session yet,
    it emits no session row, and otherwise it emits one row, for the
    samples accumulated. *)
Theorem C9_finalization_safe (self : State) (w : World)
    (Hreach : reachable self w)
    (key : string) (d : SignalMetrics) (now : Q) :
  exists (self' : State) (w' : World),
    handle_context_change self w key d now = Ok (self', w') /\
    ((accumulated_samples self = 0%Z /\ current_session self = None /\
      cell_history w' = cell_history w) \/
     ((0 < accumulated_samples self)%Z /\
      exists row : SessionRow,
        cell_history w' = cell_history w ++ [row] /\
        row_sample_count row = accumulated_samples self)).
Proof.
  pose proof (reachable_session_has_samples self w Hreach) as Hinv.
  destruct (handle_context_change_ok self w key d now Hinv)
    as (self' & w' & Hh & Hcase & _).
  exists self', w'. split; [exact Hh|].
  destruct Hcase as [[Hz Hc]|Hpos]; [left|right; exact Hpos].
  repeat split; try assumption.
  unfold session_has_samples, accumulated_samples in *.
  destruct (current_session self); [lia|reflexivity].
Qed.

(** The first change of key, in the initial state. *)
Lemma C9_finalization_safe_witness :
  reachable (init 0 1) fresh_world /\
  exists (self' : State) (w' : World),
    handle_context_change (init 0 1) fresh_world "B3:101:5001" cell_a 10 =
      Ok (self', w') /\
    ((accumulated_samples (init 0 1) = 0%Z /\
      current_session (init 0 1) = None /\
      cell_history w' = cell_history fresh_world) \/
     ((0 < accumulated_samples (init 0 1))%Z /\
      exists row : SessionRow,
        cell_history w' = cell_history fresh_world ++ [row] /\
        row_sample_count row = accumulated_samples (init 0 1))).
Proof.
  split; [apply reach_init|].
  apply (C9_finalization_safe (init 0 1) fresh_world
           (reach_init 0 1 fresh_world)).
Defined.

(** A tick from a reachable state returns: neither the finalization nor
    any other step of it raises. *)
Lemma reachable_tick_returns (self : State) (w : World) (env : Env) :
  reachable self w ->
  exists (self' : State) (w' : World), tick self w env = Ok (self', w').
Proof.
  intros Hr.
  destruct (tick_returns self w env (reachable_session_has_samples self w Hr)
              (reachable_active_window self w Hr)) as (s & w0 & E & _).
  eauto.
Qed.

(** After the first tick on a cell the session holds one sample, and the
    next change of key emits its row. *)
Lemma first_tick_one_sample :
  exists (self : State) (w : World),
    tick (init 0 1) fresh_world first_tick = Ok (self, w) /\
    reachable self w /\
    current_key self = Some cell_a_key /\
    accumulated_samples self = 1%Z /\
    cell_history w = [].
Proof.
  destruct (tick (init 0 1) fresh_world first_tick) as [[self w]|e] eqn:E;
    [|vm_compute in E; discriminate E].
  exists self, w. split; [reflexivity|].
  split; [eapply reach_tick; [apply reach_init | exact E]|].
  vm_compute in E. injection E as <- <-. repeat split.
Qed.

Lemma key_change_after_first_tick (key : string) (d : SignalMetrics) (now : Q) :
  exists (self : State) (w : World) (self' : State) (w' : World)
         (row : SessionRow),
    reachable self w /\
    handle_context_change self w key d now = Ok (self', w') /\
    cell_history w' = [row] /\ row_sample_count row = 1%Z.
Proof.
  destruct first_tick_one_sample as (self & w & _ & Hr & _ & Hn & Hh).
  destruct (handle_context_change_ok self w key d now
              (reachable_session_has_samples self w Hr))
    as (self' & w' & Hc & [[Hz _]|[_ (row & Hrow & Hcount)]] & _);
    [rewrite Hn in Hz; discriminate Hz|].
  exists self, w, self', w', row.
  rewrite Hrow, Hh, Hcount, Hn. auto.
Qed.

(** Outside the reachable states nothing guards the division: a session
    without samples makes the finalization raise. *)
Lemma empty_session_raises (self : State) (w : World) (key : string)
    (d : SignalMetrics) (now : Q) (s : Session) :
  current_session self = Some s -> sample_count s = 0%Z ->
  handle_context_change self w key d now = Raise ZeroDivisionError.
Proof.
  intros Hs Hz. unfold handle_context_change. rewrite Hs, Hz. reflexivity.
Qed.

End MonitorProofs.

(** ** forensics.py: ranges and verdicts *)

Module ForensicsBounds.
Import Forensics.
Open Scope Q_scope.

Ltac qlra := Lqa.lra.
Ltac case_cmp := ForensicsProofs.case_cmp.

Lemma radio_range (o : option Q) :
  0 <= _calculate_radio o /\ _calculate_radio o <= 0.95.
Proof.
  unfold _calculate_radio. destruct o as [s|]; [|split; qlra].
  destruct (Qltb s RADIO_THRESHOLD_TERRIBLE); [split; qlra|].
  destruct (Qltb s RADIO_THRESHOLD_BAD); [split; qlra|].
  destruct (Qltb s RADIO_THRESHOLD_MED); [split; qlra|].
  destruct (Qgtb s RADIO_THRESHOLD_GOOD); split; qlra.
Qed.

Lemma congestion_range (m : Metrics) :
  0 <= _calculate_congestion m /\ _calculate_congestion m <= 1.
Proof.
  unfold _calculate_congestion, py_min.
  destruct (Qgtb (latency_diff m) 50); [|destruct (Qgtb (latency_diff m) 20)];
    destruct (Qgtb (jitter m) JITTER_THRESHOLD_HIGH);
    destruct (Qgtb (packet_loss m) PACKET_LOSS_THRESHOLD);
    destruct (str_in "linear_climb" (shapes m));
    destruct (Qgtb (down_mbps m) SPEED_THRESHOLD_FAST);
    case_cmp; split; qlra.
Qed.

Lemma policy_range (m : Metrics) (history : option History) :
  0 <= _calculate_policy m history /\ _calculate_policy m history <= 1.
Proof.
  unfold _calculate_policy, py_min.
  destruct (Qgtb (consistency m) 0.8); [|destruct (Qgtb (consistency m) 0.6)];
    destruct (2 <=? str_count "plateau" (shapes m))%nat;
    destruct (str_count "plateau" (shapes m) =? 1)%nat;
    destruct (stable_hour history);
    destruct (Qgtb (ramp_up m) RAMP_UP_THRESHOLD);
    destruct (Qltb (down_mbps m) SPEED_THRESHOLD_SLOW); cbn [negb];
    case_cmp; split; qlra.
Qed.

Lemma counter_evidence_bounds (policy_score : Q) (m : Metrics) :
  0 <= policy_score ->
  0.12 * policy_score <= _apply_counter_evidence policy_score m /\
  _apply_counter_evidence policy_score m <= policy_score.
Proof.
  intros Hpos. unfold _apply_counter_evidence.
  destruct (Qgtb (jitter m) 100); destruct (Qgtb (latency_diff m) 200);
    destruct (rf_score m) as [s|]; try destruct (Qltb s 40); split; qlra.
Qed.

(** X1: the counter-evidence only ever lowers a policy score: the result
    lies between 0.12 times the score (all three multipliers, 0.5, 0.6 and
    0.4) and the score itself, and it is the score itself exactly when the
    jitter is at most 100, the latency difference at most 200 and the radio
    score unknown or at least 40. *)
Theorem counter_evidence_only_lowers (policy_score : Q) (m : Metrics)
    (Hpos : 0 < policy_score) :
  0.12 * policy_score <= _apply_counter_evidence policy_score m /\
  _apply_counter_evidence policy_score m <= policy_score /\
  (_apply_counter_evidence policy_score m == policy_score <->
   jitter m <= 100 /\ latency_diff m <= 200 /\
   match rf_score m with Some s => 40 <= s | None => True end).
Proof.
  assert (H0 : 0 <= policy_score) by qlra.
  destruct (counter_evidence_bounds policy_score m H0) as [Hlo Hhi].
  split; [exact Hlo|]. split; [exact Hhi|]. clear Hlo Hhi.
  unfold _apply_counter_evidence.
  destruct (ForensicsProofs.Qgtb_spec (jitter m) 100);
    destruct (ForensicsProofs.Qgtb_spec (latency_diff m) 200);
    destruct (rf_score m) as [s|];
    try destruct (ForensicsProofs.Qltb_spec s 40);
    (split; [intros E; try (exfalso; qlra); repeat split; auto; qlra
            |intros (H1 & H2 & H3); try (exfalso; qlra); reflexivity]).
Qed.

(** The example of the specification: 0.8 under jitter 150, latency
    difference 250 and score 30 becomes 0.8 x 0.5 x 0.6 x 0.4 = 0.096. *)
Lemma counter_evidence_only_lowers_witness :
  0 < 0.8 /\
  _apply_counter_evidence 0.8
    {| rf_score := Some 30; down_mbps := 5; latency := 0; jitter := 150;
       packet_loss := 0; ramp_up := 1; consistency := 0.9;
       latency_diff := 250; shapes := [] |} == 0.096 /\
  0.12 * 0.8 <=
    _apply_counter_evidence 0.8
      {| rf_score := Some 30; down_mbps := 5; latency := 0; jitter := 150;
         packet_loss := 0; ramp_up := 1; consistency := 0.9;
         latency_diff := 250; shapes := [] |}.
Proof.
  assert (Hpos : 0 < 0.8) by reflexivity.
  split; [exact Hpos|]. split; [reflexivity|].
  exact (proj1 (counter_evidence_only_lowers 0.8 _ Hpos)).
Defined.

Lemma raw_likelihoods_range (m : Metrics) (history : option History) :
  forall r c p : Q,
  raw_likelihoods m history = (r, c, p) ->
  (0 <= r /\ r <= 0.95) /\ (0 <= c /\ c <= 1) /\ (0 <= p /\ p <= 1).
Proof.
  intros r c p. unfold raw_likelihoods. intros [= <- <- <-].
  split; [apply radio_range|]. split; [apply congestion_range|].
  destruct (policy_range m history) as [H0 H1].
  destruct (counter_evidence_bounds (_calculate_policy m history) m H0)
    as (Hlo & Hhi).
  split; qlra.
Qed.

(** Scaling by a positive factor commutes with Python's [max]. *)
Lemma py_max_scale (a b f : Q) :
  0 < f -> py_max (a * f) (b * f) = py_max a b * f.
Proof.
  intros Hf. unfold py_max.
  destruct (ForensicsProofs.Qgtb_spec (b * f) (a * f)) as [H|H];
    destruct (ForensicsProofs.Qgtb_spec b a) as [G|G]; try reflexivity;
    exfalso; Lqa.nra.
Qed.

Lemma Qeq_bool_scale (a b f : Q) :
  0 < f -> Qeq_bool (a * f) (b * f) = Qeq_bool a b.
Proof.
  intros Hf.
  destruct (Qeq_bool a b) eqn:E.
  - apply Qeq_bool_iff in E. apply Qeq_bool_iff. now rewrite E.
  - apply Qeq_bool_neq in E.
    destruct (Qeq_bool (a * f) (b * f)) eqn:G; [|reflexivity].
    apply Qeq_bool_iff in G. exfalso. apply E.
    apply (Qmult_inj_r a b f); [Lqa.lra|exact G].
Qed.

Lemma py_max3_upper (r c p : Q) :
  r <= py_max3 r c p /\ c <= py_max3 r c p /\ p <= py_max3 r c p.
Proof.
  unfold py_max3.
  destruct (ForensicsProofs.py_max_ub r c) as (H1 & H2 & _).
  destruct (ForensicsProofs.py_max_ub (py_max r c) p) as (H4 & H5 & _).
  repeat split; qlra.
Qed.

(** X2: normalisation compresses and keeps the verdict: every likelihood
    is scaled down, and the verdict of the scaled likelihoods is that of
    the raw ones, unless the scaling takes the largest below 0.4, which
    makes it inconclusive. *)
Theorem normalization_keeps_verdict (r c p : Q)
    (Hr : 0 <= r) (Hc : 0 <= c) (Hp : 0 <= p) (Htotal : 0.95 < r + c + p) :
  let '(r', c', p') := _normalize r c p (r + c + p) in
  r' <= r /\ c' <= c /\ p' <= p /\
  (_get_verdict r' c' p' = _get_verdict r c p \/
   (py_max3 r' c' p' < 0.4 /\
    _get_verdict r' c' p' = "Inconclusive / Gathering Data"%string)).
Proof.
  unfold _normalize.
  set (f := 0.95 / (r + c + p)).
  assert (Hf : 0 < f /\ f < 1).
  { unfold f. split.
    - apply Qlt_shift_div_l; qlra.
    - apply Qlt_shift_div_r; qlra. }
  destruct Hf as [Hf0 Hf1]. clearbody f.
  split; [Lqa.nra|]. split; [Lqa.nra|]. split; [Lqa.nra|].
  unfold _get_verdict, py_max3.
  rewrite !py_max_scale by assumption. fold (py_max3 r c p).
  set (mx := py_max3 r c p).
  rewrite !Qeq_bool_scale by assumption.
  destruct (ForensicsProofs.Qltb_spec (mx * f) 0.4) as [Hlt|Hge];
    [right; split; [assumption|reflexivity]|left].
  destruct (ForensicsProofs.Qltb_spec mx 0.4) as [Hlt'|_]; [|reflexivity].
  exfalso.
  assert (0 <= mx) by (pose proof (py_max3_upper r c p); unfold mx; qlra).
  Lqa.nra.
Qed.

Lemma normalization_keeps_verdict_witness :
  0 <= 0.45 /\ 0.95 < 0.45 + 0.45 + 0.45 /\
  let '(r', c', p') := _normalize 0.45 0.45 0.45 (0.45 + 0.45 + 0.45) in
  r' <= 0.45 /\ c' <= 0.45 /\ p' <= 0.45 /\
  (_get_verdict r' c' p' = _get_verdict 0.45 0.45 0.45 \/
   (py_max3 r' c' p' < 0.4 /\
    _get_verdict r' c' p' = "Inconclusive / Gathering Data"%string)).
Proof.
  assert (H0 : 0 <= 0.45) by (vm_compute; discriminate).
  assert (Ht : 0.95 < 0.45 + 0.45 + 0.45) by reflexivity.
  split; [exact H0|]. split; [exact Ht|].
  exact (normalization_keeps_verdict 0.45 0.45 0.45 H0 H0 H0 Ht).
Defined.


Lemma get_verdict_cases (r c p : Q) :
  let m := py_max3 r c p in
  (m < 0.4 /\ _get_verdict r c p = "Inconclusive / Gathering Data"%string) \/
  (0.4 <= m /\ r == m /\
   _get_verdict r c p = "Radio Impairment Likely"%string) \/
  (0.4 <= m /\ r < m /\ c == m /\
   _get_verdict r c p = "Congestion Indicators Present"%string) \/
  (0.4 <= m /\ r < m /\ c < m /\ p == m /\
   _get_verdict r c p = "Policy-Like Pattern Detected"%string).
Proof.
  intros m. destruct (py_max3_upper r c p) as (Hr & Hc & Hp). fold m in Hr, Hc, Hp.
  assert (Hm : m = r \/ m = c \/ m = p).
  { unfold m, py_max3.
    destruct (ForensicsProofs.py_max_ub r c) as (_ & _ & H3).
    destruct (ForensicsProofs.py_max_ub (py_max r c) p) as (_ & _ & H6).
    destruct H6 as [-> | ->]; [destruct H3 as [-> | ->]|]; auto. }
  unfold _get_verdict. fold m.
  destruct (ForensicsProofs.Qltb_spec m 0.4) as [Hlt|Hge]; [left; auto|right].
  destruct (Qeq_bool r m) eqn:Er.
  { apply Qeq_bool_iff in Er. left. repeat split; [qlra|assumption]. }
  apply Qeq_bool_neq in Er. right.
  destruct (Qeq_bool c m) eqn:Ec.
  { apply Qeq_bool_iff in Ec. left. repeat split; [qlra|qlra|assumption]. }
  apply Qeq_bool_neq in Ec. right.
  assert (Ep : p == m).
  { destruct Hm as [E | [E | E]]; rewrite E in *;
      [exfalso; apply Er | exfalso; apply Ec | ]; reflexivity. }
  apply Qeq_bool_iff in Ep. rewrite Ep. apply Qeq_bool_iff in Ep.
  repeat split; [qlra|qlra|qlra|assumption].
Qed.

(** What [analyze] returns, in terms of the likelihoods before rounding. *)
Lemma analyze_result (signal_data : option SignalData)
    (network_data : NetworkData) (history : option History) :
  exists (m : Metrics) (r c p : Q),
    _extract_metrics signal_data (Some network_data) = Ok m /\
    normalized_likelihoods m history = (r, c, p) /\
    analyze signal_data (Some network_data) history =
      Ok {| radio_likelihood := round2 r;
            congestion_likelihood := round2 c;
            policy_likelihood := round2 p;
            verdict :=
              if String.prefix "Policy" (_get_verdict r c p)
                 && negb (_is_confident history)
              then "Observed, low confidence"%string
              else _get_verdict r c p;
            consistency_score := consistency m |}.
Proof.
  unfold analyze. simpl _extract_metrics. cbn [bind].
  set (m := Build_Metrics _ _ _ _ _ _ _ _ _).
  exists m. destruct (normalized_likelihoods m history) as [[r c] p].
  exists r, c, p. split; [reflexivity|]. split; reflexivity.
Qed.

(** The likelihoods the verdict is taken from lie between 0 and the raw
    ones, and normalisation keeps their order. *)
Lemma normalized_range (m : Metrics) (history : option History)
    (r0 c0 p0 r c p : Q) :
  raw_likelihoods m history = (r0, c0, p0) ->
  normalized_likelihoods m history = (r, c, p) ->
  (0 <= r /\ r <= r0) /\ (0 <= c /\ c <= c0) /\ (0 <= p /\ p <= p0) /\
  (p0 < r0 -> p < r) /\ (r0 < 0.4 -> r < 0.4) /\ (c0 < 0.4 -> c < 0.4).
Proof.
  intros Hraw. pose proof (raw_likelihoods_range m history r0 c0 p0 Hraw)
    as ((Hr0 & Hr1) & (Hc0 & Hc1) & (Hp0 & Hp1)).
  unfold normalized_likelihoods. rewrite Hraw.
  destruct (ForensicsProofs.Qgtb_spec (r0 + c0 + p0) 0.95) as [Hgt|Hle].
  - unfold _normalize. set (f := 0.95 / (r0 + c0 + p0)).
    assert (Hf : 0 < f /\ f < 1).
    { unfold f. split.
      - apply Qlt_shift_div_l; qlra.
      - apply Qlt_shift_div_r; qlra. }
    destruct Hf as [Hf0 Hf1]. clearbody f.
    intros [= <- <- <-]. repeat split; intros; Lqa.nra.
  - intros [= <- <- <-]. repeat split; intros; qlra.
Qed.


Lemma round_half_even_le (x : Q) (n : Z) :
  x <= inject_Z n -> (round_half_even x <= n)%Z.
Proof.
  intros Hx. pose proof (Qfloor_le x) as Hlo.
  assert (Hf : (Qfloor x <= n)%Z) by (rewrite Zle_Qle; eapply Qle_trans; eassumption).
  unfold round_half_even.
  destruct ((x - inject_Z (Qfloor x)) ?= (1 # 2)) eqn:E.
  - apply Qeq_alt in E.
    assert ((Qfloor x < n)%Z).
    { rewrite Zlt_Qlt. revert Hx Hlo E.
      generalize (inject_Z (Qfloor x)), (inject_Z n). intros; qlra. }
    destruct (Z.even (Qfloor x)); lia.
  - exact Hf.
  - apply Qgt_alt in E.
    assert ((Qfloor x < n)%Z).
    { rewrite Zlt_Qlt. revert Hx Hlo E.
      generalize (inject_Z (Qfloor x)), (inject_Z n). intros; qlra. }
    lia.
Qed.

Lemma round_half_even_ge (x : Q) (n : Z) :
  inject_Z n <= x -> (n <= round_half_even x)%Z.
Proof.
  intros Hx.
  assert (Hf : (n <= Qfloor x)%Z).
  { rewrite <- (Qfloor_Z n). now apply Qfloor_resp_le. }
  unfold round_half_even.
  destruct ((x - inject_Z (Qfloor x)) ?= (1 # 2));
    [destruct (Z.even (Qfloor x))| |]; lia.
Qed.

Lemma round2_range (x : Q) (k : Z) :
  0 <= x -> x <= inject_Z k / 100 ->
  0 <= round2 x /\ round2 x <= inject_Z k / 100.
Proof.
  intros H0 H1. unfold round2, Qdiv in *. change (/ 100) with (1 # 100) in *.
  assert (G0 : (0 <= round_half_even (x * 100))%Z).
  { apply round_half_even_ge. change (inject_Z 0) with 0. qlra. }
  assert (G1 : (round_half_even (x * 100) <= k)%Z).
  { apply round_half_even_le. revert H1. generalize (inject_Z k). intros q H1.
    qlra. }
  rewrite Zle_Qle in G0, G1. change (inject_Z 0) with 0 in G0.
  revert G0 G1 H1. generalize (inject_Z (round_half_even (x * 100))).
  generalize (inject_Z k). intros q1 q2 G0 G1 H1. split; qlra.
Qed.

(** X3: every likelihood [analyze] returns is a probability: the radio
    likelihood lies between 0 and 0.95, the congestion and the policy
    likelihood between 0 and 1. *)
Theorem returned_likelihoods_range (signal_data : option SignalData)
    (network_data : NetworkData) (history : option History) :
  exists d : DiagnosisResult,
    analyze signal_data (Some network_data) history = Ok d /\
    (0 <= radio_likelihood d /\ radio_likelihood d <= 0.95) /\
    (0 <= congestion_likelihood d /\ congestion_likelihood d <= 1) /\
    (0 <= policy_likelihood d /\ policy_likelihood d <= 1).
Proof.
  destruct (analyze_result signal_data network_data history)
    as (m & r & c & p & _ & Hn & ->).
  eexists. split; [reflexivity|].
  cbn [radio_likelihood congestion_likelihood policy_likelihood].
  destruct (raw_likelihoods m history) as [[r0 c0] p0] eqn:Hraw.
  pose proof (raw_likelihoods_range m history r0 c0 p0 Hraw)
    as ((Hr0 & Hr1) & (Hc0 & Hc1) & (Hp0 & Hp1)).
  pose proof (normalized_range m history r0 c0 p0 r c p Hraw Hn)
    as ((Gr0 & Gr1) & (Gc0 & Gc1) & (Gp0 & Gp1) & _).
  pose proof (round2_range r 95 Gr0) as Hr.
  pose proof (round2_range c 100 Gc0) as Hc.
  pose proof (round2_range p 100 Gp0) as Hp.
  change (inject_Z 95 / 100) with ((95 # 1) * (1 # 100)) in Hr.
  change (inject_Z 100 / 100) with ((100 # 1) * (1 # 100)) in Hc, Hp.
  destruct Hr as [? ?]; [qlra|]. destruct Hc as [? ?]; [qlra|].
  destruct Hp as [? ?]; [qlra|].
  repeat split; qlra.
Qed.

(** X4: the verdict is one of five labels, never ["Mixed Signals"], and a
    policy verdict is shown only with confidence: it is returned only when
    the history counts at least 3 earlier policy verdicts, and is replaced
    by ["Observed, low confidence"] otherwise. *)
Theorem policy_verdict_needs_confidence (signal_data : option SignalData)
    (network_data : NetworkData) (history : option History) :
  exists d : DiagnosisResult,
    analyze signal_data (Some network_data) history = Ok d /\
    In (verdict d)
       ["Inconclusive / Gathering Data"; "Radio Impairment Likely";
        "Congestion Indicators Present"; "Policy-Like Pattern Detected";
        "Observed, low confidence"]%string /\
    (verdict d <> "Policy-Like Pattern Detected"%string \/
     exists h : History,
       history = Some h /\ (3 <= dict_get (h_policy_count h) 0)%Z) /\
    (verdict d <> "Observed, low confidence"%string \/
     _is_confident history = false).
Proof.
  destruct (analyze_result signal_data network_data history)
    as (m & r & c & p & _ & _ & ->).
  eexists. split; [reflexivity|]. cbn [verdict].
  destruct (get_verdict_cases r c p) as [[_ ->]|[(_ & _ & ->)|[(_ & _ & _ & ->)|(_ & _ & _ & _ & ->)]]];
    cbn [String.prefix andb];
    try (split; [cbn; tauto|split; left; discriminate]).
  destruct history as [h|]; cbn [_is_confident negb].
  - destruct (Z.leb_spec 3 (dict_get (h_policy_count h) 0%Z)); cbn [negb].
    + split; [cbn; tauto|]. split; [right; eauto|left; discriminate].
    + split; [cbn; tauto|]. split; [left; discriminate|right; reflexivity].
  - split; [cbn; tauto|]. split; [left; discriminate|right; reflexivity].
Qed.


Lemma congestion_fast (m : Metrics) :
  50 < down_mbps m -> _calculate_congestion m <= 0.11.
Proof.
  intros Hfast. unfold _calculate_congestion, py_min, SPEED_THRESHOLD_FAST.
  destruct (ForensicsProofs.Qgtb_spec (down_mbps m) 50) as [_|H];
    [|contradiction].
  destruct (Qgtb (latency_diff m) 50); [|destruct (Qgtb (latency_diff m) 20)];
    destruct (Qgtb (jitter m) JITTER_THRESHOLD_HIGH);
    destruct (Qgtb (packet_loss m) PACKET_LOSS_THRESHOLD);
    destruct (str_in "linear_climb" (shapes m));
    case_cmp; qlra.
Qed.

(** X5: on a link faster than 50 Mbps the congestion score is multiplied by
    0.1, which leaves it at 0.11 at most, so the verdict is never the
    congestion one. *)
Theorem fast_link_never_congestion (signal_data : option SignalData)
    (network_data : NetworkData) (history : option History) (v : Q)
    (Hspeed : nd_down_mbps network_data = Some v) (Hfast : 50 < v) :
  exists d : DiagnosisResult,
    analyze signal_data (Some network_data) history = Ok d /\
    congestion_likelihood d <= 0.11 /\
    verdict d <> "Congestion Indicators Present"%string.
Proof.
  destruct (analyze_result signal_data network_data history)
    as (m & r & c & p & Hm & Hn & ->).
  eexists. split; [reflexivity|].
  cbn [verdict congestion_likelihood].
  assert (Hd : down_mbps m = v).
  { cbn in Hm. injection Hm as <-. cbn. now rewrite Hspeed. }
  destruct (raw_likelihoods m history) as [[r0 c0] p0] eqn:Hraw.
  pose proof (normalized_range m history r0 c0 p0 r c p Hraw Hn)
    as (_ & (Gc0 & Gc1) & _).
  assert (Hc0 : c0 <= 0.11).
  { unfold raw_likelihoods in Hraw. injection Hraw as _ <- _.
    apply congestion_fast. rewrite Hd. exact Hfast. }
  split.
  - pose proof (round2_range c 11 Gc0) as Hc.
    change (inject_Z 11 / 100) with ((11 # 1) * (1 # 100)) in Hc.
    destruct Hc as [_ ?]; qlra.
  - pose proof (py_max3_upper r c p) as (_ & Hcm & _).
    destruct (get_verdict_cases r c p)
      as [[_ ->]|[(_ & _ & ->)|[(H4 & _ & E & _)|(_ & _ & _ & _ & ->)]]];
      cbn [String.prefix andb]; try discriminate.
    + exfalso. qlra.
    + destruct (negb (_is_confident history)); discriminate.
Qed.

Lemma fast_link_never_congestion_witness :
  nd_down_mbps weak_cell_network = Some 60 /\ 50 < 60 /\
  exists d : DiagnosisResult,
    analyze (Some weak_cell_signal) (Some weak_cell_network) None = Ok d /\
    congestion_likelihood d <= 0.11 /\
    verdict d <> "Congestion Indicators Present"%string.
Proof.
  split; [reflexivity|]. split; [reflexivity|].
  exact (fast_link_never_congestion (Some weak_cell_signal) weak_cell_network
           None 60 eq_refl eq_refl).
Defined.

(** X6: the radio verdict is given only for a known radio score below 70:
    with an unknown score, or one of 70 or more, the radio likelihood is at
    most 0.1 and the verdict is not the radio one. *)
Theorem radio_verdict_needs_low_score (signal_data : option SignalData)
    (network_data : NetworkData) (history : option History)
    (Hscore : match signal_data with
              | Some sd => match sd_score sd with
                           | Some s => 70 <= s
                           | None => True
                           end
              | None => True
              end) :
  exists d : DiagnosisResult,
    analyze signal_data (Some network_data) history = Ok d /\
    radio_likelihood d <= 0.1 /\
    verdict d <> "Radio Impairment Likely"%string.
Proof.
  destruct (analyze_result signal_data network_data history)
    as (m & r & c & p & Hm & Hn & ->).
  eexists. split; [reflexivity|].
  cbn [verdict radio_likelihood].
  destruct (raw_likelihoods m history) as [[r0 c0] p0] eqn:Hraw.
  pose proof (normalized_range m history r0 c0 p0 r c p Hraw Hn)
    as ((Gr0 & Gr1) & _).
  assert (Hr0 : r0 <= 0.1).
  { unfold raw_likelihoods in Hraw. injection Hraw as <- _ _.
    cbn in Hm. injection Hm as <-. cbn [rf_score].
    destruct signal_data as [sd|]; [|cbn; qlra].
    destruct (sd_score sd) as [s|]; [|cbn; qlra].
    destruct (ForensicsProofs.radio_table s) as [H|[H|[H|[H|H]]]];
      repeat match goal with
      | H : _ /\ _ |- _ => destruct H
      end; try (exfalso; qlra);
      match goal with
      | H : _calculate_radio _ = _ |- _ => rewrite H
      end; qlra. }
  split.
  - pose proof (round2_range r 10 Gr0) as Hr.
    change (inject_Z 10 / 100) with ((10 # 1) * (1 # 100)) in Hr.
    destruct Hr as [_ ?]; qlra.
  - destruct (get_verdict_cases r c p)
      as [[_ ->]|[(H4 & E & _)|[(_ & _ & _ & ->)|(_ & _ & _ & _ & ->)]]];
      cbn [String.prefix andb]; try discriminate.
    + exfalso. qlra.
    + destruct (negb (_is_confident history)); discriminate.
Qed.

Lemma radio_verdict_needs_low_score_witness :
  70 <= 75 /\
  exists d : DiagnosisResult,
    analyze (Some {| sd_score := Some 75 |}) (Some capped_network) None = Ok d /\
    radio_likelihood d <= 0.1 /\
    verdict d <> "Radio Impairment Likely"%string.
Proof.
  assert (H : 70 <= 75) by (vm_compute; discriminate).
  split; [exact H|].
  exact (radio_verdict_needs_low_score (Some {| sd_score := Some 75 |})
           capped_network None H).
Defined.

(** X7: with a known radio score below 40 the policy score is multiplied
    by 0.4 and stays below the radio likelihood, which is then at least
    0.8: the verdict is neither the policy one nor its low-confidence
    replacement. *)
Theorem weak_radio_never_policy (sd : SignalData)
    (network_data : NetworkData) (history : option History) (s : Q)
    (Hscore : sd_score sd = Some s) (Hweak : s < 40) :
  exists d : DiagnosisResult,
    analyze (Some sd) (Some network_data) history = Ok d /\
    verdict d <> "Policy-Like Pattern Detected"%string /\
    verdict d <> "Observed, low confidence"%string.
Proof.
  destruct (analyze_result (Some sd) network_data history)
    as (m & r & c & p & Hm & Hn & ->).
  eexists. split; [reflexivity|]. cbn [verdict].
  destruct (raw_likelihoods m history) as [[r0 c0] p0] eqn:Hraw.
  pose proof (normalized_range m history r0 c0 p0 r c p Hraw Hn)
    as (_ & _ & _ & Hord & _).
  assert (Hlt : p < r).
  { apply Hord. unfold raw_likelihoods in Hraw. injection Hraw as <- _ <-.
    cbn in Hm. injection Hm as <-. cbn [rf_score]. rewrite Hscore.
    set (m := Build_Metrics _ _ _ _ _ _ _ _ _).
    assert (Hr : 0.8 <= _calculate_radio (Some s)).
    { destruct (ForensicsProofs.radio_table s) as [H|[H|[H|[H|H]]]];
        repeat match goal with
        | H : _ /\ _ |- _ => destruct H
        end; try (exfalso; qlra);
        match goal with
        | H : _calculate_radio _ = _ |- _ => rewrite H
        end; qlra. }
    destruct (policy_range m history) as [H0 H1].
    revert H0 H1. generalize (_calculate_policy m history). intros q H0 H1.
    unfold _apply_counter_evidence. cbn [rf_score jitter latency_diff m].
    destruct (ForensicsProofs.Qltb_spec s 40) as [_|H]; [|contradiction].
    destruct (Qgtb _ 100); destruct (Qgtb _ 200); qlra. }
  pose proof (py_max3_upper r c p) as (Hrm & _ & _).
  destruct (get_verdict_cases r c p)
    as [[_ ->]|[(_ & _ & ->)|[(_ & _ & _ & ->)|(_ & _ & _ & E & _)]]];
    cbn [String.prefix andb]; try (split; discriminate).
  exfalso. qlra.
Qed.

Lemma weak_radio_never_policy_witness :
  sd_score weak_cell_signal = Some 35 /\ 35 < 40 /\
  exists d : DiagnosisResult,
    analyze (Some weak_cell_signal) (Some weak_cell_network) None = Ok d /\
    verdict d <> "Policy-Like Pattern Detected"%string /\
    verdict d <> "Observed, low confidence"%string.
Proof.
  split; [reflexivity|]. split; [reflexivity|].
  exact (weak_radio_never_policy weak_cell_signal weak_cell_network None 35
           eq_refl eq_refl).
Defined.

End ForensicsBounds.

(** ** main.py: the strain index, the budget and the windows *)

Module MonitorInvariants.
Import Monitor.
Open Scope Q_scope.

Ltac qlra := Lqa.lra.

Lemma clamp_range (x : Q) :
  0 <= Forensics.py_max 0 (Forensics.py_min 100 x) /\
  Forensics.py_max 0 (Forensics.py_min 100 x) <= 100.
Proof.
  unfold Forensics.py_max, Forensics.py_min.
  destruct (ForensicsProofs.Qltb_spec x 100);
    [destruct (ForensicsProofs.Qgtb_spec x 0)
    |destruct (ForensicsProofs.Qgtb_spec 100 0)]; split; qlra.
Qed.

(** X8: the strain index is always between 0 and 100, whatever the score,
    the speed and the latency. *)
Theorem psi_range (rf_score : option Q) (down_mbps latency_avg : Q) :
  0 <= calculate_simple_psi rf_score down_mbps latency_avg /\
  calculate_simple_psi rf_score down_mbps latency_avg <= 100.
Proof. unfold calculate_simple_psi. apply clamp_range. Qed.

(** X9: a link that downloads at 30 Mbps or more with a latency of at most
    100 ms has strain index 0 whatever its radio score up to 100, so the
    strain never asks for a test on it: a test is due only by the 4-hour
    baseline. *)
Theorem psi_zero_on_good_link (rf_score : option Q) (down_mbps latency_avg : Q)
    (ts : Q)
    (Hrf : match rf_score with Some s => s <= 100 | None => True end)
    (Hdown : 30 <= down_mbps) (Hlat : latency_avg <= 100) :
  calculate_simple_psi rf_score down_mbps latency_avg = 0 /\
  due ts (calculate_simple_psi rf_score down_mbps latency_avg)
    = Forensics.Qgtb ts (4 * 3600).
Proof.
  assert (E : calculate_simple_psi rf_score down_mbps latency_avg = 0).
  { unfold calculate_simple_psi.
    destruct (ForensicsProofs.Qgtb_spec latency_avg 100) as [H|_];
      [exfalso; qlra|].
    rewrite andb_false_r.
    assert (Hs : Forensics.py_max 0
                   (Forensics.py_min 100 (down_mbps / 30.0 * 100)) = 100).
    { unfold Forensics.py_max, Forensics.py_min, Qdiv.
      change (/ 30.0) with (10 # 300).
      destruct (ForensicsProofs.Qltb_spec (down_mbps * (10 # 300) * 100) 100)
        as [H|_]; [exfalso; qlra|].
      reflexivity. }
    rewrite Hs. unfold Forensics.py_max, Forensics.py_min.
    assert (Hd : dict_get rf_score 50 <= 100)
      by (destruct rf_score; cbn; [assumption|qlra]).
    revert Hd. generalize (dict_get rf_score 50). intros rf Hd.
    destruct (ForensicsProofs.Qltb_spec (rf - 100 + 0) 100) as [_|H];
      [|exfalso; qlra].
    destruct (ForensicsProofs.Qgtb_spec (rf - 100 + 0) 0) as [H|_];
      [exfalso; qlra|reflexivity]. }
  split; [exact E|]. rewrite E. unfold due, BASELINE_INTERVAL_SECONDS.
  change (Forensics.Qgtb 0 PSI_TRIGGER_THRESHOLD) with false.
  cbn [andb]. apply orb_false_r.
Qed.

Lemma psi_zero_on_good_link_witness :
  50 <= 100 /\ 30 <= 30 /\ 50 <= 100 /\
  calculate_simple_psi (Some 50) 30 50 = 0.
Proof.
  assert (H1 : 50 <= 100) by (vm_compute; discriminate).
  assert (H2 : 30 <= 30) by (vm_compute; discriminate).
  split; [exact H1|]. split; [exact H2|]. split; [exact H1|].
  exact (proj1 (psi_zero_on_good_link (Some 50) 30 50 0 H1 H2 H1)).
Defined.


(** *** The steps of a tick *)

Lemma execute_speedtest_effects (self : State) (w : World) (psi : Q) (env : Env) :
  forall (s1 : State) (w1 : World) (sr : option SpeedResult),
  execute_speedtest_if_needed self w psi env = (s1, w1, sr) ->
  windows s1 = windows self /\ current_key s1 = current_key self /\
  last_change s1 = last_change self /\ current_day s1 = current_day self /\
  current_session s1 = current_session self /\
  ((daily_tests_count s1 = daily_tests_count self) \/
   ((daily_tests_count self < 12)%Z /\
    daily_tests_count s1 = (daily_tests_count self + 1)%Z)) /\
  last_speed_result w1 = last_speed_result w /\
  cell_history w1 = cell_history w /\ observations w1 = observations w /\
  (probes_started w1 = probes_started w \/
   probes_started w1 = S (probes_started w)).
Proof.
  intros s1 w1 sr. unfold execute_speedtest_if_needed, MAX_DAILY_tests.
  destruct (Z.leb_spec 12 (daily_tests_count self)) as [Hcap|Hcap].
  { intros [= <- <- <-]. repeat split; auto. }
  destruct (due _ psi); [|intros [= <- <- <-]; repeat split; auto].
  destruct (py_or _ _); intros [= <- <- <-];
    cbn [windows current_key last_change current_day current_session
         daily_tests_count last_speed_result cell_history observations
         probes_started];
    repeat split; auto.
Qed.

Lemma process_window_steps (self : State) (w : World) (key : string)
    (data : SignalMetrics) (env : Env) (vals : list Q) :
  windows self !! key = Some vals ->
  ((length vals < 5)%nat /\ process_window self w key data env = Ok (self, w)) \/
  ((5 <= length vals)%nat /\
   exists (s1 : State) (w1 : World) (sr : option SpeedResult)
          (analysis : Forensics.DiagnosisResult),
     execute_speedtest_if_needed self w
       (calculate_simple_psi (Some (mean vals))
          match last_speed_result w with Some r => download_mbps r | None => 0 end
          match ping env with Some p => avg_rtt p | None => 0 end) env
       = (s1, w1, sr) /\
     process_window self w key data env =
       Ok (set_window s1 key [],
           {| last_speed_result := py_or sr (last_speed_result w1);
              cell_history := cell_history w1;
              observations := observations w1 ++
                [{| obs_data := data; obs_values := vals;
                    obs_speed_res := sr; obs_ping_res := ping env;
                    obs_forensics := analysis |}];
              probes_started := probes_started w1 |})).
Proof.
  intros Hv. unfold process_window, window. rewrite Hv. cbn [bind].
  unfold MIN_SAMPLES.
  destruct (Nat.ltb_spec (length vals) 5) as [Hlt|Hge]; [left; auto|right].
  split; [assumption|].
  destruct (execute_speedtest_if_needed _ _ _ _) as [[s1 w1] sr].
  match goal with
  | |- context [Forensics.analyze ?s (Some ?n) ?h] =>
      destruct (ForensicsProofs.analyze_returns s n h) as [d Hd]
  end.
  exists s1, w1, sr, d. split; [reflexivity|].
  rewrite Hd. reflexivity.
Qed.


Lemma handle_context_change_effects (self : State) (w : World) (key : string)
    (d : SignalMetrics) (now : Q) (s1 : State) (w1 : World) :
  handle_context_change self w key d now = Ok (s1, w1) ->
  daily_tests_count s1 = daily_tests_count self /\
  last_speedtest_time s1 = last_speedtest_time self /\
  current_day s1 = current_day self /\
  current_key s1 = Some key /\ last_change s1 = now /\
  is_Some (windows s1 !! key) /\
  observations w1 = observations w /\
  probes_started w1 = probes_started w /\
  last_speed_result w1 = last_speed_result w /\
  (cell_history w1 = cell_history w \/
   exists (s : Session) (row : SessionRow),
     current_session self = Some s /\
     cell_history w1 = cell_history w ++ [row] /\
     row_sample_count row = sample_count s).
Proof.
  unfold handle_context_change.
  assert (Hw : is_Some (match windows self !! key with
                        | Some _ => windows self
                        | None => <[key := []]> (windows self)
                        end !! key)).
  { destruct (windows self !! key) eqn:E;
      [rewrite E | rewrite lookup_insert_eq]; eauto. }
  destruct (current_session self) as [s|].
  - destruct (py_div (total_score s) _) as [a1|]; cbn [bind]; [|discriminate].
    destruct (py_div (total_sinr s) _) as [a2|]; cbn [bind]; [|discriminate].
    destruct (py_div (total_rsrq s) _) as [a3|]; cbn [bind]; [|discriminate].
    destruct (py_div (total_rsrp s) _) as [a4|]; cbn [bind]; [|discriminate].
    intros [= <- <-]. cbn. repeat split; auto.
    right. eexists s, _. repeat split.
  - cbn [bind]. intros [= <- <-]. cbn. repeat split; auto.
Qed.

Lemma check_day_rollover_keeps (self : State) (nd : Z) :
  windows (check_day_rollover self nd) = windows self /\
  current_key (check_day_rollover self nd) = current_key self /\
  last_change (check_day_rollover self nd) = last_change self /\
  current_session (check_day_rollover self nd) = current_session self /\
  (daily_tests_count (check_day_rollover self nd) = daily_tests_count self \/
   daily_tests_count (check_day_rollover self nd) = 0%Z).
Proof.
  unfold check_day_rollover. destruct (nd =? current_day self)%Z; cbn; auto 10.
Qed.

Lemma update_session_keeps (self : State) (sc : Q) (d : SignalMetrics) :
  windows (update_session self sc d) = windows self /\
  current_key (update_session self sc d) = current_key self /\
  last_change (update_session self sc d) = last_change self /\
  daily_tests_count (update_session self sc d) = daily_tests_count self.
Proof.
  unfold update_session. destruct (current_session self); cbn; auto.
Qed.

(** A tick that returns, step by step. *)
Lemma tick_steps (self : State) (w : World) (env : Env) (self' : State)
    (w' : World) (data : SignalMetrics) (key : string) (sc : Q) :
  signal env = Some data -> get_key_and_score data = (key, sc) ->
  tick self w env = Ok (self', w') ->
  exists (s1 : State) (w1 : World) (vals : list Q),
    ((Some key = current_key self /\
      s1 = check_day_rollover self (today env) /\ w1 = w) \/
     (Some key <> current_key self /\
      handle_context_change (check_day_rollover self (today env)) w key data
        (clock_change env) = Ok (s1, w1))) /\
    windows s1 !! key = Some vals /\
    ((Forensics.Qgeb (clock_window env - last_change s1) WINDOW_SECONDS = true /\
      process_window (update_session (set_window s1 key (vals ++ [sc])) sc data)
        w1 key data env = Ok (self', w')) \/
     (Forensics.Qgeb (clock_window env - last_change s1) WINDOW_SECONDS = false /\
      self' = update_session (set_window s1 key (vals ++ [sc])) sc data /\
      w' = w1)).
Proof.
  intros Hsig Hkey. unfold tick. rewrite Hsig, Hkey.
  destruct (check_day_rollover_keeps self (today env)) as (_ & Hck & _).
  rewrite Hck.
  destruct (bool_decide_reflect (Some key = current_key self)) as [E|E].
  - cbn [bind]. unfold window.
    destruct (windows _ !! key) as [vals|] eqn:Hv; cbn [bind]; [|discriminate].
    intros Ht. eexists _, w, vals. split; [left; auto|]. split; [exact Hv|].
    destruct (update_session_keeps
                (set_window (check_day_rollover self (today env)) key (vals ++ [sc]))
                sc data) as (_ & _ & Hlc & _).
    rewrite Hlc in Ht. cbn [set_window last_change] in Ht.
    destruct (Forensics.Qgeb _ _); [left; auto|right].
    injection Ht as <- <-. auto.
  - destruct (handle_context_change _ w key data _) as [[s1 w1]|e] eqn:Hh;
      cbn [bind]; [|discriminate].
    unfold window.
    destruct (windows s1 !! key) as [vals|] eqn:Hv; cbn [bind]; [|discriminate].
    intros Ht. exists s1, w1, vals. split; [right; auto|]. split; [exact Hv|].
    destruct (update_session_keeps (set_window s1 key (vals ++ [sc])) sc data)
      as (_ & _ & Hlc & _).
    rewrite Hlc in Ht. cbn [set_window last_change] in Ht.
    destruct (Forensics.Qgeb _ _); [left; auto|right].
    injection Ht as <- <-. auto.
Qed.


Lemma process_window_effects (self : State) (w : World) (key : string)
    (data : SignalMetrics) (env : Env) (vals : list Q)
    (self' : State) (w' : World) :
  windows self !! key = Some vals ->
  process_window self w key data env = Ok (self', w') ->
  current_key self' = current_key self /\
  last_change self' = last_change self /\
  current_session self' = current_session self /\
  (daily_tests_count self' = daily_tests_count self \/
   ((daily_tests_count self < 12)%Z /\
    daily_tests_count self' = (daily_tests_count self + 1)%Z)) /\
  cell_history w' = cell_history w /\
  (probes_started w' = probes_started w \/
   probes_started w' = S (probes_started w)) /\
  (((length vals < 5)%nat /\ self' = self /\ w' = w) \/
   ((5 <= length vals)%nat /\ windows self' !! key = Some [] /\
    exists o : Observation,
      observations w' = observations w ++ [o] /\ obs_values o = vals /\
      obs_data o = data)).
Proof.
  intros Hv Hp.
  destruct (process_window_steps self w key data env vals Hv)
    as [[Hlt E]|(Hge & s1 & w1 & sr & analysis & He & E)];
    rewrite E in Hp; injection Hp as <- <-.
  - repeat split; auto.
  - apply execute_speedtest_effects in He
      as (Hw & Hk & Hl & _ & Hs & Hd & _ & Hc & Ho & Hpr).
    cbn [set_window current_key last_change current_session daily_tests_count
         windows cell_history probes_started observations].
    repeat split; auto.
    right. split; [assumption|]. split; [apply lookup_insert_eq|].
    eexists. rewrite Ho. repeat split.
Qed.

Lemma tick_daily (self : State) (w : World) (env : Env) (self' : State)
    (w' : World) :
  tick self w env = Ok (self', w') ->
  (0 <= daily_tests_count self <= 12)%Z ->
  (0 <= daily_tests_count self' <= 12)%Z.
Proof.
  intros Ht Hd.
  destruct (signal env) as [data|] eqn:Hsig;
    [|unfold tick in Ht; rewrite Hsig in Ht; injection Ht as <- <-; exact Hd].
  destruct (get_key_and_score data) as [key sc] eqn:Hkey.
  destruct (tick_steps self w env self' w' data key sc Hsig Hkey Ht)
    as (s1 & w1 & vals & Hchange & Hv & Hrest).
  destruct (check_day_rollover_keeps self (today env)) as (_ & _ & _ & _ & Hd0).
  assert (H1 : (0 <= daily_tests_count s1 <= 12)%Z).
  { destruct Hchange as [(_ & -> & _)|(_ & Hh)].
    - destruct Hd0 as [-> | ->]; lia.
    - apply handle_context_change_effects in Hh as (-> & _).
      destruct Hd0 as [-> | ->]; lia. }
  destruct (update_session_keeps (set_window s1 key (vals ++ [sc])) sc data)
    as (Hw2 & _ & _ & Hd2).
  cbn [set_window daily_tests_count windows] in Hd2, Hw2.
  destruct Hrest as [(_ & Hp)|(_ & -> & _)]; [|rewrite Hd2; exact H1].
  eapply process_window_effects in Hp as (_ & _ & _ & Hd3 & _);
    [|rewrite Hw2; apply lookup_insert_eq].
  rewrite Hd2 in Hd3. destruct Hd3 as [-> | [? ->]]; lia.
Qed.

(** X10: the daily budget holds in every reachable state: the count of
    tests of the day stays between 0 and the cap of 12. *)
Theorem daily_budget_invariant (self : State) (w : World)
    (Hreach : reachable self w) :
  (0 <= daily_tests_count self <= MAX_DAILY_tests)%Z.
Proof.
  unfold MAX_DAILY_tests.
  induction Hreach as [now day w| self w env self' w' _ IH Ht | self w res _ IH].
  - cbn. lia.
  - eapply tick_daily; eassumption.
  - exact IH.
Qed.

Lemma daily_budget_invariant_witness :
  reachable (init 0 1) fresh_world /\
  (0 <= daily_tests_count (init 0 1) <= MAX_DAILY_tests)%Z.
Proof.
  split; [apply reach_init|].
  exact (daily_budget_invariant (init 0 1) fresh_world
           (reach_init 0 1 fresh_world)).
Defined.

(** X11: what a tick leaves outside the monitor.  From a reachable state,
    a tick starts at most one throughput probe, appends at most one
    observation and at most one session row, and a row it appends is for a
    session of at least one sample; nothing already stored is changed. *)
Theorem tick_appends_only (self : State) (w : World) (env : Env)
    (self' : State) (w' : World)
    (Hreach : reachable self w) (Htick : tick self w env = Ok (self', w')) :
  (cell_history w' = cell_history w \/
   exists row : SessionRow,
     cell_history w' = cell_history w ++ [row] /\
     (1 <= row_sample_count row)%Z) /\
  (observations w' = observations w \/
   exists o : Observation, observations w' = observations w ++ [o]) /\
  (probes_started w' = probes_started w \/
   probes_started w' = S (probes_started w)).
Proof.
  destruct (signal env) as [data|] eqn:Hsig;
    [|unfold tick in Htick; rewrite Hsig in Htick;
      injection Htick as <- <-; auto].
  destruct (get_key_and_score data) as [key sc] eqn:Hkey.
  destruct (tick_steps self w env self' w' data key sc Hsig Hkey Htick)
    as (s1 & w1 & vals & Hchange & Hv & Hrest).
  pose proof (MonitorProofs.reachable_session_has_samples self w Hreach) as Hinv.
  destruct (check_day_rollover_keeps self (today env)) as (_ & _ & _ & Hs0 & _).
  assert (H1 : (cell_history w1 = cell_history w \/
                exists row : SessionRow,
                  cell_history w1 = cell_history w ++ [row] /\
                  (1 <= row_sample_count row)%Z) /\
               observations w1 = observations w /\
               probes_started w1 = probes_started w).
  { destruct Hchange as [(_ & _ & ->)|(_ & Hh)]; [auto|].
    apply handle_context_change_effects in Hh
      as (_ & _ & _ & _ & _ & _ & Ho & Hp & _ & Hc).
    split; [|auto].
    destruct Hc as [Hc|(s & row & Hs & Hc & Hn)]; [auto|right].
    exists row. split; [exact Hc|]. rewrite Hn.
    unfold session_has_samples in Hinv.
    rewrite <- Hs0, Hs in Hinv. exact Hinv. }
  destruct H1 as (Hc1 & Ho1 & Hp1).
  destruct Hrest as [(_ & Hp)|(_ & _ & ->)]; [|rewrite Ho1, Hp1; auto].
  destruct (update_session_keeps (set_window s1 key (vals ++ [sc])) sc data)
    as (Hw2 & _).
  cbn [set_window windows] in Hw2.
  eapply process_window_effects in Hp
    as (_ & _ & _ & _ & Hc & Hpr & Hcase);
    [|rewrite Hw2; apply lookup_insert_eq].
  rewrite Hc, Hp1 in *. split; [exact Hc1|]. split; [|exact Hpr].
  destruct Hcase as [(_ & _ & ->)|(_ & _ & o & Ho & _)];
    [left; exact Ho1|right]. exists o. rewrite Ho, Ho1. reflexivity.
Qed.


Lemma tick_appends_only_witness :
  reachable (init 0 1) fresh_world /\
  exists (self' : State) (w' : World),
    tick (init 0 1) fresh_world first_tick = Ok (self', w') /\
    (cell_history w' = cell_history fresh_world \/
     exists row : SessionRow,
       cell_history w' = cell_history fresh_world ++ [row] /\
       (1 <= row_sample_count row)%Z) /\
    (observations w' = observations fresh_world \/
     exists o : Observation,
       observations w' = observations fresh_world ++ [o]) /\
    (probes_started w' = probes_started fresh_world \/
     probes_started w' = S (probes_started fresh_world)).
Proof.
  split; [apply reach_init|].
  destruct (MonitorProofs.reachable_tick_returns (init 0 1) fresh_world
              first_tick (reach_init 0 1 fresh_world)) as (self' & w' & E).
  exists self', w'. split; [exact E|].
  exact (tick_appends_only (init 0 1) fresh_world first_tick self' w'
           (reach_init 0 1 fresh_world) E).
Defined.

(** A tick on the active key, whose window holds [vals]: the score is
    appended, the session takes the sample, and the window is processed
    when the time gate is open. *)
Lemma tick_on_active_key (self : State) (w : World) (env : Env)
    (data : SignalMetrics) (key : string) (sc : Q) (vals : list Q) :
  signal env = Some data -> get_key_and_score data = (key, sc) ->
  current_key self = Some key -> windows self !! key = Some vals ->
  exists s2 : State,
    windows s2 !! key = Some (vals ++ [sc]) /\
    last_change s2 = last_change self /\
    current_key s2 = Some key /\
    current_session s2 = current_session (update_session self sc data) /\
    tick self w env =
      if Forensics.Qgeb (clock_window env - last_change self) WINDOW_SECONDS
      then process_window s2 w key data env
      else Ok (s2, w).
Proof.
  intros Hsig Hkey Hcur Hwin.
  destruct (check_day_rollover_keeps self (today env)) as (Hw0 & Hk0 & Hl0 & Hs0 & _).
  set (s0 := check_day_rollover self (today env)) in *.
  exists (update_session (set_window s0 key (vals ++ [sc])) sc data).
  destruct (update_session_keeps (set_window s0 key (vals ++ [sc])) sc data)
    as (Hw2 & Hk2 & Hl2 & _).
  cbn [set_window windows current_key last_change] in Hw2, Hk2, Hl2.
  split; [rewrite Hw2; apply lookup_insert_eq|].
  split; [congruence|]. split; [congruence|].
  split.
  { unfold update_session. cbn [set_window current_session]. rewrite Hs0.
    destruct (current_session self) as [cs|] eqn:Ecs; cbn [current_session];
      [reflexivity|].
    cbn [set_window current_session]. congruence. }
  unfold tick. rewrite Hsig, Hkey. fold s0. rewrite Hk0, Hcur.
  rewrite bool_decide_eq_true_2 by reflexivity. cbn [bind].
  unfold window. rewrite Hw0, Hwin. cbn [bind].
  rewrite Hl2, Hl0. reflexivity.
Qed.

(** X12: a mature window is classified and cleared, and the time gate
    stays open.  On a tick for the active key, once 90 seconds have passed
    since the last change of cell and the window reaches 5 scores with the
    new one, the tick logs one observation over the whole window and
    empties the window; the session keeps accumulating, no session row is
    written, and [last_change] does not move, so the gate is open again at
    the next tick. *)
Theorem mature_window_is_classified (self : State) (w : World) (env : Env)
    (data : SignalMetrics) (key : string) (sc : Q) (vals : list Q)
    (Hsig : signal env = Some data)
    (Hkey : get_key_and_score data = (key, sc))
    (Hcur : current_key self = Some key)
    (Hwin : windows self !! key = Some vals)
    (Hlen : (4 <= length vals)%nat)
    (Hgate : WINDOW_SECONDS <= clock_window env - last_change self) :
  exists (self' : State) (w' : World) (o : Observation),
    tick self w env = Ok (self', w') /\
    observations w' = observations w ++ [o] /\
    obs_values o = vals ++ [sc] /\
    windows self' !! key = Some [] /\
    last_change self' = last_change self /\
    current_session self' = current_session (update_session self sc data) /\
    cell_history w' = cell_history w.
Proof.
  destruct (tick_on_active_key self w env data key sc vals Hsig Hkey Hcur Hwin)
    as (s2 & Hw2 & Hl2 & _ & Hs2 & ->).
  unfold Forensics.Qgeb.
  destruct (ForensicsProofs.Qltb_spec (clock_window env - last_change self)
              WINDOW_SECONDS) as [H|_]; [exfalso; qlra|].
  cbn [negb].
  destruct (MonitorProofs.process_window_returns s2 w key data env)
    as (self' & w' & Hp); [rewrite Hw2; eauto|].
  pose proof (process_window_effects s2 w key data env (vals ++ [sc]) self' w'
                Hw2 Hp) as (_ & Hl & Hs & _ & Hc & _ & Hcase).
  destruct Hcase as [(Hshort & _)|(_ & Hclear & o & Ho & Hv & _)].
  { rewrite length_app in Hshort. cbn in Hshort. lia. }
  exists self', w', o. repeat split; auto; congruence.
Qed.

Lemma mature_window_is_classified_witness :
  signal late_tick = Some cell_a /\
  get_key_and_score cell_a = (cell_a_key, 62) /\
  current_key four_samples = Some cell_a_key /\
  windows four_samples !! cell_a_key = Some [60; 61; 62; 63] /\
  (4 <= length [60; 61; 62; 63])%nat /\
  WINDOW_SECONDS <= clock_window late_tick - last_change four_samples /\
  exists (self' : State) (w' : World) (o : Observation),
    tick four_samples fresh_world late_tick = Ok (self', w') /\
    observations w' = observations fresh_world ++ [o] /\
    obs_values o = [60; 61; 62; 63] ++ [62] /\
    windows self' !! cell_a_key = Some [] /\
    last_change self' = last_change four_samples /\
    current_session self' =
      current_session (update_session four_samples 62 cell_a) /\
    cell_history w' = cell_history fresh_world.
Proof.
  assert (Hgate : WINDOW_SECONDS <= clock_window late_tick - last_change four_samples)
    by (vm_compute; discriminate).
  assert (Hlen : (4 <= length [60; 61; 62; 63])%nat) by (cbn; lia).
  split; [reflexivity|]. split; [reflexivity|]. split; [reflexivity|].
  split; [reflexivity|]. split; [exact Hlen|]. split; [exact Hgate|].
  exact (mature_window_is_classified four_samples fresh_world late_tick cell_a
           cell_a_key 62 [60; 61; 62; 63] eq_refl eq_refl eq_refl eq_refl
           Hlen Hgate).
Defined.

(** X13: a young window only grows.  On a tick for the active key, while
    fewer than 90 seconds have passed since the last change of cell, or
    the window has fewer than 5 scores with the new one, the tick appends
    the score and does nothing else: no probe, observation or row is made,
    and the budget and the time gate are as before. *)
Theorem young_window_only_grows (self : State) (w : World) (env : Env)
    (data : SignalMetrics) (key : string) (sc : Q) (vals : list Q)
    (Hsig : signal env = Some data)
    (Hkey : get_key_and_score data = (key, sc))
    (Hcur : current_key self = Some key)
    (Hwin : windows self !! key = Some vals)
    (Hyoung : (length vals < 4)%nat \/
              clock_window env - last_change self < WINDOW_SECONDS) :
  exists self' : State,
    tick self w env = Ok (self', w) /\
    windows self' !! key = Some (vals ++ [sc]) /\
    last_change self' = last_change self /\
    current_session self' = current_session (update_session self sc data).
Proof.
  destruct (tick_on_active_key self w env data key sc vals Hsig Hkey Hcur Hwin)
    as (s2 & Hw2 & Hl2 & _ & Hs2 & ->).
  exists s2. split; [|auto].
  unfold Forensics.Qgeb.
  destruct (ForensicsProofs.Qltb_spec (clock_window env - last_change self)
              WINDOW_SECONDS) as [H|H]; cbn [negb]; [reflexivity|].
  destruct Hyoung as [Hshort|Hearly]; [|exfalso; qlra].
  destruct (process_window_steps s2 w key data env (vals ++ [sc]) Hw2)
    as [[_ E]|(Hge & _)]; [exact E|].
  rewrite length_app in Hge. cbn in Hge. lia.
Qed.

Lemma young_window_only_grows_witness :
  signal first_tick = Some cell_a /\
  get_key_and_score cell_a = (cell_a_key, 62) /\
  current_key four_samples = Some cell_a_key /\
  windows four_samples !! cell_a_key = Some [60; 61; 62; 63] /\
  ((length [60; 61; 62; 63] < 4)%nat \/
   clock_window first_tick - last_change four_samples < WINDOW_SECONDS) /\
  exists self' : State,
    tick four_samples fresh_world first_tick = Ok (self', fresh_world) /\
    windows self' !! cell_a_key = Some ([60; 61; 62; 63] ++ [62]) /\
    last_change self' = last_change four_samples /\
    current_session self' =
      current_session (update_session four_samples 62 cell_a).
Proof.
  assert (Hyoung : (length [60; 61; 62; 63] < 4)%nat \/
                   clock_window first_tick - last_change four_samples
                     < WINDOW_SECONDS) by (right; reflexivity).
  split; [reflexivity|]. split; [reflexivity|]. split; [reflexivity|].
  split; [reflexivity|]. split; [exact Hyoung|].
  exact (young_window_only_grows four_samples fresh_world first_tick cell_a
           cell_a_key 62 [60; 61; 62; 63] eq_refl eq_refl eq_refl eq_refl
           Hyoung).
Defined.


(** X14: a change of cell restarts the session and the time gate but not
    the window.  When the key of the signal differs from the active key,
    the tick makes it the active key, sets [last_change] to the clock,
    starts a session that holds exactly this one sample, and appends the
    score to whatever window the key already had from an earlier stay on
    that cell (an empty one if it had none). *)
Theorem cell_change_resumes_window (self : State) (w : World) (env : Env)
    (data : SignalMetrics) (key : string) (sc : Q)
    (Hinv : session_has_samples self)
    (Hsig : signal env = Some data)
    (Hkey : get_key_and_score data = (key, sc))
    (Hnew : Some key <> current_key self)
    (Hearly : clock_window env - clock_change env < WINDOW_SECONDS) :
  exists (self' : State) (w' : World),
    tick self w env = Ok (self', w') /\
    current_key self' = Some key /\
    last_change self' = clock_change env /\
    accumulated_samples self' = 1%Z /\
    windows self' !! key =
      Some (match windows self !! key with
            | Some old => old
            | None => []
            end ++ [sc]).
Proof.
  destruct (check_day_rollover_keeps self (today env))
    as (Hw0 & Hk0 & Hl0 & Hs0 & _).
  set (s0 := check_day_rollover self (today env)) in *.
  assert (Hinv0 : session_has_samples s0)
    by (unfold session_has_samples in *; rewrite Hs0; exact Hinv).
  destruct (MonitorProofs.handle_context_change_ok s0 w key data
              (clock_change env) Hinv0)
    as (s1 & w1 & Hh & _ & Hacc & Hk1 & _).
  assert (Hfields : last_change s1 = clock_change env /\
                    windows s1 !! key =
                      Some match windows self !! key with
                           | Some old => old
                           | None => []
                           end /\
                    exists cs : Session,
                      current_session s1 = Some cs /\ sample_count cs = 0%Z).
  { revert Hh. unfold handle_context_change.
    destruct (match current_session s0 with Some _ => _ | None => _ end)
      as [w2|]; cbn [bind]; [|discriminate].
    intros [= <- _]. cbn [last_change windows current_session].
    split; [reflexivity|]. split; [|eexists; split; reflexivity].
    rewrite Hw0. destruct (windows self !! key) eqn:E;
      [exact E | apply lookup_insert_eq]. }
  destruct Hfields as (Hl1 & Hw1 & cs & Hcs & Hn).
  set (old := match windows self !! key with Some o => o | None => [] end) in *.
  set (s2 := update_session (set_window s1 key (old ++ [sc])) sc data).
  destruct (update_session_keeps (set_window s1 key (old ++ [sc])) sc data)
    as (Hw2 & Hk2 & Hl2 & _).
  fold s2 in Hw2, Hk2, Hl2.
  cbn [set_window windows current_key last_change] in Hw2, Hk2, Hl2.
  exists s2, w1. split.
  - unfold tick. rewrite Hsig, Hkey. fold s0. rewrite Hk0.
    rewrite bool_decide_eq_false_2 by exact Hnew.
    rewrite Hh. cbn [bind]. unfold window. rewrite Hw1. cbn [bind].
    fold s2. rewrite Hl2, Hl1. unfold Forensics.Qgeb.
    destruct (ForensicsProofs.Qltb_spec (clock_window env - clock_change env)
                WINDOW_SECONDS) as [_|H]; [reflexivity|contradiction].
  - split; [congruence|]. split; [congruence|].
    split; [|rewrite Hw2; apply lookup_insert_eq].
    unfold accumulated_samples, s2, update_session.
    cbn [set_window current_session]. rewrite Hcs.
    cbn [current_session sample_count]. rewrite Hn. reflexivity.
Qed.

Lemma cell_change_resumes_window_witness :
  session_has_samples two_cells /\
  signal back_on_b = Some cell_b /\
  get_key_and_score cell_b = (cell_b_key, 35) /\
  Some cell_b_key <> current_key two_cells /\
  clock_window back_on_b - clock_change back_on_b < WINDOW_SECONDS /\
  exists (self' : State) (w' : World),
    tick two_cells fresh_world back_on_b = Ok (self', w') /\
    current_key self' = Some cell_b_key /\
    last_change self' = clock_change back_on_b /\
    accumulated_samples self' = 1%Z /\
    windows self' !! cell_b_key =
      Some (match windows two_cells !! cell_b_key with
            | Some old => old
            | None => []
            end ++ [35]).
Proof.
  assert (Hinv : session_has_samples two_cells) by (cbn; lia).
  assert (Hnew : Some cell_b_key <> current_key two_cells) by discriminate.
  assert (Hearly : clock_window back_on_b - clock_change back_on_b
                     < WINDOW_SECONDS) by reflexivity.
  split; [exact Hinv|]. split; [reflexivity|]. split; [reflexivity|].
  split; [exact Hnew|]. split; [exact Hearly|].
  exact (cell_change_resumes_window two_cells fresh_world back_on_b cell_b
           cell_b_key 35 Hinv eq_refl eq_refl Hnew Hearly).
Defined.

Lemma colon_in_append (a b : string) :
  In ":"%char (list_ascii_of_string (a ++ ":" ++ b)).
Proof.
  induction a as [|ch a IH]; cbn; [left; reflexivity|right; exact IH].
Qed.

(** X15: the key of a signal without a score is the sentinel
    ["NETWORK_ONLY"] with score 0, and the key of a signal with a score is
    never the sentinel, so that the window of the sentinel holds only the
    zeros of signals without a score. *)
Theorem sentinel_key_only_without_score (d : SignalMetrics) :
  (score d = None /\ get_key_and_score d = ("NETWORK_ONLY"%string, 0)) \/
  (exists s : Q,
     score d = Some s /\ snd (get_key_and_score d) = s /\
     fst (get_key_and_score d) <> "NETWORK_ONLY"%string).
Proof.
  unfold get_key_and_score. destruct (score d) as [s|]; [right|left; auto].
  exists s. cbn [fst snd]. repeat split.
  intros E.
  pose proof (colon_in_append (fmt (band d)) (fmt (pci d) ++ ":" ++ fmt (enodeb d)))
    as H.
  rewrite E in H. cbn in H.
  repeat (destruct H as [H|H]; [discriminate H|]). exact H.
Qed.

End MonitorInvariants.

(** ** measurements.py: what the probe returns *)

Module ProbeResults.
Import Measurements.
Open Scope R_scope.

Ltac rlra := Lra.lra.

Section Probe.
Variable py310 : bool.

Lemma classifiable_or_raising (t : Target) :
  classifiable py310 t \/ raising py310 t.
Proof.
  unfold classifiable, Measurements.raising. destruct t as [[d|] rtts]; cbn; [|auto].
  destruct (analyze_shape py310 (dl_samples d)) as [sh|e] eqn:E; eauto.
Qed.

Lemma probe_targets_raises (targets : list Target) :
  Exists (raising py310) targets ->
  forall acc : list DownloadResult * list R * Z,
  exists e : exn, probe_targets py310 acc targets = Raise e.
Proof.
  induction targets as [|t rest IH]; intros Hex acc; [inversion Hex|].
  destruct acc as [[results mbps_vals] bytes].
  cbn [probe_targets probe_target].
  destruct (classifiable_or_raising t) as [Hc|(d & e & Hd & He)].
  - assert (Hrest : Exists (raising py310) rest).
    { inversion Hex as [? ? (d & e & Hd & He)|]; subst; [|assumption].
      exfalso. unfold classifiable in Hc. rewrite Hd in Hc.
      destruct Hc as [sh Hsh]. congruence. }
    destruct t as [[d|] rtts]; cbn in Hc |- *.
    + destruct Hc as [sh ->]. cbn [bind]. apply IH. exact Hrest.
    + apply IH. exact Hrest.
  - destruct t as [stream rtts]. cbn in Hd. subst stream.
    cbn [run_single_download]. rewrite He. cbn [bind]. eauto.
Qed.

(** What the loop leaves when it ends normally. *)
Lemma probe_targets_results (targets : list Target) :
  forall (results : list DownloadResult) (mbps_vals : list R) (bytes : Z)
         (results' : list DownloadResult) (mbps_vals' : list R) (bytes' : Z),
  probe_targets py310 (results, mbps_vals, bytes) targets =
    Ok (results', mbps_vals', bytes') ->
  exists new : list DownloadResult,
    results' = results ++ new /\
    mbps_vals' = mbps_vals ++ map mbps new /\
    bytes' = (bytes + fold_right Z.add 0 (map dl_total_bytes (successes targets)))%Z /\
    map mbps new = map dl_mbps (successes targets) /\
    Forall (fun r => In (shape r) ["uncertain"; "plateau"; "logarithmic"]%string)
      new.
Proof.
  induction targets as [|[stream rtts] rest IH];
    intros results mbps_vals bytes results' mbps_vals' bytes'.
  - cbn. intros [= <- <- <-]. exists []. cbn.
    rewrite !app_nil_r, Z.add_0_r. auto.
  - cbn [probe_targets probe_target].
    destruct stream as [d|]; cbn [run_single_download].
    + destruct (analyze_shape py310 (dl_samples d)) as [sh|e] eqn:Hsh;
        cbn [bind]; [|discriminate].
      intros H. apply IH in H as (new & -> & -> & -> & Hm & Hs).
      eexists (_ :: new). cbn [map fold_right mbps total_bytes].
      rewrite <- !app_assoc. cbn [app].
      split; [reflexivity|]. split; [reflexivity|].
      change (successes ((Some d, rtts) :: rest)) with (d :: successes rest).
      cbn [map fold_right].
      split; [lia|]. split; [f_equal; exact Hm|].
      constructor; [|exact Hs]. cbn [shape].
      revert Hsh. unfold analyze_shape, regression_branch.
      destruct (length (dl_samples d) <? 4)%nat; [intros [= <-]; cbn; auto|].
      destruct (skipn _ _); [intros [= <-]; cbn; auto|].
      destruct (Rltb _ 0.1); [intros [= <-]; cbn; auto|].
      destruct (Rltb _ 0.15); [intros [= <-]; cbn; auto|].
      destruct py310; [discriminate|intros [= <-]; cbn; auto].
    + cbn [bind]. intros H. apply IH in H as (new & -> & -> & -> & Hm & Hs).
      exists new. auto.
Qed.

(** X16: the probe returns no measurement in exactly two cases: no
    download answered, or the shape classifier raised on a download that
    did, which voids the whole probe whatever the other targets
    delivered. *)
Theorem probe_fails_iff (now : string) (ping_before : option PingStats)
    (targets : list Target) :
  run_forensic_download py310 now ping_before targets = None <->
  successes targets = [] \/ Exists (raising py310) targets.
Proof.
  assert (Hdec : Forall (classifiable py310) targets \/ Exists (raising py310) targets).
  { induction targets as [|t rest IH]; [left; constructor|].
    destruct IH as [IH|IH]; [|right; now constructor].
    destruct (classifiable_or_raising t); [left|right]; now constructor. }
  split.
  - intros Hnone. destruct Hdec as [Hc|Hr]; [left|right; exact Hr].
    destruct (successes targets) eqn:Es; [reflexivity|exfalso].
    destruct (MeasurementsProofs.forensic_download_result py310 now ping_before
                targets Hc) as (m & Hm & _); [rewrite Es; discriminate|].
    congruence.
  - intros [Hempty|Hr].
    + unfold run_forensic_download.
      destruct (probe_targets py310 ([], [], 0%Z) targets)
        as [[[results mbps_vals] bytes]|e] eqn:E; [|reflexivity].
      apply probe_targets_results in E as (new & -> & _ & _ & Hm & _).
      rewrite Hempty in Hm. apply map_eq_nil in Hm. subst new. reflexivity.
    + unfold run_forensic_download.
      destruct (probe_targets_raises targets Hr ([], [], 0%Z)) as [e ->].
      reflexivity.
Qed.

(** X17: a measurement that the probe returns is well formed: the
    consistency score lies between 0 and 1, the ramp-up ratio is 1.0 or 1.5
    and never the 0.5 of a linear climb, no shape is ["linear_climb"],
    there is one shape per download that answered, and the byte count is
    the sum over these downloads. *)
Theorem probe_measurement_well_formed (now : string)
    (ping_before : option PingStats) (targets : list Target) (m : Aggregated)
    (Hm : run_forensic_download py310 now ping_before targets = Some m) :
  0 <= consistency_score m <= 1 /\
  (ramp_up_ratio m = 1.0 \/ ramp_up_ratio m = 1.5) /\
  Forall (fun sh => In sh ["uncertain"; "plateau"; "logarithmic"]%string)
    (shapes m) /\
  length (shapes m) = length (successes targets) /\
  agg_total_bytes m =
    fold_right Z.add 0%Z (map dl_total_bytes (successes targets)) /\
  download_mbps m = round2 (mean (map dl_mbps (successes targets))).
Proof.
  revert Hm. unfold run_forensic_download.
  destruct (probe_targets py310 ([], [], 0%Z) targets)
    as [[[results mbps_vals] bytes]|e] eqn:E; [|discriminate].
  apply probe_targets_results in E as (new & -> & -> & -> & Hmb & Hsh).
  cbn [app]. unfold aggregate.
  destruct new as [|first rest]; [discriminate|].
  intros [= <-].
  cbn [consistency_score ramp_up_ratio shapes agg_total_bytes download_mbps].
  split.
  { destruct (Nat.ltb _ _); [|cbn; rlra].
    match goal with
    | |- context [py_max _ (_ - ?x * 2)] => assert (Hcv : 0 <= x); [|revert Hcv; generalize x]
    end.
    { match goal with
      | |- context [Rgtb ?a 0] =>
          destruct (MeasurementsProofs.Rgtb_spec a 0) as [Hpos|_]; [|rlra];
          apply Rmult_le_pos; [apply sqrt_pos|left; now apply Rinv_0_lt_compat]
      end. }
    intros cv Hcv. unfold py_max.
    destruct (MeasurementsProofs.Rgtb_spec (1.0 - cv * 2) 0.0) as [H|H];
      cbn in H |- *; rlra. }
  split.
  { inversion Hsh as [|? ? Hfirst _]; subst.
    destruct Hfirst as [<-|[<-|[<-|[]]]]; simpl String.eqb; cbv iota;
      first [left; reflexivity | right; reflexivity]. }
  split.
  { change (shape first :: map shape rest) with (map shape (first :: rest)).
    apply Forall_map. exact Hsh. }
  split.
  { pose proof (f_equal (@length R) Hmb) as Hl. rewrite !length_map in Hl.
    cbn [length] in Hl |- *. rewrite length_map. exact Hl. }
  split; [lia|].
  change (mbps first :: map mbps rest) with (map mbps (first :: rest)).
  rewrite Hmb. reflexivity.
Qed.

End Probe.

Lemma probe_measurement_well_formed_witness :
  exists m : Aggregated,
    run_forensic_download true "t"%string None one_target_answers = Some m /\
    0 <= consistency_score m <= 1 /\
    (ramp_up_ratio m = 1.0 \/ ramp_up_ratio m = 1.5) /\
    agg_total_bytes m = 1000000%Z.
Proof.
  destruct (MeasurementsProofs.forensic_download_result true "t"%string None
              one_target_answers (MeasurementsProofs.one_target_classifiable true))
    as (m & Hm & _); [discriminate|].
  exists m. split; [exact Hm|].
  destruct (probe_measurement_well_formed true "t"%string None
              one_target_answers m Hm) as (H1 & H2 & _ & _ & H5 & _).
  split; [exact H1|]. split; [exact H2|]. exact H5.
Defined.

(** On a current interpreter the rising download of the second target
    voids the probe, although the first target answered. *)
Lemma rising_download_voids_probe :
  run_forensic_download true "t"%string None second_target_rises = None.
Proof.
  assert (Hr : Exists (raising true) second_target_rises).
  { apply Exists_cons_tl, Exists_cons_hd.
    exists rising_download, NameError. split; [reflexivity|].
    apply (MeasurementsProofs.rising_is_regression_case true). }
  unfold run_forensic_download.
  destruct (probe_targets_raises true second_target_rises Hr ([], [], 0%Z))
    as [e ->].
  reflexivity.
Qed.

End ProbeResults.

(** ** main.py: rows the history analysis cannot use *)

Module HistoryRows.
Import HistoryAnalyzer.
Open Scope R_scope.

Section Parsers.
Variable fromisoformat : string -> option DateTime.
Variable float : string -> option R.
Variable now_dt : DateTime.

Lemma scan_rows_app (l1 l2 : list Row) :
  forall acc : list R * Z * R,
  scan_rows fromisoformat float now_dt acc (l1 ++ l2) =
    bind (scan_rows fromisoformat float now_dt acc l1)
      (fun acc' => scan_rows fromisoformat float now_dt acc' l2).
Proof.
  induction l1 as [|r l1 IH]; intros acc; [reflexivity|].
  cbn [app scan_rows].
  destruct (scan_row fromisoformat float now_dt acc r) as [acc'|e];
    cbn [bind]; [apply IH|reflexivity].
Qed.

(** X18: a row without a usable timestamp is skipped on its own: when the
    timestamp is missing, empty or does not parse, the analysis of the
    store is the same with the row as without it, wherever the row stands
    and whatever its other cells hold. *)
Theorem undated_row_is_skipped (before after : list Row) (row : Row)
    (Hbad : match truthy (r_timestamp row) with
            | Some ts_str => fromisoformat ts_str = None
            | None => True
            end) :
  get_history_analysis fromisoformat float (Rows (before ++ row :: after)) now_dt =
  get_history_analysis fromisoformat float (Rows (before ++ after)) now_dt.
Proof.
  assert (Hrow : forall cur cutoff,
            _process_row fromisoformat float row now_dt cur cutoff =
              Ok {| bytes := 0; score := None; policy := false |}).
  { intros cur cutoff. unfold _process_row.
    destruct (truthy (r_timestamp row)) as [ts_str|]; [|reflexivity].
    now rewrite Hbad. }
  unfold get_history_analysis. rewrite !scan_rows_app.
  destruct (scan_rows fromisoformat float now_dt ([], 0%Z, 0) before)
    as [[[hs pc] mb]|e]; cbn [bind]; [|reflexivity].
  cbn [scan_rows scan_row]. rewrite Hrow. cbn [bind score policy bytes].
  rewrite Rplus_0_r. reflexivity.
Qed.

(** X19: a row on which [_process_row] raises voids the whole analysis:
    the context is the neutral one whatever the other rows hold.  The only
    such rows are those whose verdict cell is [None], as in a row cut
    short, and the exception is the [AttributeError] of [None.startswith]. *)
Theorem raising_row_voids_analysis (rows : list Row) (row : Row) (e : exn)
    (Hin : In row rows)
    (Hraise : _process_row fromisoformat float row now_dt (hour now_dt)
                (posix now_dt - seven_days)%Z = Raise e) :
  get_history_analysis fromisoformat float (Rows rows) now_dt = neutral /\
  e = AttributeError /\ r_verdict row = NoneValue.
Proof.
  split.
  - apply in_split in Hin as (l1 & l2 & ->).
    unfold get_history_analysis. rewrite scan_rows_app.
    destruct (scan_rows fromisoformat float now_dt ([], 0%Z, 0) l1)
      as [[[hs pc] mb]|e']; cbn [bind]; [|reflexivity].
    cbn [scan_rows scan_row]. rewrite Hraise. reflexivity.
  - revert Hraise. unfold _process_row.
    destruct (truthy (r_timestamp row)); [|discriminate].
    destruct (fromisoformat s); [|discriminate].
    destruct (if (days now_dt d <=? 30)%Z then _ else _); [|discriminate].
    destruct (_ <? _)%Z; [|discriminate].
    destruct (if (hour d =? hour now_dt)%Z then _ else _); [|discriminate].
    destruct (r_verdict row); [discriminate|intros [= <-]; auto|discriminate].
Qed.

End Parsers.

Lemma undated_row_is_skipped_witness :
  match truthy (r_timestamp undated_row) with
  | Some ts_str => example_fromisoformat ts_str = None
  | None => True
  end /\
  get_history_analysis example_fromisoformat example_float
    (Rows (five_rows ++ undated_row :: [example_row])) example_now =
  get_history_analysis example_fromisoformat example_float
    (Rows (five_rows ++ [example_row])) example_now.
Proof.
  split; [exact I|].
  exact (undated_row_is_skipped example_fromisoformat example_float
           example_now five_rows [example_row] undated_row I).
Defined.

Lemma raising_row_voids_analysis_witness :
  In short_row (six_rows ++ [short_row]) /\
  _process_row example_fromisoformat example_float short_row example_now
    (hour example_now) (posix example_now - seven_days)%Z
    = Raise AttributeError /\
  get_history_analysis example_fromisoformat example_float
    (Rows (six_rows ++ [short_row])) example_now = neutral.
Proof.
  assert (Hin : In short_row (six_rows ++ [short_row]))
    by (apply in_or_app; right; left; reflexivity).
  assert (Hraise : _process_row example_fromisoformat example_float short_row
                     example_now (hour example_now)
                     (posix example_now - seven_days)%Z = Raise AttributeError)
    by (vm_compute; reflexivity).
  split; [exact Hin|]. split; [exact Hraise|].
  exact (proj1 (raising_row_voids_analysis example_fromisoformat example_float
                  example_now (six_rows ++ [short_row]) short_row
                  AttributeError Hin Hraise)).
Defined.

End HistoryRows.

(** ** providers.py *)

Module ProvidersProofs.
Import Providers.
Open Scope Q_scope.

Ltac qlra := Lqa.lra.

Lemma normalize_metric_value (v min_v max_v : Q) :
  min_v < max_v ->
  exists x : Q,
    normalize_metric (Some v) min_v max_v = Ok x /\
    0 <= x /\ x <= 100 /\
    (x == 100 <-> max_v <= v) /\ (x == 0 <-> v <= min_v) /\
    (min_v <= v -> v <= max_v -> x == (v - min_v) / (max_v - min_v) * 100).
Proof.
  intros Hlt. unfold normalize_metric, Monitor.py_div.
  destruct (Qeq_bool (max_v - min_v) 0) eqn:E;
    [apply Qeq_bool_iff in E; exfalso; qlra|]. clear E.
  cbn [bind]. eexists. split; [reflexivity|].
  set (d := max_v - min_v) in *.
  set (r := (v - min_v) / d).
  assert (Hd : 0 < d) by (unfold d; qlra).
  assert (Hrd : r * d == v - min_v) by (unfold r; field; qlra).
  assert (Hmax : max_v == min_v + d) by (unfold d; qlra).
  clearbody r d.
  unfold Forensics.py_max, Forensics.py_min.
  destruct (ForensicsProofs.Qltb_spec (r * 100) 100) as [H|H];
    [destruct (ForensicsProofs.Qgtb_spec (r * 100) 0) as [G|G]
    |destruct (ForensicsProofs.Qgtb_spec 100 0) as [G|G]];
    try (exfalso; qlra);
    (split; [qlra|]); (split; [qlra|]);
    (split; [split; intros K; try reflexivity; try (exfalso; Lqa.nra); Lqa.nra|]);
    (split; [split; intros K; try reflexivity; try (exfalso; Lqa.nra); Lqa.nra|]);
    intros K1 K2; try reflexivity; Lqa.nra.
Qed.

Lemma normalize_metric_mono (v v' min_v max_v x x' : Q) :
  min_v < max_v -> v <= v' ->
  normalize_metric (Some v) min_v max_v = Ok x ->
  normalize_metric (Some v') min_v max_v = Ok x' ->
  x <= x'.
Proof.
  intros Hlt Hv. unfold normalize_metric, Monitor.py_div.
  destruct (Qeq_bool (max_v - min_v) 0) eqn:E;
    [apply Qeq_bool_iff in E; exfalso; qlra|]. clear E.
  cbn [bind]. intros [= <-] [= <-].
  set (d := max_v - min_v) in *.
  assert (Hd : 0 < d) by (unfold d; qlra).
  assert (Hrd : (v - min_v) / d * d == v - min_v) by (field; qlra).
  assert (Hrd' : (v' - min_v) / d * d == v' - min_v) by (field; qlra).
  revert Hrd Hrd'. generalize ((v - min_v) / d), ((v' - min_v) / d).
  intros r r' Hrd Hrd'.
  assert (Hr : r <= r') by Lqa.nra.
  unfold Forensics.py_max, Forensics.py_min.
  destruct (ForensicsProofs.Qltb_spec (r * 100) 100);
    destruct (ForensicsProofs.Qltb_spec (r' * 100) 100);
    repeat match goal with
    | |- context [Forensics.Qgtb ?a ?b] =>
        destruct (ForensicsProofs.Qgtb_spec a b)
    end; qlra.
Qed.

(** X20: the composite score is unknown exactly when one of SINR, RSRQ and
    RSRP is missing, and a known score lies between 0 and 100; the
    computation never raises. *)
Theorem rf_score_range (sinr rsrq rsrp bw : option Q) :
  exists score : option Q,
    calculate_rf_score sinr rsrq rsrp bw = Ok score /\
    (score = None <-> sinr = None \/ rsrq = None \/ rsrp = None) /\
    match score with
    | Some s => 0 <= s /\ s <= 100
    | None => True
    end.
Proof.
  unfold calculate_rf_score.
  destruct sinr as [a|], rsrq as [b|], rsrp as [c|];
    try (exists None; split; [reflexivity|]; split; [tauto|exact I]).
  destruct (normalize_metric_value a (-5) 25) as (x & -> & Hx0 & Hx1 & _);
    [reflexivity|].
  destruct (normalize_metric_value b (-20) (-10)) as (y & -> & Hy0 & Hy1 & _);
    [reflexivity|].
  destruct (normalize_metric_value c (-120) (-80)) as (z & -> & Hz0 & Hz1 & _);
    [reflexivity|].
  cbn [bind]. eexists. split; [reflexivity|].
  split; [split; [discriminate|intros [H|[H|H]]; discriminate]|].
  split; qlra.
Qed.

(** X21: the score is 100 exactly when SINR is at least 25, RSRQ at least
    -10 and RSRP at least -80, and 0 exactly when SINR is at most -5, RSRQ
    at most -20 and RSRP at most -120; in between it is the weighted sum
    0.45, 0.35, 0.20 of the three positions within these ranges. *)
Theorem rf_score_saturation (sinr rsrq rsrp : Q) (bw : option Q) :
  exists s : Q,
    calculate_rf_score (Some sinr) (Some rsrq) (Some rsrp) bw = Ok (Some s) /\
    (s == 100 <-> 25 <= sinr /\ -10 <= rsrq /\ -80 <= rsrp) /\
    (s == 0 <-> sinr <= -5 /\ rsrq <= -20 /\ rsrp <= -120) /\
    (-5 <= sinr /\ sinr <= 25 /\ -20 <= rsrq /\ rsrq <= -10 /\
     -120 <= rsrp /\ rsrp <= -80 ->
     s == (sinr + 5) / 30 * 45 + (rsrq + 20) / 10 * 35 + (rsrp + 120) / 40 * 20).
Proof.
  unfold calculate_rf_score.
  destruct (normalize_metric_value sinr (-5) 25)
    as (x & -> & Hx0 & Hx1 & Hx100 & Hxz & Hxm); [reflexivity|].
  destruct (normalize_metric_value rsrq (-20) (-10))
    as (y & -> & Hy0 & Hy1 & Hy100 & Hyz & Hym); [reflexivity|].
  destruct (normalize_metric_value rsrp (-120) (-80))
    as (z & -> & Hz0 & Hz1 & Hz100 & Hzz & Hzm); [reflexivity|].
  cbn [bind]. eexists. split; [reflexivity|].
  split; [|split].
  - split.
    + intros H. assert (x == 100 /\ y == 100 /\ z == 100) as (Ex & Ey & Ez)
        by (repeat split; qlra).
      apply Hx100 in Ex. apply Hy100 in Ey. apply Hz100 in Ez. auto.
    + intros (Ha & Hb & Hc).
      apply Hx100 in Ha. apply Hy100 in Hb. apply Hz100 in Hc. qlra.
  - split.
    + intros H. assert (x == 0 /\ y == 0 /\ z == 0) as (Ex & Ey & Ez)
        by (repeat split; qlra).
      apply Hxz in Ex. apply Hyz in Ey. apply Hzz in Ez. auto.
    + intros (Ha & Hb & Hc).
      apply Hxz in Ha. apply Hyz in Hb. apply Hzz in Hc. qlra.
  - intros (A1 & A2 & B1 & B2 & C1 & C2).
    rewrite (Hxm A1 A2), (Hym B1 B2), (Hzm C1 C2). field.
Qed.

(** X22: a better signal never lowers the score: the score is monotone in
    each of SINR, RSRQ and RSRP. *)
Theorem rf_score_monotone (sinr sinr' rsrq rsrq' rsrp rsrp' : Q)
    (bw bw' : option Q)
    (Hsinr : sinr <= sinr') (Hrsrq : rsrq <= rsrq') (Hrsrp : rsrp <= rsrp') :
  exists s s' : Q,
    calculate_rf_score (Some sinr) (Some rsrq) (Some rsrp) bw = Ok (Some s) /\
    calculate_rf_score (Some sinr') (Some rsrq') (Some rsrp') bw' = Ok (Some s') /\
    s <= s'.
Proof.
  unfold calculate_rf_score.
  destruct (normalize_metric_value sinr (-5) 25) as (x & Ex & _); [reflexivity|].
  destruct (normalize_metric_value rsrq (-20) (-10)) as (y & Ey & _); [reflexivity|].
  destruct (normalize_metric_value rsrp (-120) (-80)) as (z & Ez & _); [reflexivity|].
  destruct (normalize_metric_value sinr' (-5) 25) as (x' & Ex' & _); [reflexivity|].
  destruct (normalize_metric_value rsrq' (-20) (-10)) as (y' & Ey' & _); [reflexivity|].
  destruct (normalize_metric_value rsrp' (-120) (-80)) as (z' & Ez' & _); [reflexivity|].
  pose proof (normalize_metric_mono sinr sinr' (-5) 25 x x' eq_refl Hsinr Ex Ex').
  pose proof (normalize_metric_mono rsrq rsrq' (-20) (-10) y y' eq_refl Hrsrq Ey Ey').
  pose proof (normalize_metric_mono rsrp rsrp' (-120) (-80) z z' eq_refl Hrsrp Ez Ez').
  rewrite Ex, Ey, Ez, Ex', Ey', Ez'. cbn [bind].
  do 2 eexists. split; [reflexivity|]. split; [reflexivity|]. qlra.
Qed.

Lemma rf_score_monotone_witness :
  10 <= 12 /\ -15 <= -15 /\ -100 <= -90 /\
  exists s s' : Q,
    calculate_rf_score (Some 10) (Some (-15)) (Some (-100)) None = Ok (Some s) /\
    calculate_rf_score (Some 12) (Some (-15)) (Some (-90)) None = Ok (Some s') /\
    s <= s'.
Proof.
  assert (H1 : 10 <= 12) by (vm_compute; discriminate).
  assert (H2 : -15 <= -15) by (vm_compute; discriminate).
  assert (H3 : -100 <= -90) by (vm_compute; discriminate).
  split; [exact H1|]. split; [exact H2|]. split; [exact H3|].
  exact (rf_score_monotone 10 12 (-15) (-15) (-100) (-90) None None H1 H2 H3).
Defined.


End ProvidersProofs.

(** ** main.py: the status surface *)

Module ApiProofs.
Import Api.
Open Scope Q_scope.

Ltac qlra := Lqa.lra.

(** A slice between two indices within the list. *)
Lemma py_slice_window {A : Type} (l : list A) (a len : nat) :
  py_slice l (Z.of_nat a) (Z.of_nat a + Z.of_nat len) =
    firstn len (skipn a l).
Proof.
  unfold py_slice.
  destruct (Z.ltb_spec (Z.of_nat a) 0) as [H|_]; [lia|].
  destruct (Z.ltb_spec (Z.of_nat a + Z.of_nat len) 0) as [H|_]; [lia|].
  destruct (Nat.le_gt_cases (length l) a) as [Hout|Hin].
  - rewrite Z.min_r by lia. rewrite !skipn_all2 by lia.
    now rewrite !firstn_nil.
  - rewrite (Z.min_l (Z.of_nat a)) by lia. rewrite Nat2Z.id.
    destruct (Nat.le_gt_cases (length l) (a + len)) as [Hlong|Hshort].
    + rewrite Z.min_r by lia.
      rewrite !firstn_all2; [reflexivity| |]; rewrite length_skipn; lia.
    + rewrite Z.min_l by lia. f_equal. lia.
Qed.


(** X24: a page of the history.  For a page number and a limit that are
    not negative, the answer holds the rows of that page, newest first: the
    [limit] rows after the first [page * limit] of the reversed store, with
    [limit] cut to 1000; so it never holds more than 1000 rows, and [total]
    is the number of rows of the store. *)
Theorem history_page_is_window {A : Type} (int : string -> option Z)
    (rows : list A) (page_value limit_value : option string) (pg l : Z)
    (Hpage : query_int int page_value 0 = Ok pg)
    (Hlimit : query_int int limit_value 50 = Ok l)
    (Hpg : (0 <= pg)%Z) (Hl : (0 <= l)%Z) :
  exists p : Page A,
    history_page int rows page_value limit_value = Ok p /\
    page p = pg /\ limit p = Z.min l 1000 /\ total p = length rows /\
    data p = firstn (Z.to_nat (limit p))
               (skipn (Z.to_nat (pg * limit p)) (rev rows)) /\
    (length (data p) <= 1000)%nat.
Proof.
  unfold history_page. rewrite Hpage, Hlimit. cbn [bind].
  eexists. split; [reflexivity|]. cbn [page limit total data].
  unfold MAX_PAGE_LIMIT. set (lim := Z.min l 1000).
  assert (Hlim : (0 <= lim <= 1000)%Z) by (unfold lim; lia).
  split; [reflexivity|]. split; [reflexivity|].
  split; [apply length_rev|].
  assert (E : history_data rows pg lim =
              firstn (Z.to_nat lim) (skipn (Z.to_nat (pg * lim)) (rev rows))).
  { unfold history_data.
    rewrite <- (py_slice_window (rev rows) (Z.to_nat (pg * lim)) (Z.to_nat lim)).
    rewrite !Z2Nat.id by lia. reflexivity. }
  split; [exact E|]. rewrite E, length_firstn. lia.
Qed.

Lemma history_page_is_window_witness :
  query_int no_int None 0 = Ok 0%Z /\ query_int no_int None 50 = Ok 50%Z /\
  (0 <= 0)%Z /\ (0 <= 50)%Z /\
  exists p : Page string,
    history_page no_int letters None None = Ok p /\
    page p = 0%Z /\ limit p = Z.min 50 1000 /\ total p = length letters /\
    data p = firstn (Z.to_nat (limit p))
               (skipn (Z.to_nat (0 * limit p)) (rev letters)) /\
    (length (data p) <= 1000)%nat.
Proof.
  assert (H0 : (0 <= 0)%Z) by lia. assert (H50 : (0 <= 50)%Z) by lia.
  split; [reflexivity|]. split; [reflexivity|].
  split; [exact H0|]. split; [exact H50|].
  exact (history_page_is_window no_int letters None None 0 50 eq_refl eq_refl
           H0 H50).
Defined.

Lemma firstn_add {A : Type} (a b : nat) (l : list A) :
  firstn (a + b) l = firstn a l ++ firstn b (skipn a l).
Proof.
  revert l. induction a as [|a IH]; intros [|x l]; cbn;
    [reflexivity|reflexivity|now rewrite firstn_nil|f_equal; apply IH].
Qed.

(** X25: the pages tile the store.  For a positive limit, the pages 0 to
    [n - 1] put one after the other are the first [n * limit] rows of the
    reversed store: no row is repeated or left out between two pages. *)
Theorem history_pages_tile {A : Type} (rows : list A) (lim : Z) (n : nat)
    (Hlim : (0 < lim)%Z) :
  concat (map (fun k : nat => history_data rows (Z.of_nat k) lim) (seq 0 n)) =
    firstn (n * Z.to_nat lim) (rev rows).
Proof.
  assert (Hpage : forall k : nat,
            history_data rows (Z.of_nat k) lim =
              firstn (Z.to_nat lim) (skipn (k * Z.to_nat lim) (rev rows))).
  { intros k. unfold history_data.
    rewrite <- (py_slice_window (rev rows) (k * Z.to_nat lim) (Z.to_nat lim)).
    rewrite Nat2Z.inj_mul, !Z2Nat.id by lia. reflexivity. }
  induction n as [|n IH].
  - reflexivity.
  - rewrite seq_S, map_app, concat_app, IH. cbn [map concat Nat.add].
    rewrite app_nil_r, Hpage.
    change (S n * Z.to_nat lim)%nat with (Z.to_nat lim + n * Z.to_nat lim)%nat.
    rewrite (Nat.add_comm (Z.to_nat lim)). symmetry. apply firstn_add.
Qed.

Lemma history_pages_tile_witness :
  (0 < 2)%Z /\
  concat (map (fun k : nat => history_data letters (Z.of_nat k) 2) (seq 0 3)) =
    rev letters.
Proof.
  assert (H : (0 < 2)%Z) by lia. split; [exact H|].
  exact (history_pages_tile letters 2 3 H).
Defined.

(** X26: a negative limit is not cut to 1000.  With a limit [l < 0] the
    first page is the whole reversed store but its last [-l] rows, however
    many rows that is: the cap of 1000 bounds the limit from above only. *)
Theorem negative_limit_skips_cap {A : Type} (int : string -> option Z)
    (rows : list A) (limit_value : option string) (l : Z)
    (Hlimit : query_int int limit_value 50 = Ok l) (Hneg : (l < 0)%Z) :
  exists p : Page A,
    history_page int rows None limit_value = Ok p /\
    limit p = l /\
    data p = firstn (length rows - Z.to_nat (- l)) (rev rows) /\
    length (data p) = (length rows - Z.to_nat (- l))%nat.
Proof.
  unfold history_page. rewrite Hlimit. cbn [query_int bind].
  eexists. split; [reflexivity|]. cbn [limit data].
  unfold MAX_PAGE_LIMIT. rewrite Z.min_l by lia. split; [reflexivity|].
  assert (E : history_data rows 0 l =
              firstn (length rows - Z.to_nat (- l)) (rev rows)).
  { unfold history_data, py_slice. rewrite length_rev.
    rewrite Z.mul_0_l, Z.add_0_l.
    change (0 <? 0)%Z with false. cbv iota.
    destruct (Z.ltb_spec l 0) as [_|H]; [|lia].
    rewrite (Z.min_l 0) by lia. cbn [Z.to_nat skipn]. f_equal. lia. }
  split; [exact E|]. rewrite E, length_firstn, length_rev. lia.
Qed.


Lemma negative_limit_skips_cap_witness :
  query_int minus_one_int (Some "-1"%string) 50 = Ok (-1)%Z /\ (-1 < 0)%Z /\
  exists p : Page string,
    history_page minus_one_int letters None (Some "-1"%string) = Ok p /\
    limit p = (-1)%Z /\
    data p = firstn (length letters - Z.to_nat (- -1)) (rev letters) /\
    length (data p) = (length letters - Z.to_nat (- -1))%nat.
Proof.
  assert (H : (-1 < 0)%Z) by lia.
  split; [reflexivity|]. split; [exact H|].
  exact (negative_limit_skips_cap minus_one_int letters (Some "-1"%string)
           (-1) eq_refl H).
Defined.

(** *** The hourly statistics *)

Lemma fresh_buckets_lookup (h : Z) :
  (0 <= h < 24)%Z -> fresh_buckets !! h = Some 100.
Proof.
  intros Hh. rewrite <- (Z2Nat.id h) by lia.
  assert (Hk : (Z.to_nat h < 24)%nat) by lia.
  revert Hk. generalize (Z.to_nat h). intros k Hk.
  do 24 (destruct k as [|k]; [vm_compute; reflexivity|]). lia.
Qed.

Section Parsers.
Variable fromisoformat : string -> option HistoryAnalyzer.DateTime.
Variable float : string -> option Q.
Variable now_dt : HistoryAnalyzer.DateTime.
Hypothesis hour_of_day :
  forall (s : string) (dt : HistoryAnalyzer.DateTime),
  fromisoformat s = Some dt -> (0 <= HistoryAnalyzer.hour dt < 24)%Z.

Lemma process_stat_row_ordered (row : StatRow) (wb mb : gmap Z Q) :
  ordered_buckets wb mb ->
  exists wb' mb' : gmap Z Q,
    _process_stat_row fromisoformat float row now_dt wb mb = Ok (wb', mb') /\
    ordered_buckets wb' mb'.
Proof.
  intros Hord. unfold _process_stat_row.
  destruct (HistoryAnalyzer.truthy (st_timestamp row)) as [ts|]; [|eauto].
  destruct (match HistoryAnalyzer.truthy (st_avg_score row) with
            | Some s => Some s
            | None => HistoryAnalyzer.truthy (st_score row)
            end) as [sc|]; [|eauto].
  destruct (fromisoformat ts) as [dt|] eqn:Hdt; [|eauto].
  destruct (float sc) as [score|]; [|eauto].
  pose proof (hour_of_day ts dt Hdt) as Hh.
  destruct (Hord _ Hh) as (w & m & Hw & Hm & Hmw & Hw100).
  set (h := HistoryAnalyzer.hour dt) in *.
  set (days := HistoryAnalyzer.days now_dt dt).
  unfold lower_bucket. rewrite Hw, Hm.
  assert (Hins : forall (b : gmap Z Q) (v : Q) (k : Z),
            (<[h := v]> b) !! k = if decide (h = k) then Some v else b !! k).
  { intros b v k. destruct (decide (h = k)) as [->|Hne];
      [apply lookup_insert_eq|now apply lookup_insert_ne]. }
  destruct (Z.leb_spec days 7) as [H7|H7];
    destruct (Z.leb_spec days 30) as [H30|H30]; try lia; cbn [bind];
    repeat match goal with
    | |- context [Forensics.Qltb ?a ?b] =>
        destruct (ForensicsProofs.Qltb_spec a b)
    end;
    do 2 eexists; (split; [reflexivity|]);
    intros k Hk; destruct (Hord k Hk) as (w' & m' & Hw' & Hm' & Hmw' & Hw100');
    rewrite ?Hins; destruct (decide (h = k)) as [<-|Hne];
    try (rewrite Hw in Hw'; injection Hw' as <-);
    try (rewrite Hm in Hm'; injection Hm' as <-);
    do 2 eexists; (split; [eassumption || reflexivity|]);
    (split; [eassumption || reflexivity|]); split; qlra.
Qed.

Lemma stat_rows_ordered (rows : list StatRow) :
  forall wb mb : gmap Z Q,
  ordered_buckets wb mb ->
  exists wb' mb' : gmap Z Q,
    stat_rows fromisoformat float now_dt wb mb rows = Ok (wb', mb') /\
    ordered_buckets wb' mb'.
Proof.
  induction rows as [|r rest IH]; intros wb mb Hord; [cbn; eauto|].
  cbn [stat_rows].
  destruct (process_stat_row_ordered r wb mb Hord) as (wb1 & mb1 & -> & Hord1).
  cbn [bind fst snd]. apply IH. exact Hord1.
Qed.

(** X27: the hourly statistics never fail on a row and respect the order
    of the two periods.  Whatever the rows hold, the answer has an entry
    for each of the 24 hours in both tables; a reported value is below
    99.9; and where the weekly table reports a lowest score, the monthly
    one reports one too, which is not above it. *)
Theorem stats_monthly_below_weekly (rows : list StatRow) (h : Z)
    (Hh : (0 <= h < 24)%Z) :
  let answer := handle_stats fromisoformat float (LogRows rows) now_dt in
  exists ow om : option Q,
    weekly answer !! h = Some ow /\ monthly answer !! h = Some om /\
    match ow with
    | Some v => v < 99.9 /\ exists v' : Q, om = Some v' /\ v' <= v
    | None => True
    end /\
    match om with
    | Some v' => v' < 99.9
    | None => True
    end.
Proof.
  cbv zeta. unfold handle_stats.
  destruct (stat_rows_ordered rows fresh_buckets fresh_buckets)
    as (wb & mb & -> & Hord).
  { intros k Hk. exists 100, 100. rewrite fresh_buckets_lookup by exact Hk.
    repeat split; qlra. }
  cbn [weekly monthly]. unfold reported. rewrite !lookup_fmap.
  destruct (Hord h Hh) as (w & m & -> & -> & Hmw & _). cbn.
  do 2 eexists. split; [reflexivity|]. split; [reflexivity|].
  destruct (ForensicsProofs.Qltb_spec w 99.9) as [Hw|Hw];
    destruct (ForensicsProofs.Qltb_spec m 99.9) as [Hm|Hm];
    repeat split; try assumption; try (exfalso; qlra).
  exists m. split; [reflexivity|exact Hmw].
Qed.

End Parsers.

Lemma example_hour_of_day (s : string) (dt : HistoryAnalyzer.DateTime) :
  HistoryAnalyzer.example_fromisoformat s = Some dt ->
  (0 <= HistoryAnalyzer.hour dt < 24)%Z.
Proof.
  unfold HistoryAnalyzer.example_fromisoformat.
  destruct (String.eqb s "an hour ago"); [|discriminate].
  intros [= <-]. cbn. lia.
Qed.

Lemma stats_monthly_below_weekly_witness :
  (0 <= 14 < 24)%Z /\
  let answer := handle_stats HistoryAnalyzer.example_fromisoformat example_score
                  (LogRows [stat_row]) HistoryAnalyzer.example_now in
  exists ow om : option Q,
    weekly answer !! 14%Z = Some ow /\ monthly answer !! 14%Z = Some om /\
    match ow with
    | Some v => v < 99.9 /\ exists v' : Q, om = Some v' /\ v' <= v
    | None => True
    end /\
    match om with
    | Some v' => v' < 99.9
    | None => True
    end.
Proof.
  assert (H : (0 <= 14 < 24)%Z) by lia. split; [exact H|].
  exact (stats_monthly_below_weekly HistoryAnalyzer.example_fromisoformat
           example_score HistoryAnalyzer.example_now example_hour_of_day
           [stat_row] 14 H).
Defined.

End ApiProofs.

(** ** measurements.py: the sampling loop *)

Module SamplingProofs.
Import Measurements.
Open Scope R_scope.

Ltac rlra := Lra.lra.

Lemma total_app (l1 l2 : list R) : total (l1 ++ l2) = total l1 + total l2.
Proof.
  unfold total. induction l1 as [|x l1 IH]; cbn; [rlra|].
  rewrite IH. rlra.
Qed.

Lemma total_nonneg (l : list (R * R)) :
  Forall (fun s : R * R => 0 <= snd s) l -> 0 <= total (map snd l).
Proof.
  unfold total. induction 1 as [|s l Hs _ IH]; cbn; rlra.
Qed.

Lemma spaced_snoc (times : list R) (t : R) :
  spaced times ->
  match rev times with
  | last :: _ => last + 0.5 <= t
  | [] => True
  end ->
  spaced (times ++ [t]).
Proof.
  induction times as [|a rest IH]; intros Hs Hlast; [cbn; auto|].
  cbn [app spaced]. destruct Hs as [Ha Hrest]. split.
  - destruct rest as [|b rest']; cbn [app]; [exact Hlast|exact Ha].
  - apply IH; [exact Hrest|].
    destruct rest as [|b rest']; [exact I|].
    cbn [rev] in Hlast |- *.
    destruct (rev rest' ++ [b]) as [|l ls] eqn:E;
      [destruct (rev rest'); discriminate|].
    exact Hlast.
Qed.

Lemma read_loop_invariant (start_time duration : R) (reads : list (R * Read)) :
  forall st st' : Sampling,
  sampling_invariant start_time duration st ->
  read_loop start_time duration reads st = Some st' ->
  sampling_invariant start_time duration st' /\
  exists more : list (R * R), sm_samples st' = sm_samples st ++ more.
Proof.
  induction reads as [|[now r] rest IH]; intros st st' Hinv.
  - cbn. intros [= <-]. split; [exact Hinv|]. exists []. now rewrite app_nil_r.
  - cbn [read_loop].
    destruct (MeasurementsProofs.Rgtb_spec (now - start_time) duration)
      as [Hlate|Hin].
    { intros [= <-]. split; [exact Hinv|]. exists []. now rewrite app_nil_r. }
    destruct r as [size|]; [|discriminate].
    destruct (Z.leb_spec size 0) as [Hend|Hsize].
    { intros [= <-]. split; [exact Hinv|]. exists []. now rewrite app_nil_r. }
    destruct Hinv as (Hbi & Htot & Hall & Hsp & Hlast).
    destruct (MeasurementsProofs.Rltb_spec (now - sm_last_sample_time st) 0.5)
      as [Hsoon|Hdue]; intros Hloop; apply IH in Hloop.
    + destruct Hloop as [Hinv' [more Hmore]]. split; [exact Hinv'|].
      exists more. exact Hmore.
    + unfold sampling_invariant. cbn [sm_total_bytes sm_bytes_in_interval
        sm_samples sm_last_sample_time].
      split; [lia|]. split; [rewrite !plus_IZR, Htot; rlra|].
      split; [exact Hall|]. split; [exact Hsp|exact Hlast].
    + destruct Hloop as [Hinv' [more Hmore]]. split; [exact Hinv'|].
      cbn [sm_samples] in Hmore. rewrite <- app_assoc in Hmore. eauto.
    + unfold sampling_invariant. cbn [sm_total_bytes sm_bytes_in_interval
        sm_samples sm_last_sample_time].
      assert (Hrate : IZR ((sm_bytes_in_interval st + size) * 8) / (0.5 * 1000000)
                      = IZR (sm_bytes_in_interval st + size) / 62500).
      { rewrite mult_IZR. replace (0.5 * 1000000) with 500000 by rlra.
        unfold Rdiv. rlra. }
      assert (Hpos : 0 <= IZR (sm_bytes_in_interval st + size))
        by (apply IZR_le; lia).
      split; [lia|].
      split.
      { rewrite map_app, total_app, Hrate. cbn [map snd].
        unfold total at 2. cbn [fold_right].
        rewrite !plus_IZR, Htot. unfold Rdiv. rlra. }
      split.
      { apply Forall_app. split; [exact Hall|]. constructor; [|constructor].
        cbn [fst snd]. split; [rlra|]. rewrite Hrate.
        apply Rmult_le_pos; [exact Hpos|]. left. apply Rinv_0_lt_compat. rlra. }
      split.
      { rewrite map_app. cbn [map fst]. apply spaced_snoc; [exact Hsp|].
        rewrite <- map_rev. destruct (rev (sm_samples st)) as [|l ls];
          [exact I|]. cbn [map]. rewrite Hlast. rlra. }
      rewrite rev_app_distr. cbn [rev app fst]. reflexivity.
Qed.

Lemma sampling_start_invariant (start_time duration : R) :
  sampling_invariant start_time duration sampling_start.
Proof.
  unfold sampling_invariant, sampling_start, total. cbn.
  repeat split; [lia|rlra|constructor].
Qed.

(** X28: the samples of a download account for its bytes.  Each sample is
    the rate of the bytes read since the sample before, taken over half a
    second, so the samples together stand for no more bytes than were
    transferred (62500 bytes per Mbps of a sample); no rate is negative,
    no sample is later than the duration, and each sample is at least half
    a second after the one before. *)
Theorem samples_account_for_bytes (connection : option (list (R * Read)))
    (start_time duration end_time : R) (d : Download)
    (Hd : download connection start_time duration end_time = Some d) :
  62500 * total (map snd (dl_samples d)) <= IZR (dl_total_bytes d) /\
  Forall (fun s : R * R => fst s <= duration /\ 0 <= snd s) (dl_samples d) /\
  spaced (map fst (dl_samples d)) /\
  0 <= dl_mbps d /\ dl_mbps d <= IZR (dl_total_bytes d) * 8 / 100000.
Proof.
  revert Hd. unfold download.
  destruct connection as [reads|]; [|discriminate].
  destruct (read_loop start_time duration reads sampling_start) as [st|] eqn:E;
    [|discriminate].
  apply read_loop_invariant in E as [(Hbi & Htot & Hall & Hsp & _) _];
    [|apply sampling_start_invariant].
  intros [= <-]. cbn [dl_samples dl_total_bytes dl_mbps].
  assert (Hsum : 0 <= total (map snd (sm_samples st))).
  { apply total_nonneg. eapply Forall_impl; [exact Hall|].
    intros s [_ Hs]. exact Hs. }
  assert (Hbi' : 0 <= IZR (sm_bytes_in_interval st)) by (apply IZR_le; lia).
  split; [rlra|]. split; [exact Hall|]. split; [exact Hsp|].
  assert (Htotal : 0 <= IZR (sm_total_bytes st)) by rlra.
  rewrite mult_IZR.
  set (t := if Rltb (end_time - start_time) 0.1 then 0.1 else end_time - start_time).
  assert (Ht : 0.1 <= t).
  { unfold t. destruct (MeasurementsProofs.Rltb_spec (end_time - start_time) 0.1);
      rlra. }
  clearbody t.
  assert (Hinv : 0 < / (t * 1000000) <= / 100000).
  { split; [apply Rinv_0_lt_compat; rlra|].
    apply Rinv_le_contravar; rlra. }
  unfold Rdiv. split.
  - apply Rmult_le_pos; [rlra|]. left. tauto.
  - apply Rmult_le_compat_l; [rlra|tauto].
Qed.


Ltac decide_comparisons :=
  repeat match goal with
  | |- context [Rgtb ?a ?b] =>
      destruct (MeasurementsProofs.Rgtb_spec a b);
      first [solve [exfalso; rlra] | idtac]
  | |- context [Rltb ?a ?b] =>
      destruct (MeasurementsProofs.Rltb_spec a b);
      first [solve [exfalso; rlra] | idtac]
  end.

Lemma three_chunks_download :
  exists d : Download,
    download (Some three_chunks) 1000 3 1001 = Some d /\
    dl_total_bytes d = 203840%Z /\
    map fst (dl_samples d) = [10001 / 10 - 1000; 10009 / 10 - 1000].
Proof.
  unfold download, three_chunks, sampling_start.
  cbn [read_loop Z.leb Z.compare Pos.compare Pos.compare_cont
       sm_total_bytes sm_bytes_in_interval sm_last_sample_time sm_samples].
  decide_comparisons.
  cbn [Z.leb Z.compare sm_total_bytes sm_bytes_in_interval sm_last_sample_time
       sm_samples Z.add].
  decide_comparisons. cbn. decide_comparisons. cbn.
  eexists. split; [reflexivity|]. split; reflexivity.
Qed.

Lemma samples_account_for_bytes_witness :
  exists d : Download,
    download (Some three_chunks) 1000 3 1001 = Some d /\
    62500 * total (map snd (dl_samples d)) <= IZR (dl_total_bytes d) /\
    spaced (map fst (dl_samples d)).
Proof.
  destruct three_chunks_download as (d & Hd & _).
  exists d. split; [exact Hd|].
  destruct (samples_account_for_bytes (Some three_chunks) 1000 3 1001 d Hd)
    as (H1 & _ & H3 & _).
  split; [exact H1|exact H3].
Defined.

(** X29: the first chunk is always sampled on its own.  The time of the
    last sample starts at 0, not at the start of the download, so when the
    clock reads at least half a second (it reads seconds since 1970) the
    first chunk that is read gives the first sample, at the offset of that
    read, with the rate of this one chunk taken over half a second. *)
Theorem first_chunk_is_sampled (now : R) (size : Z) (rest : list (R * Read))
    (start_time duration end_time : R) (d : Download)
    (Hclock : 0.5 <= now) (Hin : now - start_time <= duration)
    (Hsize : (0 < size)%Z)
    (Hd : download (Some ((now, Chunk size) :: rest)) start_time duration
            end_time = Some d) :
  exists more : list (R * R),
    dl_samples d =
      (now - start_time, IZR (size * 8) / (0.5 * 1000000)) :: more.
Proof.
  revert Hd. unfold download. cbn [read_loop].
  destruct (MeasurementsProofs.Rgtb_spec (now - start_time) duration)
    as [H|_]; [exfalso; rlra|].
  destruct (Z.leb_spec size 0) as [H|_]; [lia|].
  cbn [sampling_start sm_last_sample_time sm_total_bytes sm_bytes_in_interval
       sm_samples].
  destruct (MeasurementsProofs.Rltb_spec (now - 0) 0.5) as [H|_];
    [exfalso; rlra|].
  destruct (read_loop start_time duration rest _) as [st|] eqn:E; [|discriminate].
  apply read_loop_invariant in E as [_ [more Hmore]].
  - intros [= <-]. cbn [dl_samples]. exists more. rewrite Hmore. reflexivity.
  - apply (read_loop_invariant start_time duration [(now, Chunk size)]
             sampling_start); [apply sampling_start_invariant|].
    cbn [read_loop].
    destruct (MeasurementsProofs.Rgtb_spec (now - start_time) duration)
      as [H|_]; [exfalso; rlra|].
    destruct (Z.leb_spec size 0) as [H|_]; [lia|].
    cbn [sampling_start sm_last_sample_time].
    destruct (MeasurementsProofs.Rltb_spec (now - 0) 0.5) as [H|_];
      [exfalso; rlra|].
    reflexivity.
Qed.

Lemma first_chunk_is_sampled_witness :
  0.5 <= 10001 / 10 /\ 10001 / 10 - 1000 <= 3 /\ (0 < 81920)%Z /\
  exists (d : Download) (more : list (R * R)),
    download (Some three_chunks) 1000 3 1001 = Some d /\
    dl_samples d =
      (10001 / 10 - 1000, IZR (81920 * 8) / (0.5 * 1000000)) :: more.
Proof.
  assert (H1 : 0.5 <= 10001 / 10) by rlra.
  assert (H2 : 10001 / 10 - 1000 <= 3) by rlra.
  assert (H3 : (0 < 81920)%Z) by lia.
  split; [exact H1|]. split; [exact H2|]. split; [exact H3|].
  destruct three_chunks_download as (d & Hd & _).
  exists d.
  destruct (first_chunk_is_sampled _ _ _ _ _ _ d H1 H2 H3 Hd) as [more Hmore].
  exists more. split; [exact Hd|exact Hmore].
Defined.


Lemma read_loop_offsets (start_time duration : R) (reads : list (R * Read)) :
  forall st st' : Sampling,
  Forall (fun r : R * Read => start_time <= fst r) reads ->
  Forall (fun s : R * R => 0 <= fst s) (sm_samples st) ->
  read_loop start_time duration reads st = Some st' ->
  Forall (fun s : R * R => 0 <= fst s) (sm_samples st').
Proof.
  induction reads as [|[now r] rest IH]; intros st st' Hclock Hst.
  - cbn. intros [= <-]. exact Hst.
  - cbn [read_loop]. inversion Hclock as [|? ? Hnow Hrest]; subst.
    cbn [fst] in Hnow.
    destruct (Rgtb _ duration); [intros [= <-]; exact Hst|].
    destruct r as [size|]; [|discriminate].
    destruct (size <=? 0)%Z; [intros [= <-]; exact Hst|].
    destruct (Rltb _ 0.5); apply IH; try exact Hrest; cbn [sm_samples];
      [exact Hst|].
    apply Forall_app. split; [exact Hst|]. constructor; [|constructor].
    cbn [fst]. rlra.
Qed.

Lemma spaced_span (t b : R) (rest : list R) :
  spaced (t :: rest) -> Forall (fun x => x <= b) (t :: rest) ->
  t + 0.5 * INR (length rest) <= b.
Proof.
  revert t. induction rest as [|t' rest IH]; intros t Hs Hb.
  - inversion Hb; subst. cbn. rlra.
  - destruct Hs as [Hgap Hs]. inversion Hb as [|? ? _ Hb']; subst.
    specialize (IH t' Hs Hb'). cbn [length]. rewrite S_INR. rlra.
Qed.

(** X30: a download gives at most [2 * duration + 1] samples.  When the
    clock never reads less than it did at the start of the download, the
    offsets of the samples lie between 0 and the duration and are half a
    second apart, so there are at most [2 * duration + 1] of them: seven
    for a download of three seconds. *)
Theorem sample_count_bound (reads : list (R * Read))
    (start_time duration end_time : R) (d : Download)
    (Hclock : Forall (fun r : R * Read => start_time <= fst r) reads)
    (Hd : download (Some reads) start_time duration end_time = Some d) :
  dl_samples d = [] \/ INR (length (dl_samples d)) <= 2 * duration + 1.
Proof.
  revert Hd. unfold download.
  destruct (read_loop start_time duration reads sampling_start) as [st|] eqn:E;
    [|discriminate].
  intros [= <-]. cbn [dl_samples].
  assert (Hpos : Forall (fun s : R * R => 0 <= fst s) (sm_samples st)).
  { apply (read_loop_offsets start_time duration reads sampling_start st Hclock);
      [constructor|exact E]. }
  apply read_loop_invariant in E as [(_ & _ & Hall & Hsp & _) _];
    [|apply sampling_start_invariant].
  destruct (sm_samples st) as [|s rest]; [left; reflexivity|right].
  cbn [map] in Hsp.
  assert (Hb : Forall (fun x => x <= duration) (fst s :: map fst rest)).
  { change (fst s :: map fst rest) with (map fst (s :: rest)).
    apply Forall_map. eapply Forall_impl; [exact Hall|].
    intros x [Hx _]. exact Hx. }
  pose proof (spaced_span _ _ _ Hsp Hb) as Hspan.
  rewrite length_map in Hspan.
  inversion Hpos as [|? ? Hs0 _]; subst.
  cbn [length]. rewrite S_INR. rlra.
Qed.

Lemma sample_count_bound_witness :
  Forall (fun r : R * Read => 1000 <= fst r) three_chunks /\
  exists d : Download,
    download (Some three_chunks) 1000 3 1001 = Some d /\
    (dl_samples d = [] \/ INR (length (dl_samples d)) <= 2 * 3 + 1).
Proof.
  assert (Hclock : Forall (fun r : R * Read => 1000 <= fst r) three_chunks).
  { unfold three_chunks. repeat constructor; cbn [fst]; rlra. }
  split; [exact Hclock|].
  destruct three_chunks_download as (d & Hd & _).
  exists d. split; [exact Hd|].
  exact (sample_count_bound three_chunks 1000 3 1001 d Hclock Hd).
Defined.

End SamplingProofs.
